(** * libevtx record values: header parsing and lazily memoised accessors

    A shallow embedding of [libevtx/libevtx_record_values.c].  Integers of a
    fixed C width are values of [Z] with their wrap-around written out, the
    chunk buffer is a list of bytes, and the XML documents built by libfwevt
    live in a store indexed by address, so that the handles a record keeps
    into its document are addresses plus paths and may alias. *)

From Stdlib Require Import ZArith Lia String Ascii.
From Stdlib.Strings Require Import Byte.
From stdpp Require Import base option list gmap strings.

Local Open Scope Z_scope.

(** ** Return codes and libcerror *)

(** The functions return [1] on success, [0] when a value is not available
    and [-1] on error; the return value is kept as a [Z]. *)

Inductive libcerror_domain :=
  | LIBCERROR_ERROR_DOMAIN_ARGUMENTS
  | LIBCERROR_ERROR_DOMAIN_IO
  | LIBCERROR_ERROR_DOMAIN_MEMORY
  | LIBCERROR_ERROR_DOMAIN_RUNTIME.

Inductive libcerror_code :=
  | LIBCERROR_ARGUMENT_ERROR_INVALID_VALUE
  | LIBCERROR_ARGUMENT_ERROR_VALUE_EXCEEDS_MAXIMUM
  | LIBCERROR_ARGUMENT_ERROR_VALUE_OUT_OF_BOUNDS
  | LIBCERROR_MEMORY_ERROR_INSUFFICIENT
  | LIBCERROR_RUNTIME_ERROR_VALUE_MISSING
  | LIBCERROR_RUNTIME_ERROR_VALUE_ALREADY_SET
  | LIBCERROR_RUNTIME_ERROR_VALUE_OUT_OF_BOUNDS
  | LIBCERROR_RUNTIME_ERROR_UNSUPPORTED_VALUE
  | LIBCERROR_RUNTIME_ERROR_INITIALIZE_FAILED
  | LIBCERROR_RUNTIME_ERROR_GET_FAILED
  | LIBCERROR_RUNTIME_ERROR_COPY_FAILED.

(** The error a call leaves behind: the domain, the code and the message of
    the outermost [libcerror_error_set] (the function name prefix of the
    message is left out). *)
Record libcerror_error_t := Error {
  error_domain : libcerror_domain;
  error_code : libcerror_code;
  error_message : string
}.

(** [libcerror_error_set( error, domain, code, message )]. *)
Definition set_error (d : libcerror_domain) (c : libcerror_code)
    (m : string) : option libcerror_error_t :=
  Some (Error d c m).

Global Instance libcerror_domain_eq_dec : EqDecision libcerror_domain.
Proof. solve_decision. Defined.
Global Instance libcerror_code_eq_dec : EqDecision libcerror_code.
Proof. solve_decision. Defined.
Global Instance libcerror_error_eq_dec : EqDecision libcerror_error_t.
Proof. solve_decision. Defined.

(** ** Machine integers *)

(** [size_t] is taken to be 64 bits wide (LP64), [SSIZE_MAX] accordingly. *)
Definition SIZE_WIDTH : Z := 64.
Definition SSIZE_MAX : Z := 2 ^ 63 - 1.

Definition size_t_wrap (z : Z) : Z := z mod 2 ^ SIZE_WIDTH.
Definition uint32_wrap (z : Z) : Z := z mod 2 ^ 32.

Definition size_t_add (a b : Z) : Z := size_t_wrap (a + b).
Definition size_t_sub (a b : Z) : Z := size_t_wrap (a - b).
Definition uint32_sub (a b : Z) : Z := uint32_wrap (a - b).
Definition uint32_shiftl (a n : Z) : Z := uint32_wrap (Z.shiftl a n).

(** ** Byte streams *)

Definition uint8_of_byte (b : byte) : Z := Z.of_N (Byte.to_N b).

(** [stream[i]]; the C code only reads inside the bounds it has checked, a
    read past the end of the list yields [0]. *)
Definition byte_at (stream : list byte) (i : nat) : Z :=
  match stream !! i with
  | Some b => uint8_of_byte b
  | None => 0
  end.

(** Modelled from the spec: the macros of [byte_stream.h], which is not under
    src/; the spec gives the header fields as little-endian integers. *)
Definition byte_stream_copy_to_uint32_little_endian (stream : list byte) : Z :=
  Z.lor (Z.shiftl (Z.lor (Z.shiftl (Z.lor (Z.shiftl
    (byte_at stream 3) 8) (byte_at stream 2)) 8) (byte_at stream 1)) 8)
    (byte_at stream 0).

Definition byte_stream_copy_to_uint64_little_endian (stream : list byte) : Z :=
  Z.lor (Z.shiftl (Z.lor (Z.shiftl (Z.lor (Z.shiftl (Z.lor (Z.shiftl
  (Z.lor (Z.shiftl (Z.lor (Z.shiftl (Z.lor (Z.shiftl
    (byte_at stream 7) 8) (byte_at stream 6)) 8) (byte_at stream 5)) 8)
    (byte_at stream 4)) 8) (byte_at stream 3)) 8) (byte_at stream 2)) 8)
    (byte_at stream 1)) 8) (byte_at stream 0).

Global Instance byte_eq_decision : EqDecision byte := Byte.byte_eq_dec.

(** [memory_compare( a, b, n ) == 0]: the first [n] bytes agree. *)
Definition memory_compare_equal (a b : list byte) (n : nat) : bool :=
  bool_decide (take n a = take n b).

(** ** The event record header *)

(** Modelled from the spec: the layout of [evtx_event_record_header_t]
    ([evtx_event_record.h] is not under src/): signature[4], size (u32),
    identifier (u64), written_time (u64), all little-endian. *)
Definition header_signature_offset : nat := 0.
Definition header_size_offset : nat := 4.
Definition header_identifier_offset : nat := 8.
Definition header_written_time_offset : nat := 16.
Definition sizeof_evtx_event_record_header_t : Z := 24.

Definition evtx_event_record_signature : list byte :=
  [x2a; x2a; x00; x00]%byte.

(** ** Handles into XML documents *)

(** The address of an XML document in the store. *)
Abbreviation addr := nat.

(** One step from a tag to one of its attributes or child elements. *)
Inductive tag_step :=
  | AttributeStep (i : nat)
  | ElementStep (i : nat).

Global Instance tag_step_eq_dec : EqDecision tag_step.
Proof. solve_decision. Defined.

(** A [libfwevt_xml_tag_t *]: the document the tag lives in and the path to
    it from the root tag. *)
Record tag_ptr := TagPtr {
  ptr_document : addr;
  ptr_path : list tag_step
}.

Global Instance tag_ptr_eq_dec : EqDecision tag_ptr.
Proof. solve_decision. Defined.

(** A [libfvalue_value_t *]: the value owned by the tag at that place. *)
Record value_ptr := ValuePtr { value_owner : tag_ptr }.

Global Instance value_ptr_eq_dec : EqDecision value_ptr.
Proof. solve_decision. Defined.

(** ** The record values *)

(** [libevtx_record_values_t], with the fields the functions use (the header
    [libevtx_record_values.h] is not under src/).  A [NULL] pointer is
    [None]. *)
Record libevtx_record_values_t := RecordValues {
  chunk_data_offset : Z;
  data_size : Z;
  identifier : Z;
  written_time : Z;
  xml_document : option addr;
  event_identifier_value : option value_ptr;
  level_value : option value_ptr;
  provider_name_value : option value_ptr;
  computer_value : option value_ptr;
  event_data_xml_tag : option tag_ptr;
  event_data_type : Z;
  binary_data_value : option value_ptr
}.

Global Instance libevtx_record_values_eq_dec : EqDecision libevtx_record_values_t.
Proof. solve_decision. Defined.

(** The record after [memory_set( record_values, 0, sizeof( ... ) )]. *)
Definition zeroed_record_values : libevtx_record_values_t :=
  RecordValues 0 0 0 0 None None None None None None 0 None.

Definition set_header_fields (r : libevtx_record_values_t)
    (offset size ident time : Z) : libevtx_record_values_t :=
  RecordValues offset size ident time (xml_document r)
    (event_identifier_value r) (level_value r) (provider_name_value r)
    (computer_value r) (event_data_xml_tag r) (event_data_type r)
    (binary_data_value r).

Definition set_xml_document (r : libevtx_record_values_t)
    (d : option addr) : libevtx_record_values_t :=
  RecordValues (chunk_data_offset r) (data_size r) (identifier r)
    (written_time r) d
    (event_identifier_value r) (level_value r) (provider_name_value r)
    (computer_value r) (event_data_xml_tag r) (event_data_type r)
    (binary_data_value r).

Definition set_event_identifier_value (r : libevtx_record_values_t)
    (v : option value_ptr) : libevtx_record_values_t :=
  RecordValues (chunk_data_offset r) (data_size r) (identifier r)
    (written_time r) (xml_document r)
    v (level_value r) (provider_name_value r)
    (computer_value r) (event_data_xml_tag r) (event_data_type r)
    (binary_data_value r).

Definition set_level_value (r : libevtx_record_values_t)
    (v : option value_ptr) : libevtx_record_values_t :=
  RecordValues (chunk_data_offset r) (data_size r) (identifier r)
    (written_time r) (xml_document r)
    (event_identifier_value r) v (provider_name_value r)
    (computer_value r) (event_data_xml_tag r) (event_data_type r)
    (binary_data_value r).

Definition set_event_data (r : libevtx_record_values_t)
    (t : option tag_ptr) (ty : Z) : libevtx_record_values_t :=
  RecordValues (chunk_data_offset r) (data_size r) (identifier r)
    (written_time r) (xml_document r)
    (event_identifier_value r) (level_value r) (provider_name_value r)
    (computer_value r) t ty
    (binary_data_value r).

(** The I/O handle; only the code page is read, by the XML reader. *)
Record libevtx_io_handle_t := IoHandle { ascii_codepage : Z }.

(** ** Reading the header *)

(** [libevtx_record_values_read_header] (lines 260-526, without the debug
    output).  The result is the return value, the record as the call leaves
    it and the error that was set. *)
Definition libevtx_record_values_read_header
    (record_values : option libevtx_record_values_t)
    (io_handle : option libevtx_io_handle_t)
    (chunk_data : option (list byte))
    (chunk_data_size : Z)
    (chunk_data_offset : Z)
  : Z * option libevtx_record_values_t * option libcerror_error_t :=
  match record_values, io_handle, chunk_data with
  | None, _, _ =>
      (-1, record_values,
       set_error LIBCERROR_ERROR_DOMAIN_ARGUMENTS
         LIBCERROR_ARGUMENT_ERROR_INVALID_VALUE "invalid record values.")
  | Some _, None, _ =>
      (-1, record_values,
       set_error LIBCERROR_ERROR_DOMAIN_ARGUMENTS
         LIBCERROR_ARGUMENT_ERROR_INVALID_VALUE "invalid IO handle.")
  | Some _, Some _, None =>
      (-1, record_values,
       set_error LIBCERROR_ERROR_DOMAIN_ARGUMENTS
         LIBCERROR_ARGUMENT_ERROR_INVALID_VALUE "invalid chunk data.")
  | Some rv, Some _, Some data =>
      if chunk_data_size >? SSIZE_MAX then
        (-1, record_values,
         set_error LIBCERROR_ERROR_DOMAIN_ARGUMENTS
           LIBCERROR_ARGUMENT_ERROR_VALUE_EXCEEDS_MAXIMUM
           "invalid chunk data size value exceeds maximum.")
      else if chunk_data_offset >=? chunk_data_size then
        (-1, record_values,
         set_error LIBCERROR_ERROR_DOMAIN_ARGUMENTS
           LIBCERROR_ARGUMENT_ERROR_VALUE_OUT_OF_BOUNDS
           "invalid chunk data offset value out of bounds.")
      else
      let event_record_data := drop (Z.to_nat chunk_data_offset) data in
      let event_record_data_size :=
        size_t_sub chunk_data_size chunk_data_offset in
      if event_record_data_size
           <? size_t_add sizeof_evtx_event_record_header_t 4 then
        (-1, record_values,
         set_error LIBCERROR_ERROR_DOMAIN_RUNTIME
           LIBCERROR_RUNTIME_ERROR_VALUE_OUT_OF_BOUNDS
           "invalid event record data size value too small.")
      else if negb (memory_compare_equal
                      (drop header_signature_offset event_record_data)
                      evtx_event_record_signature 4) then
        (-1, record_values,
         set_error LIBCERROR_ERROR_DOMAIN_RUNTIME
           LIBCERROR_RUNTIME_ERROR_UNSUPPORTED_VALUE
           "unsupported event record signature.")
      else
      let rv' :=
        set_header_fields rv chunk_data_offset
          (byte_stream_copy_to_uint32_little_endian
             (drop header_size_offset event_record_data))
          (byte_stream_copy_to_uint64_little_endian
             (drop header_identifier_offset event_record_data))
          (byte_stream_copy_to_uint64_little_endian
             (drop header_written_time_offset event_record_data)) in
      if (data_size rv' <? sizeof_evtx_event_record_header_t)
         || (data_size rv' >? size_t_sub event_record_data_size 4) then
        (-1, Some rv',
         set_error LIBCERROR_ERROR_DOMAIN_RUNTIME
           LIBCERROR_RUNTIME_ERROR_VALUE_OUT_OF_BOUNDS
           "invalid event record data size value out of bounds.")
      else
      let copy_of_size :=
        byte_stream_copy_to_uint32_little_endian
          (drop (Z.to_nat (uint32_sub (data_size rv') 4)) event_record_data) in
      (* TODO validate size with copy *)
      (1, Some rv', None)
  end.

(** ** libfvalue and libfwevt

    Both libraries are used through their interfaces only; their sources are
    not under src/. *)

(** Modelled from the spec: a typed value of libfvalue, with the kinds of
    value the accessors tell apart (an integer of any of the integer types, a
    string, a binary blob, the null value). *)
Inductive libfvalue_value_t :=
  | ValueNull
  | ValueInteger (n : Z)
  | ValueString (s : string)
  | ValueBinary (data : list byte).

(** Modelled from the spec: typed-value extraction coerced to an unsigned
    integer of [width] bits, an error when the value is lost. *)
Definition value_to_unsigned (width : Z) (v : libfvalue_value_t) : option Z :=
  match v with
  | ValueInteger n => if (0 <=? n) && (n <? 2 ^ width) then Some n else None
  | _ => None
  end.

(** Modelled from the spec: an XML tag of libfwevt is a name, an optional
    typed value, its attributes and its child elements, both in stream
    order. *)
#[warnings="-register-all"]
Inductive libfwevt_xml_tag_t := XmlTag {
  tag_name : string;
  tag_value : option libfvalue_value_t;
  tag_attributes : list libfwevt_xml_tag_t;
  tag_elements : list libfwevt_xml_tag_t
}.

Record libfwevt_xml_document_t := XmlDocument {
  root_xml_tag : option libfwevt_xml_tag_t
}.

(** The live XML documents, by address. *)
Abbreviation store := (gmap nat libfwevt_xml_document_t).

Fixpoint tag_at (t : libfwevt_xml_tag_t) (path : list tag_step)
  : option libfwevt_xml_tag_t :=
  match path with
  | [] => Some t
  | AttributeStep i :: rest =>
      match tag_attributes t !! i with
      | Some c => tag_at c rest
      | None => None
      end
  | ElementStep i :: rest =>
      match tag_elements t !! i with
      | Some c => tag_at c rest
      | None => None
      end
  end.

(** The tag a handle points to; [None] when the handle dangles. *)
Definition resolve_tag (h : store) (p : tag_ptr) : option libfwevt_xml_tag_t :=
  match h !! ptr_document p with
  | Some d =>
      match root_xml_tag d with
      | Some r => tag_at r (ptr_path p)
      | None => None
      end
  | None => None
  end.

Definition child_ptr (p : tag_ptr) (s : tag_step) : tag_ptr :=
  TagPtr (ptr_document p) (ptr_path p ++ [s]).

(** The first tag of a list that carries the name, with its index. *)
Definition find_by_name (name : string) (tags : list libfwevt_xml_tag_t)
  : option (nat * libfwevt_xml_tag_t) :=
  list_find (λ c, tag_name c = name) tags.

(** Modelled from the spec: the functions of libfwevt and libfvalue that the
    record values call.  Each fails with [-1] on a [NULL] handle (an argument
    error) and on a handle that dangles; an output is written on success
    only. *)
Definition libfwevt_xml_document_get_root_xml_tag (h : store)
    (xml_document : option nat) : Z * option tag_ptr :=
  match xml_document with
  | None => (-1, None)
  | Some a =>
      match h !! a with
      | None => (-1, None)
      | Some d =>
          (1, match root_xml_tag d with
              | Some _ => Some (TagPtr a [])
              | None => None
              end)
      end
  end.

Definition libfwevt_xml_tag_get_element_by_utf8_name (h : store)
    (xml_tag : option tag_ptr) (utf8_string : string) : Z * option tag_ptr :=
  match xml_tag with
  | None => (-1, None)
  | Some p =>
      match resolve_tag h p with
      | None => (-1, None)
      | Some t =>
          match find_by_name utf8_string (tag_elements t) with
          | Some (i, _) => (1, Some (child_ptr p (ElementStep i)))
          | None => (0, None)
          end
      end
  end.

Definition libfwevt_xml_tag_get_attribute_by_utf8_name (h : store)
    (xml_tag : option tag_ptr) (utf8_string : string) : Z * option tag_ptr :=
  match xml_tag with
  | None => (-1, None)
  | Some p =>
      match resolve_tag h p with
      | None => (-1, None)
      | Some t =>
          match find_by_name utf8_string (tag_attributes t) with
          | Some (i, _) => (1, Some (child_ptr p (AttributeStep i)))
          | None => (0, None)
          end
      end
  end.

Definition libfwevt_xml_tag_get_value (h : store)
    (xml_tag : option tag_ptr) : Z * option value_ptr :=
  match xml_tag with
  | None => (-1, None)
  | Some p =>
      match resolve_tag h p with
      | None => (-1, None)
      | Some t =>
          (1, match tag_value t with
              | Some _ => Some (ValuePtr p)
              | None => None
              end)
      end
  end.

Definition libfwevt_xml_tag_get_number_of_elements (h : store)
    (xml_tag : option tag_ptr) : Z * Z :=
  match xml_tag with
  | None => (-1, 0)
  | Some p =>
      match resolve_tag h p with
      | None => (-1, 0)
      | Some t => (1, Z.of_nat (length (tag_elements t)))
      end
  end.

Definition libfwevt_xml_tag_get_element_by_index (h : store)
    (xml_tag : option tag_ptr) (element_index : Z) : Z * option tag_ptr :=
  match xml_tag with
  | None => (-1, None)
  | Some p =>
      match resolve_tag h p with
      | None => (-1, None)
      | Some t =>
          if (element_index <? 0)
             || (Z.of_nat (length (tag_elements t)) <=? element_index)
          then (-1, None)
          else (1, Some (child_ptr p (ElementStep (Z.to_nat element_index))))
      end
  end.

(** The size of the name in UTF-8, the end-of-string character included. *)
Definition libfwevt_xml_tag_get_utf8_name_size (h : store)
    (xml_tag : option tag_ptr) : Z * Z :=
  match xml_tag with
  | None => (-1, 0)
  | Some p =>
      match resolve_tag h p with
      | None => (-1, 0)
      | Some t => (1, Z.of_nat (String.length (tag_name t)) + 1)
      end
  end.

(** The name copied into a buffer of [utf8_string_size] bytes, which has to
    hold the end-of-string character too. *)
Definition libfwevt_xml_tag_get_utf8_name (h : store)
    (xml_tag : option tag_ptr) (utf8_string_size : Z) : Z * string :=
  match xml_tag with
  | None => (-1, EmptyString)
  | Some p =>
      match resolve_tag h p with
      | None => (-1, EmptyString)
      | Some t =>
          if utf8_string_size <? Z.of_nat (String.length (tag_name t)) + 1
          then (-1, EmptyString)
          else (1, tag_name t)
      end
  end.

(** [libcstring_narrow_string_compare( a, b, n ) == 0]. *)
Definition libcstring_narrow_string_compare_equal (a b : string) (n : nat)
  : bool :=
  bool_decide (substring 0 n a = substring 0 n b).

Definition resolve_value (h : store) (value : option value_ptr)
  : option libfvalue_value_t :=
  match value with
  | None => None
  | Some v =>
      match resolve_tag h (value_owner v) with
      | Some t => tag_value t
      | None => None
      end
  end.

(** [Some n] when the call returns [1] and writes [n]. *)
Definition libfvalue_value_copy_to_32bit (h : store)
    (value : option value_ptr) : option Z :=
  match resolve_value h value with
  | Some v => value_to_unsigned 32 v
  | None => None
  end.

Definition libfvalue_value_copy_to_8bit (h : store)
    (value : option value_ptr) : option Z :=
  match resolve_value h value with
  | Some v => value_to_unsigned 8 v
  | None => None
  end.

(** Modelled from the spec: the clone of a document is a copy of its tree at
    an address of its own. *)
Definition libfwevt_xml_document_clone (h : store) (source : nat)
  : option (store * nat) :=
  match h !! source with
  | Some d => let a := fresh (dom h) in Some (<[a := d]> h, a)
  | None => None
  end.

(** ** The accessors *)

(** [libevtx_record_values_get_event_identifier] (lines 718-886).
    [event_identifier] is the content of the output cell before the call; the
    result is the return value, the record and the output cell as the call
    leaves them, and the error that was set. *)
Definition libevtx_record_values_get_event_identifier (h : store)
    (record_values : option libevtx_record_values_t) (event_identifier : Z)
  : Z * option libevtx_record_values_t * Z * option libcerror_error_t :=
  match record_values with
  | None =>
      (-1, None, event_identifier,
       set_error LIBCERROR_ERROR_DOMAIN_ARGUMENTS
         LIBCERROR_ARGUMENT_ERROR_INVALID_VALUE "invalid record values.")
  | Some rv =>
  if bool_decide (xml_document rv = None) then
    (-1, Some rv, event_identifier,
     set_error LIBCERROR_ERROR_DOMAIN_RUNTIME
       LIBCERROR_RUNTIME_ERROR_VALUE_MISSING
       "invalid record values - missing XML document.")
  else
  (* the block that fills the memoised value; [eventid_xml_tag] starts out
     as NULL and is assigned inside the block only *)
  let resolved : libcerror_error_t
                 + libevtx_record_values_t * option tag_ptr :=
    if bool_decide (event_identifier_value rv = None) then
      let '(result, root_xml_tag) :=
        libfwevt_xml_document_get_root_xml_tag h (xml_document rv) in
      if negb (result =? 1) then
        inl (Error LIBCERROR_ERROR_DOMAIN_RUNTIME
               LIBCERROR_RUNTIME_ERROR_GET_FAILED
               "unable to retrieve root XML element.")
      else
      let '(result, system_xml_tag) :=
        libfwevt_xml_tag_get_element_by_utf8_name h root_xml_tag "System" in
      if negb (result =? 1) then
        inl (Error LIBCERROR_ERROR_DOMAIN_RUNTIME
               LIBCERROR_RUNTIME_ERROR_GET_FAILED
               "unable to retrieve System XML element.")
      else
      let '(result, eventid_xml_tag) :=
        libfwevt_xml_tag_get_element_by_utf8_name h system_xml_tag
          "EventID" in
      if negb (result =? 1) then
        inl (Error LIBCERROR_ERROR_DOMAIN_RUNTIME
               LIBCERROR_RUNTIME_ERROR_GET_FAILED
               "unable to retrieve EventID XML element.")
      else
      let '(result, value) :=
        libfwevt_xml_tag_get_value h eventid_xml_tag in
      if negb (result =? 1) then
        inl (Error LIBCERROR_ERROR_DOMAIN_RUNTIME
               LIBCERROR_RUNTIME_ERROR_GET_FAILED
               "unable to retrieve EventID XML element value.")
      else inr (set_event_identifier_value rv value, eventid_xml_tag)
    else inr (rv, None) in
  match resolved with
  | inl e => (-1, Some rv, event_identifier, Some e)
  | inr (rv, eventid_xml_tag) =>
  match libfvalue_value_copy_to_32bit h (event_identifier_value rv) with
  | None =>
      (-1, Some rv, event_identifier,
       set_error LIBCERROR_ERROR_DOMAIN_RUNTIME
         LIBCERROR_RUNTIME_ERROR_COPY_FAILED
         "unable to copy value to event identifier.")
  | Some event_identifier =>
  let '(result, qualifiers_xml_tag) :=
    libfwevt_xml_tag_get_attribute_by_utf8_name h eventid_xml_tag
      "Qualifiers" in
  if result =? -1 then
    (-1, Some rv, event_identifier,
     set_error LIBCERROR_ERROR_DOMAIN_RUNTIME
       LIBCERROR_RUNTIME_ERROR_GET_FAILED
       "unable to retrieve Qualifiers XML attribute.")
  else if negb (result =? 0) then
    let '(result, qualifiers_value) :=
      libfwevt_xml_tag_get_value h qualifiers_xml_tag in
    if negb (result =? 1) then
      (-1, Some rv, event_identifier,
       set_error LIBCERROR_ERROR_DOMAIN_RUNTIME
         LIBCERROR_RUNTIME_ERROR_GET_FAILED
         "unable to retrieve Qualifiers XML element value.")
    else
    match libfvalue_value_copy_to_32bit h qualifiers_value with
    | None =>
        (-1, Some rv, event_identifier,
         set_error LIBCERROR_ERROR_DOMAIN_RUNTIME
           LIBCERROR_RUNTIME_ERROR_COPY_FAILED
           "unable to copy value to qualifiers.")
    | Some qualifiers =>
        let qualifiers := uint32_shiftl qualifiers 16 in
        (1, Some rv, Z.lor event_identifier qualifiers, None)
    end
  else (1, Some rv, event_identifier, None)
  end
  end
  end.

(** [libevtx_record_values_get_event_level] (lines 891-1002). *)
Definition libevtx_record_values_get_event_level (h : store)
    (record_values : option libevtx_record_values_t) (event_level : Z)
  : Z * option libevtx_record_values_t * Z * option libcerror_error_t :=
  match record_values with
  | None =>
      (-1, None, event_level,
       set_error LIBCERROR_ERROR_DOMAIN_ARGUMENTS
         LIBCERROR_ARGUMENT_ERROR_INVALID_VALUE "invalid record values.")
  | Some rv =>
  if bool_decide (xml_document rv = None) then
    (-1, Some rv, event_level,
     set_error LIBCERROR_ERROR_DOMAIN_RUNTIME
       LIBCERROR_RUNTIME_ERROR_VALUE_MISSING
       "invalid record values - missing XML document.")
  else
  let resolved : libcerror_error_t + libevtx_record_values_t :=
    if bool_decide (level_value rv = None) then
      let '(result, root_xml_tag) :=
        libfwevt_xml_document_get_root_xml_tag h (xml_document rv) in
      if negb (result =? 1) then
        inl (Error LIBCERROR_ERROR_DOMAIN_RUNTIME
               LIBCERROR_RUNTIME_ERROR_GET_FAILED
               "unable to retrieve root XML element.")
      else
      let '(result, system_xml_tag) :=
        libfwevt_xml_tag_get_element_by_utf8_name h root_xml_tag "System" in
      if negb (result =? 1) then
        inl (Error LIBCERROR_ERROR_DOMAIN_RUNTIME
               LIBCERROR_RUNTIME_ERROR_GET_FAILED
               "unable to retrieve System XML element.")
      else
      let '(result, level_xml_tag) :=
        libfwevt_xml_tag_get_element_by_utf8_name h system_xml_tag "Level" in
      if negb (result =? 1) then
        inl (Error LIBCERROR_ERROR_DOMAIN_RUNTIME
               LIBCERROR_RUNTIME_ERROR_GET_FAILED
               "unable to retrieve Level XML element.")
      else
      let '(result, value) := libfwevt_xml_tag_get_value h level_xml_tag in
      if negb (result =? 1) then
        inl (Error LIBCERROR_ERROR_DOMAIN_RUNTIME
               LIBCERROR_RUNTIME_ERROR_GET_FAILED
               "unable to retrieve Level XML element value.")
      else inr (set_level_value rv value)
    else inr rv in
  match resolved with
  | inl e => (-1, Some rv, event_level, Some e)
  | inr rv =>
  match libfvalue_value_copy_to_8bit h (level_value rv) with
  | None =>
      (-1, Some rv, event_level,
       set_error LIBCERROR_ERROR_DOMAIN_RUNTIME
         LIBCERROR_RUNTIME_ERROR_COPY_FAILED
         "unable to copy value to event level.")
  | Some event_level => (1, Some rv, event_level, None)
  end
  end
  end.

(** ** The event data and the number of strings *)

Section EventData.

(** The two event data types of [libevtx_record_values.h], which is not
    under src/; they are taken as parameters. *)
Variable LIBEVTX_RECORD_VALUES_EVENT_DATA_TYPE_EVENT_DATA : Z.
Variable LIBEVTX_RECORD_VALUES_EVENT_DATA_TYPE_USER_DATA : Z.

(** [libevtx_record_values_get_event_data_xml_tag] (lines 2231-2382).  The
    two outputs are given as the cells they point to, [None] for a [NULL]
    pointer; the result is the return value, the two cells as the call leaves
    them and the error that was set. *)
Definition libevtx_record_values_get_event_data_xml_tag (h : store)
    (record_values : option libevtx_record_values_t)
    (event_data_xml_tag : option (option tag_ptr))
    (event_data_type : option Z)
  : Z * option (option tag_ptr) * option Z * option libcerror_error_t :=
  match record_values, event_data_xml_tag, event_data_type with
  | None, _, _ =>
      (-1, event_data_xml_tag, event_data_type,
       set_error LIBCERROR_ERROR_DOMAIN_ARGUMENTS
         LIBCERROR_ARGUMENT_ERROR_INVALID_VALUE "invalid record values.")
  | Some _, None, _ =>
      (-1, event_data_xml_tag, event_data_type,
       set_error LIBCERROR_ERROR_DOMAIN_ARGUMENTS
         LIBCERROR_ARGUMENT_ERROR_INVALID_VALUE "invalid event data XML tag.")
  | Some _, Some _, None =>
      (-1, event_data_xml_tag, event_data_type,
       set_error LIBCERROR_ERROR_DOMAIN_ARGUMENTS
         LIBCERROR_ARGUMENT_ERROR_INVALID_VALUE "invalid event data type.")
  | Some rv, Some tag_cell, Some type_cell =>
  let '(result, root_xml_tag) :=
    libfwevt_xml_document_get_root_xml_tag h (xml_document rv) in
  if negb (result =? 1) then
    (-1, Some tag_cell, Some type_cell,
     set_error LIBCERROR_ERROR_DOMAIN_RUNTIME
       LIBCERROR_RUNTIME_ERROR_GET_FAILED
       "unable to retrieve root XML element.")
  else
  (* The event data is either stored in the EventData XML tag *)
  let '(result, found) :=
    libfwevt_xml_tag_get_element_by_utf8_name h root_xml_tag "EventData" in
  if result =? -1 then
    (-1, Some tag_cell, Some type_cell,
     set_error LIBCERROR_ERROR_DOMAIN_RUNTIME
       LIBCERROR_RUNTIME_ERROR_GET_FAILED
       "unable to retrieve EventData XML element.")
  else if negb (result =? 0) then
    (result, Some found,
     Some LIBEVTX_RECORD_VALUES_EVENT_DATA_TYPE_EVENT_DATA, None)
  else
  (* Or the event data is either stored in the UserData XML tag *)
  let '(result, user_data_xml_tag) :=
    libfwevt_xml_tag_get_element_by_utf8_name h root_xml_tag "UserData" in
  if result =? -1 then
    (-1, Some tag_cell, Some type_cell,
     set_error LIBCERROR_ERROR_DOMAIN_RUNTIME
       LIBCERROR_RUNTIME_ERROR_GET_FAILED
       "unable to retrieve UserData XML element.")
  else if negb (result =? 0) then
    let '(result', number_of_elements) :=
      libfwevt_xml_tag_get_number_of_elements h user_data_xml_tag in
    if negb (result' =? 1) then
      (-1, Some tag_cell, Some type_cell,
       set_error LIBCERROR_ERROR_DOMAIN_RUNTIME
         LIBCERROR_RUNTIME_ERROR_GET_FAILED
         "unable to retrieve number of elements.")
    else if negb (number_of_elements =? 1) then
      (-1, Some tag_cell, Some type_cell,
       set_error LIBCERROR_ERROR_DOMAIN_RUNTIME
         LIBCERROR_RUNTIME_ERROR_UNSUPPORTED_VALUE
         "unsupported number of UserData elements.")
    else
    let '(result', first) :=
      libfwevt_xml_tag_get_element_by_index h user_data_xml_tag 0 in
    if negb (result' =? 1) then
      (-1, Some tag_cell, Some type_cell,
       set_error LIBCERROR_ERROR_DOMAIN_RUNTIME
         LIBCERROR_RUNTIME_ERROR_GET_FAILED
         "unable to retrieve first UserData element.")
    else
      (result, Some first,
       Some LIBEVTX_RECORD_VALUES_EVENT_DATA_TYPE_USER_DATA, None)
  else (result, Some tag_cell, Some type_cell, None)
  end.

(** The loop of [libevtx_record_values_get_number_of_strings] over the
    elements of the EventData tag (lines 2479-2563): [iterations] is the
    number of indices still to visit, the result is the return value (of the
    function when [-1], [1] when the loop runs to its end), the count and the
    error that was set. *)
Fixpoint number_of_strings_loop (h : store) (event_data : option tag_ptr)
    (iterations : nat) (element_index number_of_strings : Z)
  : Z * Z * option libcerror_error_t :=
  match iterations with
  | O => (1, number_of_strings, None)
  | S iterations =>
  let '(result, element_xml_tag) :=
    libfwevt_xml_tag_get_element_by_index h event_data element_index in
  if negb (result =? 1) then
    (-1, number_of_strings,
     set_error LIBCERROR_ERROR_DOMAIN_RUNTIME
       LIBCERROR_RUNTIME_ERROR_GET_FAILED "unable to retrieve element: %d.")
  else if bool_decide (element_xml_tag = None) then
    (-1, number_of_strings,
     set_error LIBCERROR_ERROR_DOMAIN_RUNTIME
       LIBCERROR_RUNTIME_ERROR_VALUE_MISSING "missing element: %d.")
  else
  let '(result, element_name_size) :=
    libfwevt_xml_tag_get_utf8_name_size h element_xml_tag in
  if negb (result =? 1) then
    (-1, number_of_strings,
     set_error LIBCERROR_ERROR_DOMAIN_RUNTIME
       LIBCERROR_RUNTIME_ERROR_GET_FAILED
       "unable to retrieve element: %d name size.")
  else if element_name_size =? 5 then
    let '(result, element_name) :=
      libfwevt_xml_tag_get_utf8_name h element_xml_tag 5 in
    if negb (result =? 1) then
      (-1, number_of_strings,
       set_error LIBCERROR_ERROR_DOMAIN_RUNTIME
         LIBCERROR_RUNTIME_ERROR_GET_FAILED
         "unable to retrieve element: %d name.")
    else if libcstring_narrow_string_compare_equal element_name "Data" 4 then
      if negb (element_index =? number_of_strings) then
        (-1, number_of_strings,
         set_error LIBCERROR_ERROR_DOMAIN_RUNTIME
           LIBCERROR_RUNTIME_ERROR_UNSUPPORTED_VALUE
           "unsupported non-contiguous Data elements.")
      else
        number_of_strings_loop h event_data iterations (element_index + 1)
          (number_of_strings + 1)
    else
      number_of_strings_loop h event_data iterations (element_index + 1)
        number_of_strings
  else
    number_of_strings_loop h event_data iterations (element_index + 1)
      number_of_strings
  end.

(** [libevtx_record_values_get_number_of_strings] (lines 2387-2567);
    [number_of_strings] is the output cell, [None] for a [NULL] pointer. *)
Definition libevtx_record_values_get_number_of_strings (h : store)
    (record_values : option libevtx_record_values_t)
    (number_of_strings : option Z)
  : Z * option libevtx_record_values_t * option Z
    * option libcerror_error_t :=
  match record_values with
  | None =>
      (-1, None, number_of_strings,
       set_error LIBCERROR_ERROR_DOMAIN_ARGUMENTS
         LIBCERROR_ARGUMENT_ERROR_INVALID_VALUE "invalid record values.")
  | Some rv =>
  if bool_decide (xml_document rv = None) then
    (-1, Some rv, number_of_strings,
     set_error LIBCERROR_ERROR_DOMAIN_RUNTIME
       LIBCERROR_RUNTIME_ERROR_VALUE_MISSING
       "invalid record values - missing XML document.")
  else if bool_decide (number_of_strings = None) then
    (-1, Some rv, number_of_strings,
     set_error LIBCERROR_ERROR_DOMAIN_ARGUMENTS
       LIBCERROR_ARGUMENT_ERROR_INVALID_VALUE "invalid number of strings.")
  else
  let number_of_strings := 0 in
  let '(result, rv) :=
    if bool_decide (event_data_xml_tag rv = None) then
      let '(result, tag_cell, type_cell, _) :=
        libevtx_record_values_get_event_data_xml_tag h (Some rv)
          (Some (event_data_xml_tag rv)) (Some (event_data_type rv)) in
      (result,
       set_event_data rv (default (event_data_xml_tag rv) tag_cell)
         (default (event_data_type rv) type_cell))
    else (0, rv) in
  if result =? -1 then
    (-1, Some rv, Some number_of_strings,
     set_error LIBCERROR_ERROR_DOMAIN_RUNTIME
       LIBCERROR_RUNTIME_ERROR_GET_FAILED
       "unable to retrieve event data XML tag.")
  else if bool_decide (event_data_xml_tag rv = None) then
    (1, Some rv, Some number_of_strings, None)
  else
  let '(result, number_of_elements) :=
    libfwevt_xml_tag_get_number_of_elements h (event_data_xml_tag rv) in
  if negb (result =? 1) then
    (-1, Some rv, Some number_of_strings,
     set_error LIBCERROR_ERROR_DOMAIN_RUNTIME
       LIBCERROR_RUNTIME_ERROR_GET_FAILED
       "unable to retrieve number of elements.")
  else if event_data_type rv
          =? LIBEVTX_RECORD_VALUES_EVENT_DATA_TYPE_USER_DATA then
    (1, Some rv, Some number_of_elements, None)
  else
  let '(result, number_of_strings, error) :=
    number_of_strings_loop h (event_data_xml_tag rv)
      (Z.to_nat number_of_elements) 0 number_of_strings in
  (result, Some rv, Some number_of_strings, error)
  end.

End EventData.

(** ** Cloning *)

(** [libevtx_record_values_clone] (lines 162-255).  The destination is the
    cell [*destination_record_values], [None] for a [NULL] pointer to it;
    [memory_available] says whether [memory_allocate_structure] succeeds.  The
    result is the return value, the store, the destination cell and the error
    that was set. *)
Definition libevtx_record_values_clone (memory_available : bool) (h : store)
    (destination_record_values : option (option libevtx_record_values_t))
    (source_record_values : option libevtx_record_values_t)
  : Z * store * option (option libevtx_record_values_t)
    * option libcerror_error_t :=
  match destination_record_values with
  | None =>
      (-1, h, None,
       set_error LIBCERROR_ERROR_DOMAIN_ARGUMENTS
         LIBCERROR_ARGUMENT_ERROR_INVALID_VALUE
         "invalid destination record values.")
  | Some (Some _) =>
      (-1, h, destination_record_values,
       set_error LIBCERROR_ERROR_DOMAIN_RUNTIME
         LIBCERROR_RUNTIME_ERROR_VALUE_ALREADY_SET
         "invalid destination record values value already set.")
  | Some None =>
  match source_record_values with
  | None => (1, h, Some None, None)
  | Some source =>
  if negb memory_available then
    (-1, h, Some None,
     set_error LIBCERROR_ERROR_DOMAIN_MEMORY
       LIBCERROR_MEMORY_ERROR_INSUFFICIENT
       "unable to create destination record values.")
  else
  (* memory_copy of the whole structure, then the document alone is reset *)
  let destination := source in
  let destination := set_xml_document destination None in
  match xml_document source with
  | None => (1, h, Some (Some destination), None)
  | Some a =>
      match libfwevt_xml_document_clone h a with
      | None =>
          (-1, h, Some None,
           set_error LIBCERROR_ERROR_DOMAIN_RUNTIME
             LIBCERROR_RUNTIME_ERROR_INITIALIZE_FAILED
             "unable to create destination XML document.")
      | Some (h', a') =>
          (1, h', Some (Some (set_xml_document destination (Some a'))), None)
      end
  end
  end
  end.

(** ** Vocabulary of the statements *)

(** The checks of [libevtx_record_values_read_header] on the chunk, before
    the signature is compared: the size fits [ssize_t], the offset lies in
    the chunk and a header with a size copy fits behind it. *)
Definition chunk_bounds_ok (chunk_data_size chunk_data_offset : Z) : Prop :=
  chunk_data_size <= SSIZE_MAX
  /\ 0 <= chunk_data_offset < chunk_data_size
  /\ sizeof_evtx_event_record_header_t + 4
     <= chunk_data_size - chunk_data_offset.

(** The four bytes at the record offset. *)
Definition record_signature (data : list byte) (chunk_data_offset : Z)
  : list byte :=
  take 4 (drop (Z.to_nat chunk_data_offset) data).

(** The size field of the record at the offset. *)
Definition stored_size (data : list byte) (chunk_data_offset : Z) : Z :=
  byte_stream_copy_to_uint32_little_endian
    (drop header_size_offset (drop (Z.to_nat chunk_data_offset) data)).

(** The copy of the size that trails the record. *)
Definition stored_size_copy (data : list byte) (chunk_data_offset : Z) : Z :=
  byte_stream_copy_to_uint32_little_endian
    (drop (Z.to_nat (uint32_sub (stored_size data chunk_data_offset) 4))
       (drop (Z.to_nat chunk_data_offset) data)).

(** The record once the header fields are stored. *)
Definition with_header (rv : libevtx_record_values_t) (data : list byte)
    (chunk_data_offset : Z) : libevtx_record_values_t :=
  set_header_fields rv chunk_data_offset
    (stored_size data chunk_data_offset)
    (byte_stream_copy_to_uint64_little_endian
       (drop header_identifier_offset
          (drop (Z.to_nat chunk_data_offset) data)))
    (byte_stream_copy_to_uint64_little_endian
       (drop header_written_time_offset
          (drop (Z.to_nat chunk_data_offset) data))).

Definition unsupported_signature_error : libcerror_error_t :=
  Error LIBCERROR_ERROR_DOMAIN_RUNTIME
    LIBCERROR_RUNTIME_ERROR_UNSUPPORTED_VALUE
    "unsupported event record signature.".

Definition size_out_of_bounds_error : libcerror_error_t :=
  Error LIBCERROR_ERROR_DOMAIN_RUNTIME
    LIBCERROR_RUNTIME_ERROR_VALUE_OUT_OF_BOUNDS
    "invalid event record data size value out of bounds.".

(** The header fields of a record, as a tuple. *)
Definition header_fields (rv : libevtx_record_values_t) : Z * Z * Z * Z :=
  (chunk_data_offset rv, data_size rv, identifier rv, written_time rv).

(** A byte from its number, for writing buffers down. *)
Definition byte_of_Z (z : Z) : byte := default x00 (Byte.of_N (Z.to_N z)).

(** A chunk of 64 bytes with one record at offset 8. *)
Definition example_chunk (size0 ident0 time0 : Z) (copy : list byte)
  : list byte :=
  replicate 8 x00
  ++ [x2a; x2a; x00; x00]%byte
  ++ [byte_of_Z size0; x00; x00; x00]%byte
  ++ [byte_of_Z ident0; x00; x00; x00; x00; x00; x00; x00]%byte
  ++ [byte_of_Z time0; x00; x00; x00; x00; x00; x00; x00]%byte
  ++ copy
  ++ replicate (32 - length copy) x00.

Definition example_io_handle : libevtx_io_handle_t := IoHandle 1252.

(** ** Vocabulary for the XML tree *)

(** The root tag of the decoded document of a record. *)
Definition record_document (h : store) (rv : libevtx_record_values_t)
  : option libfwevt_xml_tag_t :=
  match xml_document rv with
  | Some a =>
      match h !! a with
      | Some d => root_xml_tag d
      | None => None
      end
  | None => None
  end.

(** The first child element, and the first attribute, of a given name. *)
Definition child_element (name : string) (t : libfwevt_xml_tag_t)
  : option libfwevt_xml_tag_t :=
  snd <$> find_by_name name (tag_elements t).

Definition attribute (name : string) (t : libfwevt_xml_tag_t)
  : option libfwevt_xml_tag_t :=
  snd <$> find_by_name name (tag_attributes t).

(** The value of a tag coerced to an unsigned integer of [width] bits. *)
Definition tag_as_unsigned (width : Z) (t : libfwevt_xml_tag_t) : option Z :=
  match tag_value t with
  | Some v => value_to_unsigned width v
  | None => None
  end.

(** A tag with a value and no children, and a tag with children only. *)
Definition leaf (name : string) (v : libfvalue_value_t)
  : libfwevt_xml_tag_t :=
  XmlTag name (Some v) [] [].

Definition node (name : string) (children : list libfwevt_xml_tag_t)
  : libfwevt_xml_tag_t :=
  XmlTag name None [] children.

(** Scenario S2: EventID 0x1234 with Qualifiers 0x0001, Level 0. *)
Definition qualified_event : libfwevt_xml_tag_t :=
  node "Event"
    [node "System"
       [XmlTag "EventID" (Some (ValueInteger 0x1234))
          [leaf "Qualifiers" (ValueInteger 0x0001)] [];
        leaf "Level" (ValueInteger 0)]].

Definition qualified_store : store :=
  {[ 7%nat := XmlDocument (Some qualified_event) ]}.

Definition qualified_record : libevtx_record_values_t :=
  set_xml_document zeroed_record_values (Some 7%nat).

(** The record of scenario S2 after its first call. *)
Definition qualified_record_resolved : libevtx_record_values_t :=
  set_event_identifier_value qualified_record
    (Some (ValuePtr (TagPtr 7 [ElementStep 0; ElementStep 0]))).

(** EventID 0x1234 with a Qualifiers attribute whose value is a string that
    is no number. *)
Definition text_qualifiers_eventid : libfwevt_xml_tag_t :=
  XmlTag "EventID" (Some (ValueInteger 0x1234))
    [leaf "Qualifiers" (ValueString "abc")] [].

Definition text_qualifiers_system : libfwevt_xml_tag_t :=
  node "System" [text_qualifiers_eventid; leaf "Level" (ValueInteger 0)].

Definition text_qualifiers_event : libfwevt_xml_tag_t :=
  node "Event" [text_qualifiers_system].

Definition text_qualifiers_store : store :=
  {[ 7%nat := XmlDocument (Some text_qualifiers_event) ]}.

(** The field [name] under Event/System is absent: there is no System
    element, or System has no child of that name. *)
Definition system_field_absent (name : string) (root : libfwevt_xml_tag_t)
  : Prop :=
  child_element "System" root = None
  \/ exists system,
       child_element "System" root = Some system
       /\ child_element name system = None.

(** An event without a System element. *)
Definition bare_event : libfwevt_xml_tag_t := node "Event" [].

Definition bare_store : store := {[ 7%nat := XmlDocument (Some bare_event) ]}.

(** ** Vocabulary for the strings *)

Definition non_contiguous_data_error : libcerror_error_t :=
  Error LIBCERROR_ERROR_DOMAIN_RUNTIME
    LIBCERROR_RUNTIME_ERROR_UNSUPPORTED_VALUE
    "unsupported non-contiguous Data elements.".

Definition named_data (t : libfwevt_xml_tag_t) : Prop := tag_name t = "Data".

(** The number of Data elements among the first [i] elements. *)
Definition data_before (elements : list libfwevt_xml_tag_t) (i : nat) : nat :=
  length (filter named_data (take i elements)).

(** What the loop over the elements computes, on the list of the elements
    that are left: whether it runs to its end, and the count it stops at. *)
Fixpoint scan_data (elements : list libfwevt_xml_tag_t) (index count : nat)
  : bool * nat :=
  match elements with
  | [] => (true, count)
  | e :: rest =>
      if bool_decide (named_data e) then
        if bool_decide (index = count)
        then scan_data rest (S index) (S count)
        else (false, count)
      else scan_data rest (S index) count
  end.

(** An EventData element with the children Data, Data, Foo, Data (scenario
    S5), and one where the Data children come first. *)
Definition interleaved_event : libfwevt_xml_tag_t :=
  node "Event"
    [node "System" [];
     node "EventData"
       [leaf "Data" (ValueString "a"); leaf "Data" (ValueString "b");
        leaf "Foo" ValueNull; leaf "Data" (ValueString "c")]].

Definition prefix_event : libfwevt_xml_tag_t :=
  node "Event"
    [node "System" [];
     node "EventData"
       [leaf "Data" (ValueString "a"); leaf "Data" (ValueString "b");
        leaf "Foo" ValueNull]].

Definition interleaved_store : store :=
  {[ 7%nat := XmlDocument (Some interleaved_event) ]}.

Definition prefix_store : store :=
  {[ 7%nat := XmlDocument (Some prefix_event) ]}.

(** The event data container of the record is the element Event/EventData:
    either nothing is memoised yet and the root of the document has that
    child, or the handle to it is memoised together with its type. *)
Definition event_data_container (type_event_data : Z) (h : store)
    (rv : libevtx_record_values_t) (container : libfwevt_xml_tag_t) : Prop :=
  exists root,
    record_document h rv = Some root
    /\ child_element "EventData" root = Some container
    /\ (event_data_xml_tag rv = None
        \/ exists p,
             event_data_xml_tag rv = Some p
             /\ event_data_type rv = type_event_data
             /\ resolve_tag h p = Some container).

(** The memoised handles of a record. *)
Definition memoised_handles (rv : libevtx_record_values_t)
  : option value_ptr * option value_ptr * option value_ptr
    * option value_ptr * option tag_ptr * option value_ptr :=
  (event_identifier_value rv, level_value rv, provider_name_value rv,
   computer_value rv, event_data_xml_tag rv, binary_data_value rv).

(** ** Proof automation *)

(** One step of symbolic execution: decided tests, return codes that are
    known, projections of a record that has just been built. *)
Ltac run_step :=
  first
    [ rewrite bool_decide_eq_false_2 by done
    | rewrite bool_decide_eq_true_2 by done
    | progress change (1 =? 1) with true
    | progress change (0 =? 1) with false
    | progress change (-1 =? 1) with false
    | progress change (1 =? 0) with false
    | progress change (0 =? 0) with true
    | progress change (1 =? -1) with false
    | progress change (0 =? -1) with false
    | progress change (-1 =? -1) with true
    | progress cbn beta iota zeta
    | progress cbn [negb orb andb fst snd xml_document event_identifier_value
                    level_value event_data_xml_tag event_data_type
                    set_event_identifier_value set_level_value
                    set_event_data set_xml_document] ].

Ltac run := repeat run_step.

(** ** The other fields of the record *)

Definition set_provider_name_value (r : libevtx_record_values_t)
    (v : option value_ptr) : libevtx_record_values_t :=
  RecordValues (chunk_data_offset r) (data_size r) (identifier r)
    (written_time r) (xml_document r)
    (event_identifier_value r) (level_value r) v
    (computer_value r) (event_data_xml_tag r) (event_data_type r)
    (binary_data_value r).

Definition set_computer_value (r : libevtx_record_values_t)
    (v : option value_ptr) : libevtx_record_values_t :=
  RecordValues (chunk_data_offset r) (data_size r) (identifier r)
    (written_time r) (xml_document r)
    (event_identifier_value r) (level_value r) (provider_name_value r)
    v (event_data_xml_tag r) (event_data_type r)
    (binary_data_value r).

Definition set_binary_data_value (r : libevtx_record_values_t)
    (v : option value_ptr) : libevtx_record_values_t :=
  RecordValues (chunk_data_offset r) (data_size r) (identifier r)
    (written_time r) (xml_document r)
    (event_identifier_value r) (level_value r) (provider_name_value r)
    (computer_value r) (event_data_xml_tag r) (event_data_type r)
    v.

(** ** Creating and releasing the record values *)

(** The two codes of libcerror that only the functions of this part set. *)
Inductive libcerror_lifecycle_code :=
  | LIBCERROR_RUNTIME_ERROR_FINALIZE_FAILED
  | LIBCERROR_IO_ERROR_READ_FAILED.

(** The error of a function of this part: one of the errors above, or one
    with a code of its own. *)
Inductive lifecycle_error :=
  | Raised (e : libcerror_error_t)
  | RaisedLifecycle (d : libcerror_domain) (c : libcerror_lifecycle_code)
      (m : string).

Definition raise (d : libcerror_domain) (c : libcerror_code) (m : string)
  : option lifecycle_error :=
  Some (Raised (Error d c m)).

(** [libevtx_record_values_initialize] (lines 43-110).  The argument is the
    cell [*record_values], [None] for a [NULL] pointer to it;
    [memory_available] says whether [memory_allocate_structure] succeeds. *)
Definition libevtx_record_values_initialize (memory_available : bool)
    (record_values : option (option libevtx_record_values_t))
  : Z * option (option libevtx_record_values_t) * option lifecycle_error :=
  match record_values with
  | None =>
      (-1, None,
       raise LIBCERROR_ERROR_DOMAIN_ARGUMENTS
         LIBCERROR_ARGUMENT_ERROR_INVALID_VALUE "invalid record values.")
  | Some (Some _) =>
      (-1, record_values,
       raise LIBCERROR_ERROR_DOMAIN_RUNTIME
         LIBCERROR_RUNTIME_ERROR_VALUE_ALREADY_SET
         "invalid record values value already set.")
  | Some None =>
      if negb memory_available then
        (-1, Some None,
         raise LIBCERROR_ERROR_DOMAIN_MEMORY
           LIBCERROR_MEMORY_ERROR_INSUFFICIENT
           "unable to create record values.")
      else (1, Some (Some zeroed_record_values), None)
  end.

(** Modelled from the spec: releasing a document takes its tree out of the
    store; it fails on a [NULL] handle. *)
Definition libfwevt_xml_document_free (h : store)
    (xml_document : option nat) : Z * store * option nat :=
  match xml_document with
  | None => (-1, h, None)
  | Some a => (1, delete a h, None)
  end.

(** [libevtx_record_values_free] (lines 115-157): the document is released
    first, then the record. *)
Definition libevtx_record_values_free (h : store)
    (record_values : option (option libevtx_record_values_t))
  : Z * store * option (option libevtx_record_values_t)
    * option lifecycle_error :=
  match record_values with
  | None =>
      (-1, h, None,
       raise LIBCERROR_ERROR_DOMAIN_ARGUMENTS
         LIBCERROR_ARGUMENT_ERROR_INVALID_VALUE "invalid record values.")
  | Some None => (1, h, Some None, None)
  | Some (Some rv) =>
      if bool_decide (xml_document rv = None) then (1, h, Some None, None)
      else
      let '(result, h, _) :=
        libfwevt_xml_document_free h (xml_document rv) in
      if negb (result =? 1) then
        (-1, h, Some None,
         Some (RaisedLifecycle LIBCERROR_ERROR_DOMAIN_RUNTIME
                 LIBCERROR_RUNTIME_ERROR_FINALIZE_FAILED
                 "unable to free XML document."))
      else (1, h, Some None, None)
  end.

(** ** Reading the XML document *)

Section XmlDocumentRead.

(** The binary XML decoder of libfwevt, [libfwevt_xml_document_read], is
    taken as a parameter: from the chunk, its size, the offset of the
    binary XML and the code page it gives the root tag of the document, or
    nothing when it fails. *)
Variable libfwevt_xml_document_read :
  list byte -> Z -> Z -> Z -> option libfwevt_xml_tag_t.

(** Modelled from the spec: a new document is empty and lives at an address
    of its own. *)
Definition libfwevt_xml_document_initialize (h : store) : store * nat :=
  let a := fresh (dom h) in (<[a := XmlDocument None]> h, a).

(** [libevtx_record_values_read_xml_document] (lines 531-713, without the
    debug output); [memory_available] says whether
    [libfwevt_xml_document_initialize] succeeds. *)
Definition libevtx_record_values_read_xml_document (memory_available : bool)
    (h : store)
    (record_values : option libevtx_record_values_t)
    (io_handle : option libevtx_io_handle_t)
    (chunk_data : option (list byte))
    (chunk_data_size : Z)
  : Z * store * option libevtx_record_values_t * option lifecycle_error :=
  match record_values with
  | None =>
      (-1, h, None,
       raise LIBCERROR_ERROR_DOMAIN_ARGUMENTS
         LIBCERROR_ARGUMENT_ERROR_INVALID_VALUE "invalid record values.")
  | Some rv =>
  if negb (bool_decide (xml_document rv = None)) then
    (-1, h, Some rv,
     raise LIBCERROR_ERROR_DOMAIN_RUNTIME
       LIBCERROR_RUNTIME_ERROR_VALUE_ALREADY_SET
       "invalid record values - XML document already set.")
  else
  match io_handle, chunk_data with
  | None, _ =>
      (-1, h, Some rv,
       raise LIBCERROR_ERROR_DOMAIN_ARGUMENTS
         LIBCERROR_ARGUMENT_ERROR_INVALID_VALUE "invalid IO handle.")
  | Some _, None =>
      (-1, h, Some rv,
       raise LIBCERROR_ERROR_DOMAIN_ARGUMENTS
         LIBCERROR_ARGUMENT_ERROR_INVALID_VALUE "invalid chunk data.")
  | Some io, Some data =>
  if chunk_data_size >? SSIZE_MAX then
    (-1, h, Some rv,
     raise LIBCERROR_ERROR_DOMAIN_ARGUMENTS
       LIBCERROR_ARGUMENT_ERROR_VALUE_EXCEEDS_MAXIMUM
       "invalid chunk data size value exceeds maximum.")
  else if chunk_data_offset rv >=? chunk_data_size then
    (-1, h, Some rv,
     raise LIBCERROR_ERROR_DOMAIN_ARGUMENTS
       LIBCERROR_ARGUMENT_ERROR_VALUE_OUT_OF_BOUNDS
       "invalid record values - chunk data offset value out of bounds.")
  else
  let chunk_data_offset :=
    size_t_add (chunk_data_offset rv) sizeof_evtx_event_record_header_t in
  let event_record_data_size :=
    size_t_sub (data_size rv)
      (size_t_add sizeof_evtx_event_record_header_t 4) in
  if chunk_data_offset >=? chunk_data_size then
    (-1, h, Some rv,
     raise LIBCERROR_ERROR_DOMAIN_ARGUMENTS
       LIBCERROR_ARGUMENT_ERROR_VALUE_OUT_OF_BOUNDS
       "invalid chunk data offset value out of bounds.")
  else if size_t_add chunk_data_offset event_record_data_size
          >? chunk_data_size then
    (-1, h, Some rv,
     raise LIBCERROR_ERROR_DOMAIN_ARGUMENTS
       LIBCERROR_ARGUMENT_ERROR_VALUE_OUT_OF_BOUNDS
       "invalid event record data size value out of bounds.")
  else if negb memory_available then
    (-1, h, Some rv,
     raise LIBCERROR_ERROR_DOMAIN_RUNTIME
       LIBCERROR_RUNTIME_ERROR_INITIALIZE_FAILED
       "unable to create XML document.")
  else
  let '(h, a) := libfwevt_xml_document_initialize h in
  let rv := set_xml_document rv (Some a) in
  match libfwevt_xml_document_read data chunk_data_size chunk_data_offset
          (ascii_codepage io) with
  | Some root =>
      (1, <[a := XmlDocument (Some root)]> h, Some rv, None)
  | None =>
      (* on_error: the document is released again *)
      let '(_, h, document) :=
        libfwevt_xml_document_free h (xml_document rv) in
      (-1, h, Some (set_xml_document rv document),
       Some (RaisedLifecycle LIBCERROR_ERROR_DOMAIN_IO
               LIBCERROR_IO_ERROR_READ_FAILED
               "unable to read binary XML document."))
  end
  end
  end.

End XmlDocumentRead.

(** ** The names, the strings and the binary data *)

Section Rendering.

(** The rendering of a typed value as a string and its raw bytes belong to
    libfvalue; they are taken as parameters.  A string stands for its UTF-8
    bytes, without the end-of-string character. *)
Variable utf8_string_of_value : libfvalue_value_t -> option string.
Variable data_of_value : libfvalue_value_t -> list byte.

(** The two event data types, as before. *)
Variable LIBEVTX_RECORD_VALUES_EVENT_DATA_TYPE_EVENT_DATA : Z.
Variable LIBEVTX_RECORD_VALUES_EVENT_DATA_TYPE_USER_DATA : Z.

(** Modelled from the spec: the size of the string of a value has the
    end-of-string character included, the copy needs a buffer of that size;
    [Some] stands for the return value 1. *)
Definition libfvalue_value_get_utf8_string_size (h : store)
    (value : option value_ptr) : option Z :=
  match resolve_value h value with
  | Some v =>
      match utf8_string_of_value v with
      | Some s => Some (Z.of_nat (String.length s) + 1)
      | None => None
      end
  | None => None
  end.

Definition libfvalue_value_copy_to_utf8_string (h : store)
    (value : option value_ptr) (utf8_string_size : Z) : option string :=
  match resolve_value h value with
  | Some v =>
      match utf8_string_of_value v with
      | Some s =>
          if utf8_string_size <? Z.of_nat (String.length s) + 1
          then None
          else Some s
      | None => None
      end
  | None => None
  end.

(** Modelled from the spec: the value of an element rendered as a string. *)
Definition libfwevt_xml_tag_get_utf8_value_size (h : store)
    (xml_tag : option tag_ptr) : option Z :=
  match xml_tag with
  | Some p => libfvalue_value_get_utf8_string_size h (Some (ValuePtr p))
  | None => None
  end.

Definition libfwevt_xml_tag_get_utf8_value (h : store)
    (xml_tag : option tag_ptr) (utf8_string_size : Z) : option string :=
  match xml_tag with
  | Some p =>
      libfvalue_value_copy_to_utf8_string h (Some (ValuePtr p))
        utf8_string_size
  | None => None
  end.

(** Modelled from the spec: the raw data of a value and its size. *)
Definition libfvalue_value_get_data_size (h : store)
    (value : option value_ptr) : option Z :=
  match resolve_value h value with
  | Some v => Some (Z.of_nat (length (data_of_value v)))
  | None => None
  end.

Definition libfvalue_value_copy_data (h : store)
    (value : option value_ptr) (data_size : Z) : option (list byte) :=
  match resolve_value h value with
  | Some v =>
      if data_size <? Z.of_nat (length (data_of_value v))
      then None
      else Some (data_of_value v)
  | None => None
  end.

(** The block that fills [provider_name_value], the same in the four source
    name functions (lines 1042-1159, 1217-1334, 1392-1509, 1567-1684): an
    early return value with its error, or the record to go on with. *)
Definition provider_name_walk (h : store) (rv : libevtx_record_values_t)
  : Z * option libcerror_error_t + libevtx_record_values_t :=
  if bool_decide (provider_name_value rv = None) then
    let '(result, root_xml_tag) :=
      libfwevt_xml_document_get_root_xml_tag h (xml_document rv) in
    if negb (result =? 1) then
      inl (-1, set_error LIBCERROR_ERROR_DOMAIN_RUNTIME
                 LIBCERROR_RUNTIME_ERROR_GET_FAILED
                 "unable to retrieve root XML element.")
    else
    let '(result, system_xml_tag) :=
      libfwevt_xml_tag_get_element_by_utf8_name h root_xml_tag "System" in
    if result =? -1 then
      inl (-1, set_error LIBCERROR_ERROR_DOMAIN_RUNTIME
                 LIBCERROR_RUNTIME_ERROR_GET_FAILED
                 "unable to retrieve System XML element.")
    else if result =? 0 then inl (0, None)
    else
    let '(result, provider_xml_tag) :=
      libfwevt_xml_tag_get_element_by_utf8_name h system_xml_tag
        "Provider" in
    if result =? -1 then
      inl (-1, set_error LIBCERROR_ERROR_DOMAIN_RUNTIME
                 LIBCERROR_RUNTIME_ERROR_GET_FAILED
                 "unable to retrieve Provider XML element.")
    else if result =? 0 then inl (0, None)
    else
    (* the last step, reached with the attribute that was found *)
    let value_of provider_name_xml_tag :=
      let '(result, value) :=
        libfwevt_xml_tag_get_value h provider_name_xml_tag in
      if negb (result =? 1) then
        inl (-1, set_error LIBCERROR_ERROR_DOMAIN_RUNTIME
                   LIBCERROR_RUNTIME_ERROR_GET_FAILED
                   "unable to retrieve provider name XML element value.")
      else inr (set_provider_name_value rv value) in
    let '(result, provider_name_xml_tag) :=
      libfwevt_xml_tag_get_attribute_by_utf8_name h provider_xml_tag
        "EventSourceName" in
    if result =? -1 then
      inl (-1, set_error LIBCERROR_ERROR_DOMAIN_RUNTIME
                 LIBCERROR_RUNTIME_ERROR_GET_FAILED
                 "unable to retrieve EventSourceName XML attribute.")
    else if result =? 0 then
      let '(result, provider_name_xml_tag) :=
        libfwevt_xml_tag_get_attribute_by_utf8_name h provider_xml_tag
          "Name" in
      if result =? -1 then
        inl (-1, set_error LIBCERROR_ERROR_DOMAIN_RUNTIME
                   LIBCERROR_RUNTIME_ERROR_GET_FAILED
                   "unable to retrieve Name XML attribute.")
      else if result =? 0 then inl (0, None)
      else value_of provider_name_xml_tag
    else value_of provider_name_xml_tag
  else inr rv.

(** [libevtx_record_values_get_utf8_source_name_size] (lines 1008-1176);
    [utf8_string_size] is the output cell. *)
Definition libevtx_record_values_get_utf8_source_name_size (h : store)
    (record_values : option libevtx_record_values_t) (utf8_string_size : Z)
  : Z * option libevtx_record_values_t * Z * option libcerror_error_t :=
  match record_values with
  | None =>
      (-1, None, utf8_string_size,
       set_error LIBCERROR_ERROR_DOMAIN_ARGUMENTS
         LIBCERROR_ARGUMENT_ERROR_INVALID_VALUE "invalid record values.")
  | Some rv =>
  if bool_decide (xml_document rv = None) then
    (-1, Some rv, utf8_string_size,
     set_error LIBCERROR_ERROR_DOMAIN_RUNTIME
       LIBCERROR_RUNTIME_ERROR_VALUE_MISSING
       "invalid record values - missing XML document.")
  else
  match provider_name_walk h rv with
  | inl (result, error) => (result, Some rv, utf8_string_size, error)
  | inr rv =>
      match libfvalue_value_get_utf8_string_size h
              (provider_name_value rv) with
      | None =>
          (-1, Some rv, utf8_string_size,
           set_error LIBCERROR_ERROR_DOMAIN_RUNTIME
             LIBCERROR_RUNTIME_ERROR_GET_FAILED
             "unable to retrieve UTF-8 string size of source name.")
      | Some size => (1, Some rv, size, None)
      end
  end
  end.

(** [libevtx_record_values_get_utf8_source_name] (lines 1182-1352);
    [utf8_string] is the content of the buffer before the call,
    [utf8_string_size] its size. *)
Definition libevtx_record_values_get_utf8_source_name (h : store)
    (record_values : option libevtx_record_values_t) (utf8_string : string)
    (utf8_string_size : Z)
  : Z * option libevtx_record_values_t * string
    * option libcerror_error_t :=
  match record_values with
  | None =>
      (-1, None, utf8_string,
       set_error LIBCERROR_ERROR_DOMAIN_ARGUMENTS
         LIBCERROR_ARGUMENT_ERROR_INVALID_VALUE "invalid record values.")
  | Some rv =>
  if bool_decide (xml_document rv = None) then
    (-1, Some rv, utf8_string,
     set_error LIBCERROR_ERROR_DOMAIN_RUNTIME
       LIBCERROR_RUNTIME_ERROR_VALUE_MISSING
       "invalid record values - missing XML document.")
  else
  match provider_name_walk h rv with
  | inl (result, error) => (result, Some rv, utf8_string, error)
  | inr rv =>
      match libfvalue_value_copy_to_utf8_string h (provider_name_value rv)
              utf8_string_size with
      | None =>
          (-1, Some rv, utf8_string,
           set_error LIBCERROR_ERROR_DOMAIN_RUNTIME
             LIBCERROR_RUNTIME_ERROR_COPY_FAILED
             "unable to copy source name to UTF-8 string.")
      | Some s => (1, Some rv, s, None)
      end
  end
  end.

(** The block that fills [computer_value], the same in the four computer
    name functions (lines 1741-1815, 1872-1946, 2003-2077, 2134-2208). *)
Definition computer_walk (h : store) (rv : libevtx_record_values_t)
  : Z * option libcerror_error_t + libevtx_record_values_t :=
  if bool_decide (computer_value rv = None) then
    let '(result, root_xml_tag) :=
      libfwevt_xml_document_get_root_xml_tag h (xml_document rv) in
    if negb (result =? 1) then
      inl (-1, set_error LIBCERROR_ERROR_DOMAIN_RUNTIME
                 LIBCERROR_RUNTIME_ERROR_GET_FAILED
                 "unable to retrieve root XML element.")
    else
    let '(result, system_xml_tag) :=
      libfwevt_xml_tag_get_element_by_utf8_name h root_xml_tag "System" in
    if result =? -1 then
      inl (-1, set_error LIBCERROR_ERROR_DOMAIN_RUNTIME
                 LIBCERROR_RUNTIME_ERROR_GET_FAILED
                 "unable to retrieve System XML element.")
    else if result =? 0 then inl (0, None)
    else
    let '(result, computer_xml_tag) :=
      libfwevt_xml_tag_get_element_by_utf8_name h system_xml_tag
        "Computer" in
    if result =? -1 then
      inl (-1, set_error LIBCERROR_ERROR_DOMAIN_RUNTIME
                 LIBCERROR_RUNTIME_ERROR_GET_FAILED
                 "unable to retrieve Computer XML element.")
    else if result =? 0 then inl (0, None)
    else
    let '(result, value) :=
      libfwevt_xml_tag_get_value h computer_xml_tag in
    if negb (result =? 1) then
      inl (-1, set_error LIBCERROR_ERROR_DOMAIN_RUNTIME
                 LIBCERROR_RUNTIME_ERROR_GET_FAILED
                 "unable to retrieve computer XML element value.")
    else inr (set_computer_value rv value)
  else inr rv.

(** [libevtx_record_values_get_utf8_computer_name_size] (lines 1708-1832). *)
Definition libevtx_record_values_get_utf8_computer_name_size (h : store)
    (record_values : option libevtx_record_values_t) (utf8_string_size : Z)
  : Z * option libevtx_record_values_t * Z * option libcerror_error_t :=
  match record_values with
  | None =>
      (-1, None, utf8_string_size,
       set_error LIBCERROR_ERROR_DOMAIN_ARGUMENTS
         LIBCERROR_ARGUMENT_ERROR_INVALID_VALUE "invalid record values.")
  | Some rv =>
  if bool_decide (xml_document rv = None) then
    (-1, Some rv, utf8_string_size,
     set_error LIBCERROR_ERROR_DOMAIN_RUNTIME
       LIBCERROR_RUNTIME_ERROR_VALUE_MISSING
       "invalid record values - missing XML document.")
  else
  match computer_walk h rv with
  | inl (result, error) => (result, Some rv, utf8_string_size, error)
  | inr rv =>
      match libfvalue_value_get_utf8_string_size h (computer_value rv) with
      | None =>
          (-1, Some rv, utf8_string_size,
           set_error LIBCERROR_ERROR_DOMAIN_RUNTIME
             LIBCERROR_RUNTIME_ERROR_GET_FAILED
             "unable to retrieve UTF-8 string size of computer name.")
      | Some size => (1, Some rv, size, None)
      end
  end
  end.

(** [libevtx_record_values_get_utf8_computer_name] (lines 1838-1964). *)
Definition libevtx_record_values_get_utf8_computer_name (h : store)
    (record_values : option libevtx_record_values_t) (utf8_string : string)
    (utf8_string_size : Z)
  : Z * option libevtx_record_values_t * string
    * option libcerror_error_t :=
  match record_values with
  | None =>
      (-1, None, utf8_string,
       set_error LIBCERROR_ERROR_DOMAIN_ARGUMENTS
         LIBCERROR_ARGUMENT_ERROR_INVALID_VALUE "invalid record values.")
  | Some rv =>
  if bool_decide (xml_document rv = None) then
    (-1, Some rv, utf8_string,
     set_error LIBCERROR_ERROR_DOMAIN_RUNTIME
       LIBCERROR_RUNTIME_ERROR_VALUE_MISSING
       "invalid record values - missing XML document.")
  else
  match computer_walk h rv with
  | inl (result, error) => (result, Some rv, utf8_string, error)
  | inr rv =>
      match libfvalue_value_copy_to_utf8_string h (computer_value rv)
              utf8_string_size with
      | None =>
          (-1, Some rv, utf8_string,
           set_error LIBCERROR_ERROR_DOMAIN_RUNTIME
             LIBCERROR_RUNTIME_ERROR_COPY_FAILED
             "unable to copy computer name to UTF-8 string.")
      | Some s => (1, Some rv, s, None)
      end
  end
  end.

(** The block that fills [event_data_xml_tag] in the four string functions
    (lines 2604-2621, 2692-2709, 2780-2797, 2868-2885): whether the call has
    to fail, and the record to go on with. *)
Definition event_data_walk (h : store) (rv : libevtx_record_values_t)
  : bool * libevtx_record_values_t :=
  if bool_decide (event_data_xml_tag rv = None) then
    let '(result, tag_cell, type_cell, _) :=
      libevtx_record_values_get_event_data_xml_tag
        LIBEVTX_RECORD_VALUES_EVENT_DATA_TYPE_EVENT_DATA
        LIBEVTX_RECORD_VALUES_EVENT_DATA_TYPE_USER_DATA
        h (Some rv)
        (Some (event_data_xml_tag rv)) (Some (event_data_type rv)) in
    (negb (result =? 1),
     set_event_data rv (default (event_data_xml_tag rv) tag_cell)
       (default (event_data_type rv) type_cell))
  else (false, rv).

(** [libevtx_record_values_get_utf8_string_size] (lines 2573-2654). *)
Definition libevtx_record_values_get_utf8_string_size (h : store)
    (record_values : option libevtx_record_values_t) (string_index : Z)
    (utf8_string_size : Z)
  : Z * option libevtx_record_values_t * Z * option libcerror_error_t :=
  match record_values with
  | None =>
      (-1, None, utf8_string_size,
       set_error LIBCERROR_ERROR_DOMAIN_ARGUMENTS
         LIBCERROR_ARGUMENT_ERROR_INVALID_VALUE "invalid record values.")
  | Some rv =>
  if bool_decide (xml_document rv = None) then
    (-1, Some rv, utf8_string_size,
     set_error LIBCERROR_ERROR_DOMAIN_RUNTIME
       LIBCERROR_RUNTIME_ERROR_VALUE_MISSING
       "invalid record values - missing XML document.")
  else
  let '(failed, rv) := event_data_walk h rv in
  if failed then
    (-1, Some rv, utf8_string_size,
     set_error LIBCERROR_ERROR_DOMAIN_RUNTIME
       LIBCERROR_RUNTIME_ERROR_GET_FAILED
       "unable to retrieve event data XML tag.")
  else
  let '(result, element_xml_tag) :=
    libfwevt_xml_tag_get_element_by_index h (event_data_xml_tag rv)
      string_index in
  if negb (result =? 1) then
    (-1, Some rv, utf8_string_size,
     set_error LIBCERROR_ERROR_DOMAIN_RUNTIME
       LIBCERROR_RUNTIME_ERROR_GET_FAILED "unable to retrieve element: %d.")
  else
  match libfwevt_xml_tag_get_utf8_value_size h element_xml_tag with
  | None =>
      (-1, Some rv, utf8_string_size,
       set_error LIBCERROR_ERROR_DOMAIN_RUNTIME
         LIBCERROR_RUNTIME_ERROR_GET_FAILED
         "unable to retrieve element: %d value size.")
  | Some size => (1, Some rv, size, None)
  end
  end.

(** [libevtx_record_values_get_utf8_string] (lines 2660-2743). *)
Definition libevtx_record_values_get_utf8_string (h : store)
    (record_values : option libevtx_record_values_t) (string_index : Z)
    (utf8_string : string) (utf8_string_size : Z)
  : Z * option libevtx_record_values_t * string
    * option libcerror_error_t :=
  match record_values with
  | None =>
      (-1, None, utf8_string,
       set_error LIBCERROR_ERROR_DOMAIN_ARGUMENTS
         LIBCERROR_ARGUMENT_ERROR_INVALID_VALUE "invalid record values.")
  | Some rv =>
  if bool_decide (xml_document rv = None) then
    (-1, Some rv, utf8_string,
     set_error LIBCERROR_ERROR_DOMAIN_RUNTIME
       LIBCERROR_RUNTIME_ERROR_VALUE_MISSING
       "invalid record values - missing XML document.")
  else
  let '(failed, rv) := event_data_walk h rv in
  if failed then
    (-1, Some rv, utf8_string,
     set_error LIBCERROR_ERROR_DOMAIN_RUNTIME
       LIBCERROR_RUNTIME_ERROR_GET_FAILED
       "unable to retrieve event data XML tag.")
  else
  let '(result, element_xml_tag) :=
    libfwevt_xml_tag_get_element_by_index h (event_data_xml_tag rv)
      string_index in
  if negb (result =? 1) then
    (-1, Some rv, utf8_string,
     set_error LIBCERROR_ERROR_DOMAIN_RUNTIME
       LIBCERROR_RUNTIME_ERROR_GET_FAILED "unable to retrieve element: %d.")
  else
  match libfwevt_xml_tag_get_utf8_value h element_xml_tag
          utf8_string_size with
  | None =>
      (-1, Some rv, utf8_string,
       set_error LIBCERROR_ERROR_DOMAIN_RUNTIME
         LIBCERROR_RUNTIME_ERROR_GET_FAILED
         "unable to retrieve element: %d value.")
  | Some s => (1, Some rv, s, None)
  end
  end.

(** The block that fills [binary_data_value], the same in the two data
    functions (lines 2958-3032, 3088-3162). *)
Definition binary_data_walk (h : store) (rv : libevtx_record_values_t)
  : Z * option libcerror_error_t + libevtx_record_values_t :=
  if bool_decide (binary_data_value rv = None) then
    let '(result, root_xml_tag) :=
      libfwevt_xml_document_get_root_xml_tag h (xml_document rv) in
    if negb (result =? 1) then
      inl (-1, set_error LIBCERROR_ERROR_DOMAIN_RUNTIME
                 LIBCERROR_RUNTIME_ERROR_GET_FAILED
                 "unable to retrieve root XML element.")
    else
    let '(result, event_data_xml_tag) :=
      libfwevt_xml_tag_get_element_by_utf8_name h root_xml_tag
        "EventData" in
    if result =? -1 then
      inl (-1, set_error LIBCERROR_ERROR_DOMAIN_RUNTIME
                 LIBCERROR_RUNTIME_ERROR_GET_FAILED
                 "unable to retrieve EventData XML element.")
    else if result =? 0 then inl (0, None)
    else
    let '(result, binary_data_tag) :=
      libfwevt_xml_tag_get_element_by_utf8_name h event_data_xml_tag
        "BinaryData" in
    if result =? -1 then
      inl (-1, set_error LIBCERROR_ERROR_DOMAIN_RUNTIME
                 LIBCERROR_RUNTIME_ERROR_GET_FAILED
                 "unable to retrieve BinaryData XML element.")
    else if result =? 0 then inl (0, None)
    else
    let '(result, value) :=
      libfwevt_xml_tag_get_value h binary_data_tag in
    if negb (result =? 1) then
      inl (-1, set_error LIBCERROR_ERROR_DOMAIN_RUNTIME
                 LIBCERROR_RUNTIME_ERROR_GET_FAILED
                 "unable to retrieve BinaryData XML element value.")
    else inr (set_binary_data_value rv value)
  else inr rv.

(** [libevtx_record_values_get_data_size] (lines 2924-3048); [data_size] is
    the output cell. *)
Definition libevtx_record_values_get_data_size (h : store)
    (record_values : option libevtx_record_values_t) (data_size : Z)
  : Z * option libevtx_record_values_t * Z * option libcerror_error_t :=
  match record_values with
  | None =>
      (-1, None, data_size,
       set_error LIBCERROR_ERROR_DOMAIN_ARGUMENTS
         LIBCERROR_ARGUMENT_ERROR_INVALID_VALUE "invalid record values.")
  | Some rv =>
  if bool_decide (xml_document rv = None) then
    (-1, Some rv, data_size,
     set_error LIBCERROR_ERROR_DOMAIN_RUNTIME
       LIBCERROR_RUNTIME_ERROR_VALUE_MISSING
       "invalid record values - missing XML document.")
  else
  match binary_data_walk h rv with
  | inl (result, error) => (result, Some rv, data_size, error)
  | inr rv =>
      match libfvalue_value_get_data_size h (binary_data_value rv) with
      | None =>
          (-1, Some rv, data_size,
           set_error LIBCERROR_ERROR_DOMAIN_RUNTIME
             LIBCERROR_RUNTIME_ERROR_GET_FAILED
             "unable to retrieve size of binary data.")
      | Some size => (1, Some rv, size, None)
      end
  end
  end.

(** [libevtx_record_values_get_data] (lines 3053-3179); [data] is the
    content of the buffer before the call, [data_size] its size. *)
Definition libevtx_record_values_get_data (h : store)
    (record_values : option libevtx_record_values_t) (data : list byte)
    (data_size : Z)
  : Z * option libevtx_record_values_t * list byte
    * option libcerror_error_t :=
  match record_values with
  | None =>
      (-1, None, data,
       set_error LIBCERROR_ERROR_DOMAIN_ARGUMENTS
         LIBCERROR_ARGUMENT_ERROR_INVALID_VALUE "invalid record values.")
  | Some rv =>
  if bool_decide (xml_document rv = None) then
    (-1, Some rv, data,
     set_error LIBCERROR_ERROR_DOMAIN_RUNTIME
       LIBCERROR_RUNTIME_ERROR_VALUE_MISSING
       "invalid record values - missing XML document.")
  else
  match binary_data_walk h rv with
  | inl (result, error) => (result, Some rv, data, error)
  | inr rv =>
      match libfvalue_value_copy_data h (binary_data_value rv)
              data_size with
      | None =>
          (-1, Some rv, data,
           set_error LIBCERROR_ERROR_DOMAIN_RUNTIME
             LIBCERROR_RUNTIME_ERROR_COPY_FAILED
             "unable to copy binary data.")
      | Some d => (1, Some rv, d, None)
      end
  end
  end.

End Rendering.

(** ** Vocabulary for the header bytes *)

(** The bytes of an unsigned integer, least significant byte first. *)
Fixpoint little_endian (width : nat) (n : Z) : list byte :=
  match width with
  | O => []
  | S width => byte_of_Z (n mod 256) :: little_endian width (n / 256)
  end.

(** The header of an event record. *)
Definition event_record_header (size ident time : Z) : list byte :=
  evtx_event_record_signature
  ++ little_endian 4 size ++ little_endian 8 ident ++ little_endian 8 time.

Definition too_small_error : libcerror_error_t :=
  Error LIBCERROR_ERROR_DOMAIN_RUNTIME
    LIBCERROR_RUNTIME_ERROR_VALUE_OUT_OF_BOUNDS
    "invalid event record data size value too small.".

Definition offset_out_of_bounds_error : libcerror_error_t :=
  Error LIBCERROR_ERROR_DOMAIN_ARGUMENTS
    LIBCERROR_ARGUMENT_ERROR_VALUE_OUT_OF_BOUNDS
    "invalid chunk data offset value out of bounds.".

(** ** Vocabulary for the event data *)

Definition event_data_tag_error : libcerror_error_t :=
  Error LIBCERROR_ERROR_DOMAIN_RUNTIME
    LIBCERROR_RUNTIME_ERROR_GET_FAILED
    "unable to retrieve event data XML tag.".

(** A UserData element with one child that has two children (scenario S4),
    and one with two children. *)
Definition user_data_event : libfwevt_xml_tag_t :=
  node "Event"
    [node "System" [];
     node "UserData"
       [node "MyData"
          [leaf "X" (ValueString "1"); leaf "Y" (ValueString "2")]]].

Definition twin_user_data_event : libfwevt_xml_tag_t :=
  node "Event"
    [node "UserData" [node "A" []; node "B" []]].

Definition user_data_store : store :=
  {[ 7%nat := XmlDocument (Some user_data_event) ]}.

Definition twin_user_data_store : store :=
  {[ 7%nat := XmlDocument (Some twin_user_data_event) ]}.

(** A rendering of the string values alone, for the examples. *)
Definition string_value_only (v : libfvalue_value_t) : option string :=
  match v with
  | ValueString s => Some s
  | _ => None
  end.

(** The raw data of the binary values alone, for the examples. *)
Definition binary_value_only (v : libfvalue_value_t) : list byte :=
  match v with
  | ValueBinary d => d
  | _ => []
  end.

(** ** Vocabulary for the names and the data *)

(** The attribute of Provider that names the source: EventSourceName when
    there is one, Name otherwise. *)
Definition provider_name_attribute (provider : libfwevt_xml_tag_t)
  : option libfwevt_xml_tag_t :=
  match attribute "EventSourceName" provider with
  | Some t => Some t
  | None => attribute "Name" provider
  end.

(** The element [name] under [parent] under the root is absent. *)
Definition grandchild_absent (parent name : string)
    (root : libfwevt_xml_tag_t) : Prop :=
  child_element parent root = None
  \/ exists t,
       child_element parent root = Some t /\ child_element name t = None.

(** Scenario S3, with both attributes on Provider, and a computer name. *)
Definition provider_event : libfwevt_xml_tag_t :=
  node "Event"
    [node "System"
       [XmlTag "Provider" None
          [leaf "Name" (ValueString "Microsoft-Windows-Security-Auditing");
           leaf "EventSourceName" (ValueString "Security")] [];
        leaf "Computer" (ValueString "host")]].

Definition provider_store : store :=
  {[ 7%nat := XmlDocument (Some provider_event) ]}.

(** An event with binary data under EventData, and one with the binary
    data under UserData only. *)
Definition binary_event : libfwevt_xml_tag_t :=
  node "Event"
    [node "EventData"
       [leaf "Data" (ValueString "a");
        leaf "BinaryData" (ValueBinary [x01; x02; x03]%byte)]].

Definition user_binary_event : libfwevt_xml_tag_t :=
  node "Event"
    [node "UserData"
       [node "MyData"
          [leaf "BinaryData" (ValueBinary [x01; x02; x03]%byte)]]].

Definition binary_store : store :=
  {[ 7%nat := XmlDocument (Some binary_event) ]}.

Definition user_binary_store : store :=
  {[ 7%nat := XmlDocument (Some user_binary_event) ]}.

(** ** More proof automation *)

(** Symbolic execution that also uses the equations at hand. *)
Ltac run_eq :=
  repeat first
    [ run_step
    | match goal with H : _ = _ |- _ => rewrite H end ].

(** ** Properties of the header parser *)

Lemma size_t_sub_small (a b : Z) :
  0 <= b <= a -> a <= SSIZE_MAX -> size_t_sub a b = a - b.
Proof.
  intros Hb Ha. unfold size_t_sub, size_t_wrap, SIZE_WIDTH.
  unfold SSIZE_MAX in Ha.
  apply Z.mod_small. lia.
Qed.

Lemma signature_compare (data : list byte) (o : Z) :
  memory_compare_equal
    (drop header_signature_offset (drop (Z.to_nat o) data))
    evtx_event_record_signature 4
  = bool_decide (record_signature data o = evtx_event_record_signature).
Proof. reflexivity. Qed.

(** With a bad signature the call stops before anything is stored. *)
Lemma read_header_bad_signature rv io data size o :
  chunk_bounds_ok size o ->
  record_signature data o <> evtx_event_record_signature ->
  libevtx_record_values_read_header (Some rv) (Some io) (Some data) size o
  = (-1, Some rv, Some unsupported_signature_error).
Proof.
  intros (Hmax & Ho & Hlen) Hsig.
  unfold libevtx_record_values_read_header.
  replace (size >? SSIZE_MAX) with false by lia.
  replace (o >=? size) with false by lia.
  rewrite size_t_sub_small by lia.
  unfold sizeof_evtx_event_record_header_t in *.
  replace (size - o <? size_t_add 24 4) with false
    by (change (size_t_add 24 4) with 28; lia).
  rewrite signature_compare, bool_decide_eq_false_2 by done.
  reflexivity.
Qed.

(** With a good signature the header fields are stored, and the outcome is
    decided by the range check on the stored size alone. *)
Lemma read_header_good_signature rv io data size o :
  chunk_bounds_ok size o ->
  record_signature data o = evtx_event_record_signature ->
  libevtx_record_values_read_header (Some rv) (Some io) (Some data) size o
  = if (stored_size data o <? sizeof_evtx_event_record_header_t)
       || (stored_size data o >? size - o - 4)
    then (-1, Some (with_header rv data o), Some size_out_of_bounds_error)
    else (1, Some (with_header rv data o), None).
Proof.
  intros (Hmax & Ho & Hlen) Hsig.
  unfold libevtx_record_values_read_header.
  replace (size >? SSIZE_MAX) with false by lia.
  replace (o >=? size) with false by lia.
  rewrite size_t_sub_small by lia.
  unfold sizeof_evtx_event_record_header_t in *.
  replace (size - o <? size_t_add 24 4) with false
    by (change (size_t_add 24 4) with 28; lia).
  rewrite signature_compare, bool_decide_eq_true_2 by done.
  cbn [negb].
  rewrite size_t_sub_small by lia.
  reflexivity.
Qed.

Lemma record_signature_lookup (data : list byte) (o : Z) (i : nat) :
  (i < 4)%nat ->
  record_signature data o !! i = data !! (Z.to_nat o + i)%nat.
Proof.
  intros Hi. unfold record_signature.
  rewrite lookup_take_lt by done. apply lookup_drop.
Qed.

Lemma record_signature_length (data : list byte) (o : Z) :
  record_signature data o = evtx_event_record_signature ->
  (Z.to_nat o + 4 <= length data)%nat.
Proof.
  intros H.
  assert (Hlen : length (record_signature data o) = 4%nat)
    by (rewrite H; reflexivity).
  unfold record_signature in Hlen.
  rewrite length_take, length_drop in Hlen. lia.
Qed.

(** C9: when the chunk bounds and the minimum length checks pass,
    [libevtx_record_values_read_header] fails with the unsupported signature
    error exactly when the four bytes at the record offset differ from
    2A 2A 00 00; replacing any one byte of a valid signature by another byte
    gives that failure. *)
Theorem read_header_unsupported_signature_iff rv io data size o :
  chunk_bounds_ok size o ->
  (let r :=
     libevtx_record_values_read_header (Some rv) (Some io) (Some data)
       size o in
   r.1.1 = -1 /\ r.2 = Some unsupported_signature_error
   <-> record_signature data o <> evtx_event_record_signature)
  /\ (forall (i : nat) (b : byte),
        (i < 4)%nat ->
        record_signature data o = evtx_event_record_signature ->
        evtx_event_record_signature !! i <> Some b ->
        libevtx_record_values_read_header (Some rv) (Some io)
          (Some (<[(Z.to_nat o + i)%nat := b]> data)) size o
        = (-1, Some rv, Some unsupported_signature_error)).
Proof.
  intros Hb. split.
  - cbv zeta. split.
    + intros [_ Herr] Hsig.
      rewrite (read_header_good_signature _ _ _ _ _ Hb Hsig) in Herr.
      destruct (_ || _); discriminate Herr.
    + intros Hsig. rewrite (read_header_bad_signature _ _ _ _ _ Hb Hsig).
      done.
  - intros i b Hi Hsig Hflip.
    apply read_header_bad_signature; [done |].
    intros Hsig'. apply Hflip.
    rewrite <- Hsig', record_signature_lookup by done.
    apply list_lookup_insert_eq.
    apply record_signature_length in Hsig. lia.
Qed.

Lemma read_header_unsupported_signature_iff_witness :
  chunk_bounds_ok 64 8
  /\ libevtx_record_values_read_header (Some zeroed_record_values)
       (Some example_io_handle)
       (Some (<[10%nat := x01]> (example_chunk 48 7 9 []))) 64 8
     = (-1, Some zeroed_record_values, Some unsupported_signature_error).
Proof.
  assert (Hb : chunk_bounds_ok 64 8) by (vm_compute; intuition discriminate).
  split; [exact Hb |].
  apply (proj2 (read_header_unsupported_signature_iff zeroed_record_values
                  example_io_handle (example_chunk 48 7 9 []) 64 8 Hb)
           2%nat x01).
  - lia.
  - reflexivity.
  - discriminate.
Defined.

Lemma example_chunk_bounds : chunk_bounds_ok 64 8.
Proof.
  unfold chunk_bounds_ok, SSIZE_MAX, sizeof_evtx_event_record_header_t. lia.
Qed.

(** C2: when the bounds and signature checks pass and the chunk is large
    enough, [libevtx_record_values_read_header] returns 1 for a stored size
    of HDR up to HDR + 3, where the claim has it fail with the size out of
    bounds error: the range check compares the size with HDR, not with
    HDR + 4.  The size is stored in the record values, and the length that
    [libevtx_record_values_read_xml_document] computes from it,
    [data_size - (HDR + 4)], wraps around. *)
Theorem read_header_accepts_short_size rv io data size o :
  chunk_bounds_ok size o ->
  record_signature data o = evtx_event_record_signature ->
  sizeof_evtx_event_record_header_t <= stored_size data o
  < sizeof_evtx_event_record_header_t + 4 ->
  stored_size data o <= size - o - 4 ->
  libevtx_record_values_read_header (Some rv) (Some io) (Some data) size o
  = (1, Some (with_header rv data o), None)
  /\ data_size (with_header rv data o) = stored_size data o
  /\ size_t_sub (data_size (with_header rv data o))
       (size_t_add sizeof_evtx_event_record_header_t 4)
     = 2 ^ 64 - (sizeof_evtx_event_record_header_t + 4 - stored_size data o).
Proof.
  intros Hb Hsig Hrange Hfits.
  rewrite (read_header_good_signature _ _ _ _ _ Hb Hsig).
  split; [| split].
  - replace (_ || _) with false; [done |].
    symmetry. apply orb_false_iff. lia.
  - reflexivity.
  - change (data_size (with_header rv data o)) with (stored_size data o).
    unfold size_t_sub, size_t_add, size_t_wrap, SIZE_WIDTH,
      sizeof_evtx_event_record_header_t in *.
    change ((24 + 4) mod 2 ^ 64) with 28.
    rewrite <- (Z_mod_plus_full (stored_size data o - 28) 1 (2 ^ 64)).
    rewrite Z.mod_small by lia. lia.
Qed.

Lemma read_header_accepts_short_size_witness :
  stored_size (example_chunk 27 7 9 []) 8
  = sizeof_evtx_event_record_header_t + 3
  /\ libevtx_record_values_read_header (Some zeroed_record_values)
       (Some example_io_handle) (Some (example_chunk 27 7 9 [])) 64 8
     = (1, Some (with_header zeroed_record_values
                   (example_chunk 27 7 9 []) 8), None).
Proof.
  split; [reflexivity |].
  apply (read_header_accepts_short_size zeroed_record_values
           example_io_handle (example_chunk 27 7 9 []) 64 8
           example_chunk_bounds eq_refl).
  - vm_compute. split; [discriminate | reflexivity].
  - vm_compute. discriminate.
Defined.

(** C8: when the bounds, signature and size range checks pass,
    [libevtx_record_values_read_header] returns 1 although the copy of the
    size that trails the record differs from the size field. *)
Theorem read_header_size_copy_mismatch_accepted rv io data size o :
  chunk_bounds_ok size o ->
  record_signature data o = evtx_event_record_signature ->
  sizeof_evtx_event_record_header_t <= stored_size data o <= size - o - 4 ->
  stored_size_copy data o <> stored_size data o ->
  libevtx_record_values_read_header (Some rv) (Some io) (Some data) size o
  = (1, Some (with_header rv data o), None).
Proof.
  intros Hb Hsig Hrange _.
  rewrite (read_header_good_signature _ _ _ _ _ Hb Hsig).
  replace (_ || _) with false; [done |].
  symmetry. apply orb_false_iff. lia.
Qed.

Lemma read_header_size_copy_mismatch_accepted_witness :
  stored_size (example_chunk 28 7 9 [x05; x00; x00; x00]%byte) 8 = 28
  /\ stored_size_copy (example_chunk 28 7 9 [x05; x00; x00; x00]%byte) 8 = 5
  /\ (libevtx_record_values_read_header (Some zeroed_record_values)
        (Some example_io_handle)
        (Some (example_chunk 28 7 9 [x05; x00; x00; x00]%byte)) 64 8).1.1
     = 1.
Proof.
  split; [reflexivity |]. split; [reflexivity |].
  rewrite (read_header_size_copy_mismatch_accepted zeroed_record_values
             example_io_handle
             (example_chunk 28 7 9 [x05; x00; x00; x00]%byte) 64 8
             example_chunk_bounds eq_refl).
  - reflexivity.
  - vm_compute. split; discriminate.
  - vm_compute. discriminate.
Defined.

(** C4, as stated, fails: a record with a good signature and a stored size
    of 5 makes the call return -1 after the four header fields have been
    overwritten. *)
Lemma read_header_error_overwrites_fields :
  ~ (forall rv io data size o,
       let r := libevtx_record_values_read_header (Some rv) io data size o in
       r.1.1 = -1 -> header_fields <$> r.1.2 = Some (header_fields rv)).
Proof.
  intros H.
  specialize (H zeroed_record_values (Some example_io_handle)
                (Some (example_chunk 5 7 9 [])) 64 8).
  vm_compute in H.
  discriminate (H eq_refl).
Qed.

(** C4, amended: when [libevtx_record_values_read_header] returns -1 with
    an error other than that of the size range validation, the record is
    left as it was; when the size range validation fails, the fields
    chunk_data_offset, data_size, identifier and written_time hold what was
    read from the header. *)
Theorem read_header_error_fields record_values io data size o :
  let r :=
    libevtx_record_values_read_header record_values io data size o in
  r.1.1 = -1 ->
  (r.2 <> Some size_out_of_bounds_error -> r.1.2 = record_values)
  /\ (r.2 = Some size_out_of_bounds_error ->
      exists rv d,
        record_values = Some rv /\ data = Some d
        /\ r.1.2 = Some (with_header rv d o)).
Proof.
  cbv zeta. unfold libevtx_record_values_read_header.
  destruct record_values as [rv|], io as [i|], data as [d|]; cbn;
    try (intros _; split; [done | discriminate]).
  repeat (case_match; cbn;
          try (intros _; split; [done | discriminate])).
  - intros _. split; [done |]. intros _. by exists rv, d.
  - discriminate.
Qed.

Lemma read_header_error_fields_witness :
  (libevtx_record_values_read_header (Some zeroed_record_values)
     (Some example_io_handle) (Some (example_chunk 5 7 9 [])) 64 8).1.2
  = Some (with_header zeroed_record_values (example_chunk 5 7 9 []) 8)
  /\ header_fields
       (with_header zeroed_record_values (example_chunk 5 7 9 []) 8)
     = (8, 5, 7, 9).
Proof.
  split; [| reflexivity].
  destruct (proj2 (read_header_error_fields (Some zeroed_record_values)
                     (Some example_io_handle)
                     (Some (example_chunk 5 7 9 [])) 64 8 eq_refl) eq_refl)
    as (rv & d & Hrv & Hd & Hr).
  injection Hrv as <-. injection Hd as <-. exact Hr.
Defined.

(** ** Properties of the libfwevt model *)

Lemma tag_at_app (t : libfwevt_xml_tag_t) (p q : list tag_step) :
  tag_at t (p ++ q)
  = match tag_at t p with
    | Some c => tag_at c q
    | None => None
    end.
Proof.
  revert t. induction p as [|[i|i] p IH]; intros t; cbn; [done | |].
  - destruct (tag_attributes t !! i); [apply IH | done].
  - destruct (tag_elements t !! i); [apply IH | done].
Qed.

Lemma resolve_child_element h p t i :
  resolve_tag h p = Some t ->
  resolve_tag h (child_ptr p (ElementStep i)) = tag_elements t !! i.
Proof.
  unfold resolve_tag, child_ptr. cbn.
  destruct (h !! ptr_document p) as [d|]; [| done].
  destruct (root_xml_tag d) as [r|]; [| done].
  intros Ht. rewrite tag_at_app, Ht. cbn.
  by destruct (tag_elements t !! i).
Qed.

Lemma resolve_child_attribute h p t i :
  resolve_tag h p = Some t ->
  resolve_tag h (child_ptr p (AttributeStep i)) = tag_attributes t !! i.
Proof.
  unfold resolve_tag, child_ptr. cbn.
  destruct (h !! ptr_document p) as [d|]; [| done].
  destruct (root_xml_tag d) as [r|]; [| done].
  intros Ht. rewrite tag_at_app, Ht. cbn.
  by destruct (tag_attributes t !! i).
Qed.

Lemma find_by_name_lookup name tags i c :
  find_by_name name tags = Some (i, c) ->
  tags !! i = Some c /\ tag_name c = name.
Proof.
  unfold find_by_name. intros H. apply list_find_Some in H. tauto.
Qed.

Lemma get_root_of_document h rv root :
  record_document h rv = Some root ->
  exists a,
    xml_document rv = Some a
    /\ libfwevt_xml_document_get_root_xml_tag h (xml_document rv)
       = (1, Some (TagPtr a []))
    /\ resolve_tag h (TagPtr a []) = Some root.
Proof.
  unfold record_document. intros H.
  destruct (xml_document rv) as [a|]; [| done].
  destruct (h !! a) as [d|] eqn:Hd; [| done].
  exists a.
  unfold libfwevt_xml_document_get_root_xml_tag, resolve_tag.
  cbn [ptr_document ptr_path tag_at].
  rewrite Hd, H. done.
Qed.

Lemma get_element_found h p t name c :
  resolve_tag h p = Some t ->
  child_element name t = Some c ->
  exists i,
    libfwevt_xml_tag_get_element_by_utf8_name h (Some p) name
    = (1, Some (child_ptr p (ElementStep i)))
    /\ resolve_tag h (child_ptr p (ElementStep i)) = Some c.
Proof.
  unfold child_element, libfwevt_xml_tag_get_element_by_utf8_name.
  intros Ht Hc. rewrite Ht.
  destruct (find_by_name name (tag_elements t)) as [[i c']|] eqn:Hf;
    [| done].
  injection Hc as ->. exists i. split; [done |].
  rewrite (resolve_child_element _ _ _ _ Ht).
  by apply find_by_name_lookup in Hf as [? _].
Qed.

Lemma get_element_missing h p t name :
  resolve_tag h p = Some t ->
  child_element name t = None ->
  libfwevt_xml_tag_get_element_by_utf8_name h (Some p) name = (0, None).
Proof.
  unfold child_element, libfwevt_xml_tag_get_element_by_utf8_name.
  intros Ht Hc. rewrite Ht.
  by destruct (find_by_name name (tag_elements t)) as [[i c']|].
Qed.

Lemma get_attribute_found h p t name c :
  resolve_tag h p = Some t ->
  attribute name t = Some c ->
  exists i,
    libfwevt_xml_tag_get_attribute_by_utf8_name h (Some p) name
    = (1, Some (child_ptr p (AttributeStep i)))
    /\ resolve_tag h (child_ptr p (AttributeStep i)) = Some c.
Proof.
  unfold attribute, libfwevt_xml_tag_get_attribute_by_utf8_name.
  intros Ht Hc. rewrite Ht.
  destruct (find_by_name name (tag_attributes t)) as [[i c']|] eqn:Hf;
    [| done].
  injection Hc as ->. exists i. split; [done |].
  rewrite (resolve_child_attribute _ _ _ _ Ht).
  by apply find_by_name_lookup in Hf as [? _].
Qed.

Lemma get_attribute_missing h p t name :
  resolve_tag h p = Some t ->
  attribute name t = None ->
  libfwevt_xml_tag_get_attribute_by_utf8_name h (Some p) name = (0, None).
Proof.
  unfold attribute, libfwevt_xml_tag_get_attribute_by_utf8_name.
  intros Ht Hc. rewrite Ht.
  by destruct (find_by_name name (tag_attributes t)) as [[i c']|].
Qed.

(** The value of a tag that can be coerced is found through its handle. *)
Lemma get_value_coercible h p t width n :
  resolve_tag h p = Some t ->
  tag_as_unsigned width t = Some n ->
  libfwevt_xml_tag_get_value h (Some p) = (1, Some (ValuePtr p)).
Proof.
  unfold tag_as_unsigned, libfwevt_xml_tag_get_value.
  intros Ht Hn. rewrite Ht.
  by destruct (tag_value t) as [v|].
Qed.

Lemma copy_to_32bit_coercible h p t n :
  resolve_tag h p = Some t ->
  tag_as_unsigned 32 t = Some n ->
  libfvalue_value_copy_to_32bit h (Some (ValuePtr p)) = Some n.
Proof.
  unfold tag_as_unsigned, libfvalue_value_copy_to_32bit, resolve_value.
  intros Ht Hn. cbn [value_owner]. rewrite Ht.
  by destruct (tag_value t) as [v|].
Qed.

Lemma copy_to_8bit_coercible h p t n :
  resolve_tag h p = Some t ->
  tag_as_unsigned 8 t = Some n ->
  libfvalue_value_copy_to_8bit h (Some (ValuePtr p)) = Some n.
Proof.
  unfold tag_as_unsigned, libfvalue_value_copy_to_8bit, resolve_value.
  intros Ht Hn. cbn [value_owner]. rewrite Ht.
  by destruct (tag_value t) as [v|].
Qed.

(** ** Properties of the event identifier and the event level *)

(** A Qualifiers attribute without a value, or with one that cannot be
    coerced to 32 bits: the value is fetched with success and the copy
    fails. *)
Lemma copy_to_32bit_not_coercible h p t :
  resolve_tag h p = Some t ->
  tag_as_unsigned 32 t = None ->
  exists value,
    libfwevt_xml_tag_get_value h (Some p) = (1, value)
    /\ libfvalue_value_copy_to_32bit h value = None.
Proof.
  unfold tag_as_unsigned, libfwevt_xml_tag_get_value.
  intros Ht Hn. rewrite Ht.
  destruct (tag_value t) as [v|] eqn:Hv.
  - exists (Some (ValuePtr p)). split; [done |].
    unfold libfvalue_value_copy_to_32bit, resolve_value.
    cbn [value_owner]. by rewrite Ht, Hv.
  - by exists None.
Qed.

(** C1, as stated, fails: with EventID 0x1234 and a Qualifiers attribute
    whose value is the string abc, the first call of
    [libevtx_record_values_get_event_identifier] returns -1. *)
Lemma get_event_identifier_text_qualifiers :
  ~ (forall h rv root system eventid e out,
       record_document h rv = Some root ->
       event_identifier_value rv = None ->
       child_element "System" root = Some system ->
       child_element "EventID" system = Some eventid ->
       tag_as_unsigned 32 eventid = Some e ->
       (libevtx_record_values_get_event_identifier h (Some rv) out).1.1.1
       = 1).
Proof.
  intros H.
  specialize (H text_qualifiers_store qualified_record text_qualifiers_event
                text_qualifiers_system text_qualifiers_eventid 0x1234 0
                eq_refl eq_refl eq_refl eq_refl eq_refl).
  vm_compute in H. discriminate H.
Qed.

(** C1, amended: for a record with a decoded XML document that holds
    Event/System/EventID with a value that can be coerced to 32 bits, the
    first call of [libevtx_record_values_get_event_identifier] returns 1 and
    writes (qualifiers << 16) | eventid in 32 bits when EventID carries a
    Qualifiers attribute whose value can be coerced to 32 bits, returns 1 and
    writes the value of EventID when it carries no such attribute, and
    returns -1 when it carries a Qualifiers attribute whose value cannot be
    coerced to 32 bits. *)
Theorem get_event_identifier_first_call h rv root system eventid e out :
  record_document h rv = Some root ->
  event_identifier_value rv = None ->
  child_element "System" root = Some system ->
  child_element "EventID" system = Some eventid ->
  tag_as_unsigned 32 eventid = Some e ->
  let r := libevtx_record_values_get_event_identifier h (Some rv) out in
  (forall qualifiers q,
     attribute "Qualifiers" eventid = Some qualifiers ->
     tag_as_unsigned 32 qualifiers = Some q ->
     r.1.1.1 = 1 /\ r.1.2 = Z.lor (Z.shiftl q 16 mod 2 ^ 32) e)
  /\ (attribute "Qualifiers" eventid = None -> r.1.1.1 = 1 /\ r.1.2 = e)
  /\ (forall qualifiers,
        attribute "Qualifiers" eventid = Some qualifiers ->
        tag_as_unsigned 32 qualifiers = None ->
        r.1.1.1 = -1).
Proof.
  intros Hdoc Hmemo Hsys Heid He.
  destruct (get_root_of_document _ _ _ Hdoc) as (a & Ha & Hroot & Hres).
  destruct (get_element_found _ _ _ _ _ Hres Hsys) as (i & Hgs & Hrs).
  destruct (get_element_found _ _ _ _ _ Hrs Heid) as (j & Hge & Hre).
  pose proof (get_value_coercible _ _ _ _ _ Hre He) as Hgv.
  pose proof (copy_to_32bit_coercible _ _ _ _ Hre He) as Hcv.
  cbv zeta. unfold libevtx_record_values_get_event_identifier.
  rewrite Hroot, Ha, Hmemo. run.
  rewrite Hgs. run. rewrite Hge. run. rewrite Hgv. run. rewrite Hcv.
  split; [| split].
  - intros qualifiers q Hq Hqv.
    destruct (get_attribute_found _ _ _ _ _ Hre Hq) as (k & Hga & Hra).
    rewrite Hga. run.
    rewrite (get_value_coercible _ _ _ _ _ Hra Hqv). run.
    rewrite (copy_to_32bit_coercible _ _ _ _ Hra Hqv). run.
    split; [done |]. apply Z.lor_comm.
  - intros Hq.
    rewrite (get_attribute_missing _ _ _ _ Hre Hq). by run.
  - intros qualifiers Hq Hqv.
    destruct (get_attribute_found _ _ _ _ _ Hre Hq) as (k & Hga & Hra).
    destruct (copy_to_32bit_not_coercible _ _ _ Hra Hqv)
      as (value & Hgq & Hcq).
    rewrite Hga. run. rewrite Hgq. run. by rewrite Hcq.
Qed.

Lemma get_event_identifier_first_call_witness :
  (libevtx_record_values_get_event_identifier qualified_store
     (Some qualified_record) 0).1.1.1 = 1
  /\ (libevtx_record_values_get_event_identifier qualified_store
        (Some qualified_record) 0).1.2 = 0x00011234.
Proof.
  exact (proj1 (get_event_identifier_first_call qualified_store
                  qualified_record qualified_event
                  (node "System"
                     [XmlTag "EventID" (Some (ValueInteger 0x1234))
                        [leaf "Qualifiers" (ValueInteger 0x0001)] [];
                      leaf "Level" (ValueInteger 0)])
                  (XmlTag "EventID" (Some (ValueInteger 0x1234))
                     [leaf "Qualifiers" (ValueInteger 0x0001)] [])
                  0x1234 0 eq_refl eq_refl eq_refl eq_refl eq_refl)
           (leaf "Qualifiers" (ValueInteger 0x0001)) 0x0001
           eq_refl eq_refl).
Defined.

(** Once the value of EventID is memoised, the walk is skipped and
    [eventid_xml_tag] is still [NULL] when the Qualifiers attribute is looked
    up: the call fails. *)
Lemma get_event_identifier_memoised h rv vp out :
  event_identifier_value rv = Some vp ->
  (libevtx_record_values_get_event_identifier h (Some rv) out).1.1.1 = -1.
Proof.
  intros Hmemo. unfold libevtx_record_values_get_event_identifier.
  case_bool_decide; [done |].
  rewrite Hmemo. run. rewrite Hmemo.
  destruct (libfvalue_value_copy_to_32bit h (Some vp)); [| done].
  unfold libfwevt_xml_tag_get_attribute_by_utf8_name. by run.
Qed.

(** A call that succeeds leaves the value of EventID memoised. *)
Lemma get_event_identifier_success_memoises h rv out rv1 out1 err :
  libevtx_record_values_get_event_identifier h (Some rv) out
  = (1, Some rv1, out1, err) ->
  is_Some (event_identifier_value rv1).
Proof.
  unfold libevtx_record_values_get_event_identifier. intros H.
  case_bool_decide; [discriminate |].
  match type of H with
  | context [match ?x with inl _ => _ | inr _ => _ end] =>
      destruct x as [e|[rv0 tag]]; [discriminate |]
  end.
  destruct (libfvalue_value_copy_to_32bit h (event_identifier_value rv0))
    as [v|] eqn:Hcopy; [| discriminate].
  assert (Hsome : is_Some (event_identifier_value rv0)).
  { destruct (event_identifier_value rv0); [by eexists |].
    discriminate Hcopy. }
  repeat (case_match; simplify_eq); done.
Qed.

(** C3: the second of two calls in succession of
    [libevtx_record_values_get_event_identifier] does not repeat the first:
    after a call that returned 1, the next call on the record returns -1. *)
Theorem get_event_identifier_second_call_fails h rv out rv1 out1 err :
  libevtx_record_values_get_event_identifier h (Some rv) out
  = (1, Some rv1, out1, err) ->
  forall out',
    (libevtx_record_values_get_event_identifier h (Some rv1) out').1.1.1
    = -1.
Proof.
  intros H out'.
  destruct (get_event_identifier_success_memoises _ _ _ _ _ _ H)
    as [vp Hvp].
  by apply get_event_identifier_memoised with vp.
Qed.

Lemma get_event_identifier_second_call_fails_witness :
  libevtx_record_values_get_event_identifier qualified_store
    (Some qualified_record) 0
  = (1, Some qualified_record_resolved, 0x00011234, None)
  /\ (libevtx_record_values_get_event_identifier qualified_store
        (Some qualified_record_resolved) 0).1.1.1 = -1.
Proof.
  split; [reflexivity |].
  exact (get_event_identifier_second_call_fails qualified_store
           qualified_record 0 qualified_record_resolved 0x00011234 None
           eq_refl 0).
Defined.

(** C5, as stated, fails: on an event without a System element both
    accessors return -1, not 0. *)
Lemma absent_field_is_not_unavailable :
  ~ (forall h rv root out,
       record_document h rv = Some root ->
       event_identifier_value rv = None ->
       system_field_absent "EventID" root ->
       (libevtx_record_values_get_event_identifier h (Some rv) out).1.1.1
       = 0)
  /\ ~ (forall h rv root out,
          record_document h rv = Some root ->
          level_value rv = None ->
          system_field_absent "Level" root ->
          (libevtx_record_values_get_event_level h (Some rv) out).1.1.1
          = 0).
Proof.
  split; intros H;
    specialize (H bare_store qualified_record bare_event 0
                  eq_refl eq_refl (or_introl eq_refl));
    vm_compute in H; discriminate H.
Qed.

(** C5, amended: for a record with a decoded XML document whose root has no
    System child, or whose System element lacks the field, the first call of
    [libevtx_record_values_get_event_identifier] returns -1 and sets an
    error, and so does [libevtx_record_values_get_event_level] when System
    or Level is absent; neither touches the record or the output. *)
Theorem absent_field_is_error h rv root out :
  record_document h rv = Some root ->
  (event_identifier_value rv = None ->
   system_field_absent "EventID" root ->
   let r := libevtx_record_values_get_event_identifier h (Some rv) out in
   r.1.1 = (-1, Some rv) /\ r.1.2 = out /\ is_Some r.2)
  /\ (level_value rv = None ->
      system_field_absent "Level" root ->
      let r := libevtx_record_values_get_event_level h (Some rv) out in
      r.1.1 = (-1, Some rv) /\ r.1.2 = out /\ is_Some r.2).
Proof.
  intros Hdoc.
  destruct (get_root_of_document _ _ _ Hdoc) as (a & Ha & Hroot & Hres).
  split; intros Hmemo Habsent; cbv zeta.
  - unfold libevtx_record_values_get_event_identifier.
    rewrite Hroot, Ha, Hmemo. run.
    destruct Habsent as [Hsys | (system & Hsys & Hfield)].
    + rewrite (get_element_missing _ _ _ _ Hres Hsys). run. eauto.
    + destruct (get_element_found _ _ _ _ _ Hres Hsys) as (i & Hgs & Hrs).
      rewrite Hgs. run.
      rewrite (get_element_missing _ _ _ _ Hrs Hfield). run. eauto.
  - unfold libevtx_record_values_get_event_level.
    rewrite Hroot, Ha, Hmemo. run.
    destruct Habsent as [Hsys | (system & Hsys & Hfield)].
    + rewrite (get_element_missing _ _ _ _ Hres Hsys). run. eauto.
    + destruct (get_element_found _ _ _ _ _ Hres Hsys) as (i & Hgs & Hrs).
      rewrite Hgs. run.
      rewrite (get_element_missing _ _ _ _ Hrs Hfield). run. eauto.
Qed.

Lemma absent_field_is_error_witness :
  (libevtx_record_values_get_event_identifier bare_store
     (Some qualified_record) 0).1.1 = (-1, Some qualified_record)
  /\ (libevtx_record_values_get_event_level bare_store
        (Some qualified_record) 0).1.1 = (-1, Some qualified_record).
Proof.
  pose proof (absent_field_is_error bare_store qualified_record bare_event
                0 eq_refl) as [Hid Hlevel].
  split.
  - exact (proj1 (Hid eq_refl (or_introl eq_refl))).
  - exact (proj1 (Hlevel eq_refl (or_introl eq_refl))).
Defined.

(** ** Properties of the scan *)

Lemma scan_data_prefix (prefix rest : list libfwevt_xml_tag_t) (i : nat) :
  Forall named_data prefix ->
  Forall (λ t, ¬ named_data t) rest ->
  scan_data (prefix ++ rest) i i = (true, (i + length prefix)%nat).
Proof.
  intros Hprefix Hrest. revert i.
  induction Hprefix as [|e prefix He _ IH]; intros i; cbn [app length].
  - rewrite Nat.add_0_r. generalize i at 1 as j.
    induction Hrest as [|e rest He _ IH]; intros j; cbn; [done |].
    by rewrite bool_decide_eq_false_2.
  - cbn [scan_data].
    rewrite bool_decide_eq_true_2, bool_decide_eq_true_2 by done.
    rewrite IH. f_equal. lia.
Qed.

(** When the scan runs to its end, every Data element sits at the index
    that equals the number of Data elements before it. *)
Lemma scan_data_complete (elements : list libfwevt_xml_tag_t) :
  forall (i c r j : nat) (e : libfwevt_xml_tag_t),
    scan_data elements i c = (true, r) ->
    elements !! j = Some e ->
    named_data e ->
    (i + j = c + data_before elements j)%nat.
Proof.
  unfold data_before.
  induction elements as [|x rest IH]; intros i c r j e Hscan Hj He;
    [done |].
  cbn [scan_data] in Hscan.
  destruct j as [|j]; cbn in Hj.
  - injection Hj as ->.
    rewrite bool_decide_eq_true_2 in Hscan by done.
    case_bool_decide; [| discriminate]. cbn. lia.
  - cbn [take]. rewrite filter_cons.
    case_bool_decide as Hx.
    + case_bool_decide; [| discriminate].
      rewrite decide_True by done. cbn [length].
      specialize (IH _ _ _ _ _ Hscan Hj He). lia.
    + rewrite decide_False by done.
      specialize (IH _ _ _ _ _ Hscan Hj He). lia.
Qed.

Lemma scan_data_non_contiguous (elements : list libfwevt_xml_tag_t)
    (j : nat) (e : libfwevt_xml_tag_t) :
  elements !! j = Some e ->
  named_data e ->
  j <> data_before elements j ->
  (scan_data elements 0 0).1 = false.
Proof.
  intros Hj He Hne.
  destruct (scan_data elements 0 0) as [[|] r] eqn:Hscan; [| done].
  pose proof (scan_data_complete _ _ _ _ _ _ Hscan Hj He). lia.
Qed.

(** ** Properties of the strings loop *)

(** A name of UTF-8 size 5 that agrees with Data on 4 characters is Data. *)
Lemma name_of_size_5 (s : string) :
  Z.of_nat (String.length s) + 1 = 5 ->
  libcstring_narrow_string_compare_equal s "Data" 4
  = bool_decide (s = "Data").
Proof.
  intros Hlen. unfold libcstring_narrow_string_compare_equal.
  destruct s as [|a [|b [|c [|d [|x s]]]]]; cbn in Hlen; try lia.
  reflexivity.
Qed.

Lemma name_of_other_size (s : string) :
  Z.of_nat (String.length s) + 1 <> 5 -> s <> "Data".
Proof. intros Hlen ->. by apply Hlen. Qed.

Lemma number_of_strings_loop_scan h p t :
  resolve_tag h p = Some t ->
  forall (rest : list libfwevt_xml_tag_t) (i c : nat),
    drop i (tag_elements t) = rest ->
    number_of_strings_loop h (Some p) (length rest) (Z.of_nat i)
      (Z.of_nat c)
    = if (scan_data rest i c).1
      then (1, Z.of_nat (scan_data rest i c).2, None)
      else (-1, Z.of_nat (scan_data rest i c).2,
            Some non_contiguous_data_error).
Proof.
  intros Ht rest.
  induction rest as [|e rest IH]; intros i c Hdrop; [done |].
  assert (Hi : tag_elements t !! i = Some e).
  { rewrite <- (Nat.add_0_r i), <- lookup_drop, Hdrop. done. }
  assert (Hrest : drop (S i) (tag_elements t) = rest).
  { rewrite (drop_S _ _ _ Hi) in Hdrop. by injection Hdrop. }
  pose proof (lookup_lt_Some _ _ _ Hi) as Hlt.
  cbn [number_of_strings_loop length scan_data].
  unfold libfwevt_xml_tag_get_element_by_index. rewrite Ht.
  replace (Z.of_nat i <? 0) with false by lia.
  replace (Z.of_nat (length (tag_elements t)) <=? Z.of_nat i) with false
    by lia.
  rewrite Nat2Z.id. run.
  unfold libfwevt_xml_tag_get_utf8_name_size.
  rewrite (resolve_child_element _ _ _ _ Ht), Hi. run.
  replace (Z.of_nat i + 1) with (Z.of_nat (S i)) by lia.
  destruct (Z.of_nat (String.length (tag_name e)) + 1 =? 5) eqn:Hsize.
  - apply Z.eqb_eq in Hsize.
    unfold libfwevt_xml_tag_get_utf8_name.
    rewrite (resolve_child_element _ _ _ _ Ht), Hi.
    replace (5 <? Z.of_nat (String.length (tag_name e)) + 1) with false
      by lia.
    run. rewrite (name_of_size_5 _ Hsize). fold (named_data e).
    destruct (decide (named_data e)) as [Hname|Hname].
    + rewrite (bool_decide_eq_true_2 (named_data e)) by done.
      destruct (decide (i = c)) as [->|Hindex].
      * rewrite (bool_decide_eq_true_2 (c = c)), Z.eqb_refl by done. run.
        replace (Z.of_nat c + 1) with (Z.of_nat (S c)) by lia.
        by apply IH.
      * rewrite (bool_decide_eq_false_2 (i = c)) by done.
        replace (Z.of_nat i =? Z.of_nat c) with false by lia. by run.
    + rewrite (bool_decide_eq_false_2 (named_data e)) by done.
      by apply IH.
  - apply Z.eqb_neq in Hsize.
    rewrite (bool_decide_eq_false_2 (named_data e))
      by by apply name_of_other_size.
    by apply IH.
Qed.

(** ** Properties of the number of strings *)

Section EventDataProperties.

Variables EVENT_DATA USER_DATA : Z.
Hypothesis event_data_types_differ : EVENT_DATA <> USER_DATA.

(** With the EventData container the call is the scan of its children. *)
Lemma get_number_of_strings_scan h rv container n0 :
  event_data_container EVENT_DATA h rv container ->
  exists rv',
    libevtx_record_values_get_number_of_strings EVENT_DATA USER_DATA h
      (Some rv) (Some n0)
    = if (scan_data (tag_elements container) 0 0).1
      then (1, Some rv',
            Some (Z.of_nat (scan_data (tag_elements container) 0 0).2),
            None)
      else (-1, Some rv',
            Some (Z.of_nat (scan_data (tag_elements container) 0 0).2),
            Some non_contiguous_data_error).
Proof.
  intros (root & Hdoc & Hed & Hmemo).
  destruct (get_root_of_document _ _ _ Hdoc) as (a & Ha & Hroot & Hres).
  destruct (get_element_found _ _ _ _ _ Hres Hed) as (i & Hge & Hre).
  assert (Hdiffer : (EVENT_DATA =? USER_DATA) = false) by lia.
  unfold libevtx_record_values_get_number_of_strings.
  destruct Hmemo as [Hnone | (p & Hsome & Htype & Hp)].
  - unfold libevtx_record_values_get_event_data_xml_tag.
    rewrite Hroot, Ha, Hnone. run. rewrite Hge. run.
    cbn [default from_option id]. run.
    unfold libfwevt_xml_tag_get_number_of_elements. rewrite Hre. run.
    rewrite Hdiffer, Nat2Z.id.
    pose proof (number_of_strings_loop_scan _ _ _ Hre
                  (tag_elements container) 0%nat 0%nat eq_refl) as Hloop.
    change (Z.of_nat 0) with 0 in Hloop. rewrite Hloop.
    eexists. by destruct (scan_data _ _ _).1.
  - rewrite Ha, Hsome. run. rewrite Hsome. run.
    unfold libfwevt_xml_tag_get_number_of_elements. rewrite Hp. run.
    rewrite Htype, Hdiffer, Nat2Z.id.
    pose proof (number_of_strings_loop_scan _ _ _ Hp
                  (tag_elements container) 0%nat 0%nat eq_refl) as Hloop.
    change (Z.of_nat 0) with 0 in Hloop. rewrite Hloop.
    eexists. by destruct (scan_data _ _ _).1.
Qed.

(** C6: for a record whose event data container is Event/EventData,
    [libevtx_record_values_get_number_of_strings] returns 1 with the length
    of the prefix when the Data children are a prefix of the children, and
    returns -1 with the non-contiguous Data error when some Data child sits
    at an index that differs from the number of Data children before it. *)
Theorem get_number_of_strings_event_data h rv container n0 :
  event_data_container EVENT_DATA h rv container ->
  let r :=
    libevtx_record_values_get_number_of_strings EVENT_DATA USER_DATA h
      (Some rv) (Some n0) in
  (forall prefix rest,
     tag_elements container = prefix ++ rest ->
     Forall named_data prefix ->
     Forall (λ t, ¬ named_data t) rest ->
     r.1.1.1 = 1 /\ r.1.2 = Some (Z.of_nat (length prefix)))
  /\ (forall j e,
        tag_elements container !! j = Some e ->
        named_data e ->
        j <> data_before (tag_elements container) j ->
        r.1.1.1 = -1 /\ r.2 = Some non_contiguous_data_error).
Proof.
  intros Hcontainer. cbv zeta.
  destruct (get_number_of_strings_scan _ _ _ n0 Hcontainer) as [rv' ->].
  split.
  - intros prefix rest -> Hprefix Hrest.
    by rewrite (scan_data_prefix _ _ 0 Hprefix Hrest).
  - intros j e Hj He Hne.
    by rewrite (scan_data_non_contiguous _ _ _ Hj He Hne).
Qed.

(** C10: for a record with a decoded XML document whose root has neither an
    EventData nor a UserData child,
    [libevtx_record_values_get_number_of_strings] returns 1 and reports no
    strings; the record is left as it was. *)
Theorem get_number_of_strings_without_event_data h rv root n0 :
  record_document h rv = Some root ->
  event_data_xml_tag rv = None ->
  child_element "EventData" root = None ->
  child_element "UserData" root = None ->
  libevtx_record_values_get_number_of_strings EVENT_DATA USER_DATA h
    (Some rv) (Some n0)
  = (1, Some rv, Some 0, None).
Proof.
  intros Hdoc Hmemo Hed Hud.
  destruct (get_root_of_document _ _ _ Hdoc) as (a & Ha & Hroot & Hres).
  unfold libevtx_record_values_get_number_of_strings,
    libevtx_record_values_get_event_data_xml_tag.
  rewrite Hroot, Ha, Hmemo. run.
  rewrite (get_element_missing _ _ _ _ Hres Hed). run.
  rewrite (get_element_missing _ _ _ _ Hres Hud). run.
  cbn [default from_option id]. run.
  destruct rv. cbn in Hmemo. by subst.
Qed.

End EventDataProperties.

Lemma get_number_of_strings_event_data_witness :
  (libevtx_record_values_get_number_of_strings 1 2 prefix_store
     (Some qualified_record) (Some 99)).1.2 = Some 2
  /\ (libevtx_record_values_get_number_of_strings 1 2 interleaved_store
        (Some qualified_record) (Some 99)).1.1.1 = -1.
Proof.
  split.
  - refine (proj2 (proj1 (get_number_of_strings_event_data 1 2 _
                            prefix_store qualified_record
                            (node "EventData"
                               [leaf "Data" (ValueString "a");
                                leaf "Data" (ValueString "b");
                                leaf "Foo" ValueNull]) 99 _)
                           [leaf "Data" (ValueString "a");
                            leaf "Data" (ValueString "b")]
                           [leaf "Foo" ValueNull] eq_refl _ _)).
    + discriminate.
    + exists prefix_event. split; [reflexivity |]. split; [reflexivity |].
      by left.
    + repeat constructor.
    + repeat constructor. discriminate.
  - refine (proj1 (proj2 (get_number_of_strings_event_data 1 2 _
                            interleaved_store qualified_record
                            (node "EventData"
                               [leaf "Data" (ValueString "a");
                                leaf "Data" (ValueString "b");
                                leaf "Foo" ValueNull;
                                leaf "Data" (ValueString "c")]) 99 _)
                           3%nat (leaf "Data" (ValueString "c"))
                           eq_refl eq_refl _)).
    + discriminate.
    + exists interleaved_event.
      split; [reflexivity |]. split; [reflexivity |]. by left.
    + vm_compute. discriminate.
Defined.

Lemma get_number_of_strings_without_event_data_witness :
  libevtx_record_values_get_number_of_strings 1 2 qualified_store
    (Some qualified_record) (Some 99)
  = (1, Some qualified_record, Some 0, None).
Proof.
  exact (get_number_of_strings_without_event_data 1 2 qualified_store
           qualified_record qualified_event 99
           eq_refl eq_refl eq_refl eq_refl).
Defined.

(** ** Properties of cloning *)

Lemma document_clone_fresh (h : store) (a : nat) d :
  h !! a = Some d ->
  exists a',
    libfwevt_xml_document_clone h a = Some (<[a' := d]> h, a')
    /\ h !! a' = None /\ a' <> a.
Proof.
  intros Hd. unfold libfwevt_xml_document_clone. rewrite Hd.
  exists (fresh (dom h)).
  assert (Hfresh : h !! fresh (dom h) = None)
    by (apply not_elem_of_dom, is_fresh).
  split; [done |]. split; [done |].
  intros Heq. rewrite Heq, Hd in Hfresh. discriminate.
Qed.

(** C7: [libevtx_record_values_clone] of a source whose document is live
    returns 1, and the destination holds the memoised handles of the source
    as they are, not reset to [NULL], while its document is a copy at another
    address: a handle into the document of the source stays a handle into
    the document of the source. *)
Theorem clone_keeps_memoised_handles h source a d :
  xml_document source = Some a ->
  h !! a = Some d ->
  exists h' a' destination,
    libevtx_record_values_clone true h (Some None) (Some source)
    = (1, h', Some (Some destination), None)
    /\ memoised_handles destination = memoised_handles source
    /\ xml_document destination = Some a'
    /\ a' <> a
    /\ h' !! a' = Some d.
Proof.
  intros Ha Hd.
  destruct (document_clone_fresh _ _ _ Hd) as (a' & Hclone & Hnew & Hne).
  exists (<[a' := d]> h), a',
    (set_xml_document (set_xml_document source None) (Some a')).
  unfold libevtx_record_values_clone. cbn [negb].
  rewrite Ha, Hclone.
  split; [done |]. split; [done |]. split; [done |]. split; [done |].
  apply lookup_insert_eq.
Qed.

Lemma clone_keeps_memoised_handles_witness :
  exists h' a' destination,
    libevtx_record_values_clone true qualified_store (Some None)
      (Some qualified_record_resolved)
    = (1, h', Some (Some destination), None)
    /\ event_identifier_value destination
       = Some (ValuePtr (TagPtr 7 [ElementStep 0; ElementStep 0]))
    /\ xml_document destination = Some a'
    /\ a' <> 7%nat.
Proof.
  destruct (clone_keeps_memoised_handles qualified_store
              qualified_record_resolved 7%nat
              (XmlDocument (Some qualified_event)) eq_refl eq_refl)
    as (h' & a' & destination & Hclone & Hmemo & Hdoc & Hne & _).
  exists h', a', destination.
  split; [exact Hclone |]. split; [| by split].
  by injection Hmemo as -> _ _ _ _ _.
Defined.

(** ** More on the header parser *)

Lemma uint8_of_byte_of_Z (z : Z) :
  0 <= z < 256 -> uint8_of_byte (byte_of_Z z) = z.
Proof.
  intros Hz. unfold uint8_of_byte, byte_of_Z.
  destruct (Byte.of_N (Z.to_N z)) as [b|] eqn:Hb.
  - apply Byte.to_of_N in Hb. cbn. rewrite Hb. lia.
  - apply Byte.of_N_None_iff in Hb. lia.
Qed.

Lemma lor_shiftl_byte (x b : Z) :
  0 <= b < 256 -> Z.lor (Z.shiftl x 8) b = x * 256 + b.
Proof.
  intros Hb.
  assert (Hland : Z.land (Z.shiftl x 8) b = 0).
  { apply Z.bits_inj'. intros i Hi.
    rewrite Z.land_spec, Z.bits_0.
    destruct (Z.lt_ge_cases i 8) as [Hlt|Hge].
    - rewrite Z.shiftl_spec_low by done. done.
    - rewrite (Z.bits_above_log2 b i), andb_false_r; [done | lia |].
      destruct (Z.eq_dec b 0) as [->|Hne]; [cbn; lia |].
      apply Z.lt_le_trans with 8; [| done].
      apply Z.log2_lt_pow2; lia. }
  rewrite <- Z.lxor_lor, <- Z.add_nocarry_lxor by done.
  rewrite Z.shiftl_mul_pow2 by lia. done.
Qed.

Lemma byte_at_little_endian (width : nat) (n : Z) (rest : list byte)
    (i : nat) :
  (i < width)%nat ->
  byte_at (little_endian width n ++ rest) i = (n / 256 ^ Z.of_nat i) mod 256.
Proof.
  revert n i. induction width as [|width IH]; intros n i Hi; [lia |].
  destruct i as [|i].
  - cbn [little_endian app]. unfold byte_at. cbn [lookup list_lookup].
    rewrite uint8_of_byte_of_Z by (apply Z.mod_pos_bound; lia).
    by rewrite Z.div_1_r.
  - cbn [little_endian app]. unfold byte_at in *. cbn [lookup list_lookup].
    rewrite IH by lia.
    rewrite Nat2Z.inj_succ, Z.pow_succ_r, Z.div_div by lia. done.
Qed.

Lemma copy_to_uint32_little_endian (n : Z) (rest : list byte) :
  0 <= n < 2 ^ 32 ->
  byte_stream_copy_to_uint32_little_endian (little_endian 4 n ++ rest) = n.
Proof.
  intros Hn. unfold byte_stream_copy_to_uint32_little_endian.
  rewrite !byte_at_little_endian by lia.
  rewrite !lor_shiftl_byte by (apply Z.mod_pos_bound; lia).
  change (Z.of_nat 0) with 0. change (Z.of_nat 1) with 1.
  change (Z.of_nat 2) with 2. change (Z.of_nat 3) with 3.
  rewrite (Z.mod_small (n / 256 ^ 3) 256)
    by (split; [apply Z.div_pos; lia | apply Z.div_lt_upper_bound; lia]).
  change (256 ^ 0) with 1. change (256 ^ 1) with 256.
  change (256 ^ 2) with (256 * 256).
  change (256 ^ 3) with (256 * (256 * 256)).
  rewrite Z.div_1_r, <- !Z.div_div by lia.
  pose proof (Z.div_mod n 256 ltac:(lia)).
  pose proof (Z.div_mod (n / 256) 256 ltac:(lia)).
  pose proof (Z.div_mod (n / 256 / 256) 256 ltac:(lia)).
  lia.
Qed.

Lemma copy_to_uint64_little_endian (n : Z) (rest : list byte) :
  0 <= n < 2 ^ 64 ->
  byte_stream_copy_to_uint64_little_endian (little_endian 8 n ++ rest) = n.
Proof.
  intros Hn. unfold byte_stream_copy_to_uint64_little_endian.
  rewrite !byte_at_little_endian by lia.
  rewrite !lor_shiftl_byte by (apply Z.mod_pos_bound; lia).
  change (Z.of_nat 0) with 0. change (Z.of_nat 1) with 1.
  change (Z.of_nat 2) with 2. change (Z.of_nat 3) with 3.
  change (Z.of_nat 4) with 4. change (Z.of_nat 5) with 5.
  change (Z.of_nat 6) with 6. change (Z.of_nat 7) with 7.
  rewrite (Z.mod_small (n / 256 ^ 7) 256)
    by (split; [apply Z.div_pos; lia | apply Z.div_lt_upper_bound; lia]).
  change (256 ^ 0) with 1. change (256 ^ 1) with 256.
  change (256 ^ 2) with (256 * 256).
  change (256 ^ 3) with (256 * (256 * 256)).
  change (256 ^ 4) with (256 * (256 * (256 * 256))).
  change (256 ^ 5) with (256 * (256 * (256 * (256 * 256)))).
  change (256 ^ 6) with (256 * (256 * (256 * (256 * (256 * 256))))).
  change (256 ^ 7) with (256 * (256 * (256 * (256 * (256 * (256 * 256)))))).
  rewrite Z.div_1_r, <- !Z.div_div by lia.
  pose proof (Z.div_mod n 256 ltac:(lia)).
  pose proof (Z.div_mod (n / 256) 256 ltac:(lia)).
  pose proof (Z.div_mod (n / 256 / 256) 256 ltac:(lia)).
  pose proof (Z.div_mod (n / 256 / 256 / 256) 256 ltac:(lia)).
  pose proof (Z.div_mod (n / 256 / 256 / 256 / 256) 256 ltac:(lia)).
  pose proof (Z.div_mod (n / 256 / 256 / 256 / 256 / 256) 256 ltac:(lia)).
  pose proof (Z.div_mod (n / 256 / 256 / 256 / 256 / 256 / 256) 256
                ltac:(lia)).
  lia.
Qed.

Lemma length_little_endian (width : nat) (n : Z) :
  length (little_endian width n) = width.
Proof.
  revert n. induction width as [|width IH]; intros n; cbn; [done |].
  by rewrite IH.
Qed.

(** X1: a header written little-endian is read back as it was written: for a
    chunk that holds, at the offset, the signature, the size, the identifier
    and the written time, with the size in the range the parser accepts and
    below 2^32,
    [libevtx_record_values_read_header] returns 1 and stores the offset and
    the three values. *)
Theorem read_header_round_trip rv io before rest size ident time :
  let o := Z.of_nat (length before) in
  let data := before ++ event_record_header size ident time ++ rest in
  let chunk_data_size := Z.of_nat (length data) in
  chunk_data_size <= SSIZE_MAX ->
  0 <= ident < 2 ^ 64 ->
  0 <= time < 2 ^ 64 ->
  sizeof_evtx_event_record_header_t <= size <= chunk_data_size - o - 4 ->
  size < 2 ^ 32 ->
  exists rv',
    libevtx_record_values_read_header (Some rv) (Some io) (Some data)
      chunk_data_size o
    = (1, Some rv', None)
    /\ header_fields rv' = (o, size, ident, time).
Proof.
  intros o data chunk_data_size Hmax Hident Htime Hsize Hsize32.
  assert (Hdrop : drop (Z.to_nat o) data
                  = event_record_header size ident time ++ rest).
  { unfold o, data. rewrite Nat2Z.id. by rewrite drop_app_length. }
  assert (Hbounds : chunk_bounds_ok chunk_data_size o).
  { unfold chunk_bounds_ok, sizeof_evtx_event_record_header_t in *.
    unfold o in *. lia. }
  assert (Hsig : record_signature data o = evtx_event_record_signature).
  { unfold record_signature. by rewrite Hdrop. }
  assert (Hstored : stored_size data o = size).
  { unfold stored_size. rewrite Hdrop.
    unfold event_record_header. rewrite <- !app_assoc.
    change (drop header_size_offset
              (evtx_event_record_signature ++ ?l)) with l.
    apply copy_to_uint32_little_endian.
    unfold sizeof_evtx_event_record_header_t, SSIZE_MAX in *. lia. }
  exists (with_header rv data o).
  rewrite (read_header_good_signature _ _ _ _ _ Hbounds Hsig), Hstored.
  replace (_ || _) with false by (symmetry; apply orb_false_iff; lia).
  split; [done |].
  unfold header_fields, with_header. cbn. rewrite Hstored, Hdrop.
  unfold event_record_header. rewrite <- !app_assoc.
  f_equal; [f_equal |].
  - change (drop 8
              (evtx_event_record_signature ++ ?l))
      with (drop 4 l).
    rewrite (drop_app_length' _ _ 4) by by rewrite length_little_endian.
    by apply copy_to_uint64_little_endian.
  - change (drop 16
              (evtx_event_record_signature ++ ?l))
      with (drop 12 l).
    rewrite app_assoc, (drop_app_length' _ _ 12)
      by (rewrite length_app, !length_little_endian; done).
    by apply copy_to_uint64_little_endian.
Qed.

Lemma read_header_round_trip_witness :
  exists rv',
    libevtx_record_values_read_header (Some zeroed_record_values)
      (Some example_io_handle)
      (Some (replicate 8 x00 ++ event_record_header 48 7 9
             ++ replicate 32 x00)) 64 8
    = (1, Some rv', None)
    /\ header_fields rv' = (8, 48, 7, 9).
Proof.
  apply (read_header_round_trip zeroed_record_values example_io_handle
           (replicate 8 x00) (replicate 32 x00) 48 7 9).
  - vm_compute. discriminate.
  - lia.
  - lia.
  - vm_compute. split; discriminate.
  - lia.
Defined.

(** X2: when fewer bytes than a header and a size copy lie behind the
    offset, [libevtx_record_values_read_header] fails before it looks at the
    chunk: with the offset out of bounds error when the offset is not inside
    the chunk, with the too small error otherwise; the record is left as it
    was. *)
Theorem read_header_short_chunk rv io data size o :
  0 <= o ->
  size <= SSIZE_MAX ->
  size - o < sizeof_evtx_event_record_header_t + 4 ->
  let r :=
    libevtx_record_values_read_header (Some rv) (Some io) (Some data)
      size o in
  r.1 = (-1, Some rv)
  /\ (size <= o -> r.2 = Some offset_out_of_bounds_error)
  /\ (o < size -> r.2 = Some too_small_error).
Proof.
  intros Ho Hmax Hshort. cbv zeta.
  unfold libevtx_record_values_read_header.
  replace (size >? SSIZE_MAX) with false by lia.
  destruct (o >=? size) eqn:Hoff.
  - split; [done |]. split; [done | lia].
  - rewrite size_t_sub_small by lia.
    unfold sizeof_evtx_event_record_header_t in *.
    replace (size - o <? size_t_add 24 4) with true
      by (change (size_t_add 24 4) with 28; lia).
    split; [done |]. split; [lia | done].
Qed.

Lemma read_header_short_chunk_witness :
  libevtx_record_values_read_header (Some zeroed_record_values)
    (Some example_io_handle) (Some (example_chunk 48 7 9 [])) 64 40
  = (-1, Some zeroed_record_values, Some too_small_error).
Proof.
  pose proof (read_header_short_chunk zeroed_record_values
                example_io_handle (example_chunk 48 7 9 []) 64 40)
    as H.
  destruct H as (H1 & _ & H3).
  - lia.
  - vm_compute. discriminate.
  - vm_compute. reflexivity.
  - specialize (H3 ltac:(lia)).
    destruct (libevtx_record_values_read_header _ _ _ _ _) as [p e].
    cbn in H1, H3. by subst.
Defined.

(** X3: [libevtx_record_values_read_header] writes the four header fields
    only: whatever it returns, the document of the record, its memoised
    handles and its event data type are those the record had. *)
Theorem read_header_keeps_document rv io data size o :
  exists rv',
    (libevtx_record_values_read_header (Some rv) io data size o).1.2
    = Some rv'
    /\ xml_document rv' = xml_document rv
    /\ memoised_handles rv' = memoised_handles rv
    /\ event_data_type rv' = event_data_type rv.
Proof.
  unfold libevtx_record_values_read_header.
  destruct io, data; try by exists rv.
  repeat case_match; try by exists rv.
  all: by eexists.
Qed.

(** A call that returns 1 has passed every check. *)
Lemma read_header_success rv io data size o rv1 err :
  0 <= o ->
  libevtx_record_values_read_header (Some rv) (Some io) (Some data) size o
  = (1, Some rv1, err) ->
  chunk_bounds_ok size o
  /\ rv1 = with_header rv data o
  /\ sizeof_evtx_event_record_header_t <= stored_size data o
     <= size - o - 4.
Proof.
  intros Ho. unfold libevtx_record_values_read_header.
  destruct (size >? SSIZE_MAX) eqn:Hmax; [discriminate |].
  destruct (o >=? size) eqn:Hoff; [discriminate |].
  rewrite size_t_sub_small by lia.
  destruct (size - o <? _) eqn:Hsmall; [discriminate |].
  change (size_t_add sizeof_evtx_event_record_header_t 4) with 28
    in Hsmall.
  destruct (negb _); [discriminate |].
  rewrite size_t_sub_small by lia.
  fold (stored_size data o). cbn [data_size set_header_fields].
  destruct (_ || _) eqn:Hrange; [discriminate |].
  apply orb_false_iff in Hrange as [H1 H2].
  intros [= <-].
  unfold chunk_bounds_ok, sizeof_evtx_event_record_header_t in *.
  repeat split; try lia. 
Qed.

(** ** Properties of reading the XML document *)

Section XmlDocumentReadProperties.

Variable decode : list byte -> Z -> Z -> Z -> option libfwevt_xml_tag_t.

Lemma fresh_document_free (h : store) (d : libfwevt_xml_document_t) :
  delete (fresh (dom h)) (<[fresh (dom h) := d]> h) = h.
Proof. apply delete_insert_id, not_elem_of_dom, is_fresh. Qed.

Lemma set_xml_document_back rv a :
  xml_document rv = None ->
  set_xml_document (set_xml_document rv (Some a)) None = rv.
Proof. destruct rv. cbn. by intros ->. Qed.

(** X4: [libevtx_record_values_read_xml_document] returns no partial
    result: a call that does not return 1 leaves the store of documents and
    the record as they were (the document it had created is released
    again), and the call does not return 1 on a record that has a document
    already. *)
Theorem read_xml_document_failure_unchanged memory_available h rv io data
    size :
  let r :=
    libevtx_record_values_read_xml_document decode memory_available h
      (Some rv) io data size in
  (r.1.1.1 <> 1 -> r.1.1.2 = h /\ r.1.2 = Some rv)
  /\ (xml_document rv <> None -> r.1.1.1 = -1).
Proof.
  cbv zeta. unfold libevtx_record_values_read_xml_document.
  case_bool_decide as Hdoc; cbn [negb]; [| by split].
  split; [| done].
  destruct io as [io|], data as [data|]; try done.
  repeat (case_match; try done).
  all: unfold libfwevt_xml_document_initialize,
         libfwevt_xml_document_free in *;
       cbn [xml_document set_xml_document] in *; simplify_eq; cbn.
  intros _. by rewrite fresh_document_free, set_xml_document_back.
Qed.

(** X5: after [libevtx_record_values_read_header] has returned 1 for a
    record without a document, [libevtx_record_values_read_xml_document] on
    the same chunk passes its bounds checks, also when the stored size is
    below the header and the size copy and the subtraction wraps around: the
    decoder runs at the offset of the record plus the length of the header,
    and the call returns 1 with the decoded tree as a new document exactly
    when the decoder succeeds. *)
Theorem read_xml_document_after_header h rv io data size o rv1 :
  0 <= o ->
  xml_document rv = None ->
  libevtx_record_values_read_header (Some rv) (Some io) (Some data) size o
  = (1, Some rv1, None) ->
  libevtx_record_values_read_xml_document decode true h (Some rv1)
    (Some io) (Some data) size
  = match decode data size (o + sizeof_evtx_event_record_header_t)
            (ascii_codepage io) with
    | Some root =>
        (1, <[fresh (dom h) := XmlDocument (Some root)]> h,
         Some (set_xml_document rv1 (Some (fresh (dom h)))), None)
    | None =>
        (-1, h, Some rv1,
         Some (RaisedLifecycle LIBCERROR_ERROR_DOMAIN_IO
                 LIBCERROR_IO_ERROR_READ_FAILED
                 "unable to read binary XML document."))
    end.
Proof.
  intros Ho Hdoc Hheader.
  destruct (read_header_success _ _ _ _ _ _ _ Ho Hheader)
    as ((Hmax & Hoff & Hlen) & -> & Hrange).
  unfold sizeof_evtx_event_record_header_t, SSIZE_MAX in *.
  unfold libevtx_record_values_read_xml_document.
  cbn [xml_document chunk_data_offset data_size with_header
         set_header_fields].
  rewrite Hdoc, bool_decide_eq_true_2 by done. cbn [negb].
  replace (size >? SSIZE_MAX) with false by (unfold SSIZE_MAX; lia).
  replace (o >=? size) with false by lia.
  assert (Hadd : size_t_add o sizeof_evtx_event_record_header_t = o + 24).
  { unfold size_t_add, size_t_wrap, SIZE_WIDTH. apply Z.mod_small.
    unfold sizeof_evtx_event_record_header_t. lia. }
  rewrite Hadd.
  replace (o + 24 >=? size) with false by lia.
  assert (Hend : size_t_add (o + 24)
                   (size_t_sub (stored_size data o)
                      (size_t_add sizeof_evtx_event_record_header_t 4))
                 = o + stored_size data o - 4).
  { unfold size_t_add, size_t_sub, size_t_wrap, SIZE_WIDTH.
    change ((sizeof_evtx_event_record_header_t + 4) mod 2 ^ 64) with 28.
    rewrite Zplus_mod_idemp_r.
    replace (o + 24 + (stored_size data o - 28))
      with (o + stored_size data o - 4) by lia.
    apply Z.mod_small. lia. }
  rewrite Hend.
  replace (o + stored_size data o - 4 >? size) with false by lia.
  cbn [negb]. unfold libfwevt_xml_document_initialize.
  cbn [xml_document set_xml_document].
  change (o + sizeof_evtx_event_record_header_t) with (o + 24).
  destruct (decode data size (o + 24) (ascii_codepage io)) as [root|].
  - by rewrite insert_insert_eq.
  - unfold libfwevt_xml_document_free.
    rewrite fresh_document_free.
    by rewrite (set_xml_document_back (with_header rv data o)).
Qed.

End XmlDocumentReadProperties.

Lemma read_xml_document_failure_unchanged_witness :
  let r :=
    libevtx_record_values_read_xml_document (λ _ _ _ _, None) true
      qualified_store
      (Some (with_header zeroed_record_values (example_chunk 48 7 9 []) 8))
      (Some example_io_handle) (Some (example_chunk 48 7 9 [])) 64 in
  r.1.1.1 = -1
  /\ r.1.1.2 = qualified_store
  /\ r.1.2
     = Some (with_header zeroed_record_values (example_chunk 48 7 9 []) 8).
Proof.
  split; [reflexivity |].
  apply (proj1 (read_xml_document_failure_unchanged (λ _ _ _ _, None)
                  true qualified_store
                  (with_header zeroed_record_values
                     (example_chunk 48 7 9 []) 8)
                  (Some example_io_handle)
                  (Some (example_chunk 48 7 9 [])) 64)).
  vm_compute. discriminate.
Defined.

Lemma read_xml_document_after_header_witness :
  (libevtx_record_values_read_xml_document
     (λ _ _ offset _, if offset =? 32 then Some bare_event else None) true ∅
     (Some (with_header zeroed_record_values (example_chunk 27 7 9 []) 8))
     (Some example_io_handle) (Some (example_chunk 27 7 9 [])) 64).1.1.1
  = 1.
Proof.
  rewrite (read_xml_document_after_header
             (λ _ _ offset _, if offset =? 32 then Some bare_event else None)
             ∅ zeroed_record_values example_io_handle
             (example_chunk 27 7 9 []) 64 8
             (with_header zeroed_record_values (example_chunk 27 7 9 []) 8)).
  - reflexivity.
  - lia.
  - reflexivity.
  - reflexivity.
Defined.

(** ** More on the event identifier and the event level *)

Lemma tag_as_unsigned_range width t n :
  tag_as_unsigned width t = Some n -> 0 <= n < 2 ^ width.
Proof.
  unfold tag_as_unsigned, value_to_unsigned.
  destruct (tag_value t) as [[| m | |]|]; try discriminate.
  destruct (_ && _) eqn:Hrange; [| discriminate].
  intros [= <-]. apply andb_true_iff in Hrange. lia.
Qed.

Lemma uint32_shiftl_16 (q : Z) :
  uint32_shiftl q 16 = (q mod 2 ^ 16) * 2 ^ 16.
Proof.
  unfold uint32_shiftl, uint32_wrap.
  rewrite Z.shiftl_mul_pow2 by lia.
  change (2 ^ 32) with (2 ^ 16 * 2 ^ 16).
  apply Z.mul_mod_distr_r; lia.
Qed.

Lemma lor_below_pow2 (a b n : Z) :
  0 <= n -> 0 <= a < 2 ^ n -> 0 <= b < 2 ^ n -> 0 <= Z.lor a b < 2 ^ n.
Proof.
  intros Hn Ha Hb. split; [apply Z.lor_nonneg; lia |].
  destruct (Z.eq_dec (Z.lor a b) 0) as [-> | Hne]; [lia |].
  apply Z.log2_lt_pow2; [pose proof (proj2 (Z.lor_nonneg a b)); lia |].
  rewrite Z.log2_lor by lia.
  destruct (Z.eq_dec a 0) as [-> | Ha0], (Z.eq_dec b 0) as [-> | Hb0].
  - cbn in Hne. done.
  - rewrite Z.max_r by (cbn; apply Z.log2_nonneg).
    apply Z.log2_lt_pow2; lia.
  - rewrite Z.max_l by (cbn; apply Z.log2_nonneg).
    apply Z.log2_lt_pow2; lia.
  - apply Z.max_lub_lt; apply Z.log2_lt_pow2; lia.
Qed.

(** The halves of an identifier put together from an event identifier and
    qualifiers. *)
Lemma qualified_identifier_halves (e q : Z) :
  0 <= e < 2 ^ 32 ->
  0 <= q ->
  let r := Z.lor e (uint32_shiftl q 16) in
  0 <= r < 2 ^ 32
  /\ r mod 2 ^ 16 = e mod 2 ^ 16
  /\ r / 2 ^ 16 = Z.lor (e / 2 ^ 16) (q mod 2 ^ 16).
Proof.
  intros He Hq. cbv zeta. rewrite uint32_shiftl_16.
  pose proof (Z.mod_pos_bound q (2 ^ 16) ltac:(lia)) as Hq16.
  split; [| split].
  - apply lor_below_pow2; [lia | done |]. 
    change (2 ^ 32) with (2 ^ 16 * 2 ^ 16). nia.
  - rewrite <- !Z.land_ones by lia.
    rewrite Z.land_lor_distr_l.
    rewrite (Z.land_ones (_ * _)) by lia.
    rewrite Z.mod_mul by lia. apply Z.lor_0_r.
  - rewrite <- !Z.shiftr_div_pow2 by lia.
    rewrite Z.shiftr_lor. f_equal.
    rewrite Z.shiftr_div_pow2 by lia. apply Z.div_mul. lia.
Qed.

(** The first call on a record whose EventID carries coercible
    Qualifiers, with the record it leaves. *)
Lemma get_event_identifier_qualified h rv root system eventid e qualifiers
    q out :
  record_document h rv = Some root ->
  event_identifier_value rv = None ->
  child_element "System" root = Some system ->
  child_element "EventID" system = Some eventid ->
  tag_as_unsigned 32 eventid = Some e ->
  attribute "Qualifiers" eventid = Some qualifiers ->
  tag_as_unsigned 32 qualifiers = Some q ->
  exists p,
    libevtx_record_values_get_event_identifier h (Some rv) out
    = (1, Some (set_event_identifier_value rv (Some (ValuePtr p))),
       Z.lor e (uint32_shiftl q 16), None)
    /\ resolve_tag h p = Some eventid.
Proof.
  intros Hdoc Hmemo Hsys Heid He Hq Hqv.
  destruct (get_root_of_document _ _ _ Hdoc) as (a & Ha & Hroot & Hres).
  destruct (get_element_found _ _ _ _ _ Hres Hsys) as (i & Hgs & Hrs).
  destruct (get_element_found _ _ _ _ _ Hrs Heid) as (j & Hge & Hre).
  destruct (get_attribute_found _ _ _ _ _ Hre Hq) as (k & Hga & Hra).
  eexists. split; [| exact Hre].
  unfold libevtx_record_values_get_event_identifier.
  rewrite Hroot, Ha, Hmemo. run.
  rewrite Hgs. run. rewrite Hge. run.
  rewrite (get_value_coercible _ _ _ _ _ Hre He). run.
  rewrite (copy_to_32bit_coercible _ _ _ _ Hre He), Hga. run.
  rewrite (get_value_coercible _ _ _ _ _ Hra Hqv). run.
  by rewrite (copy_to_32bit_coercible _ _ _ _ Hra Hqv).
Qed.

(** X6: the identifier that the first call of
    [libevtx_record_values_get_event_identifier] writes for an EventID with
    Qualifiers fits 32 bits; its low 16 bits are those of the value of
    EventID, and when that value is below 2^16 its high 16 bits are the low
    16 bits of the qualifiers, so that the two can be taken apart again. *)
Theorem get_event_identifier_halves h rv root system eventid e qualifiers
    q out :
  record_document h rv = Some root ->
  event_identifier_value rv = None ->
  child_element "System" root = Some system ->
  child_element "EventID" system = Some eventid ->
  tag_as_unsigned 32 eventid = Some e ->
  attribute "Qualifiers" eventid = Some qualifiers ->
  tag_as_unsigned 32 qualifiers = Some q ->
  let r :=
    (libevtx_record_values_get_event_identifier h (Some rv) out).1.2 in
  0 <= r < 2 ^ 32
  /\ r mod 2 ^ 16 = e mod 2 ^ 16
  /\ (e < 2 ^ 16 -> r / 2 ^ 16 = q mod 2 ^ 16).
Proof.
  intros Hdoc Hmemo Hsys Heid He Hq Hqv.
  destruct (get_event_identifier_qualified _ _ _ _ _ _ _ _ out Hdoc Hmemo
              Hsys Heid He Hq Hqv) as (p & -> & _).
  pose proof (tag_as_unsigned_range _ _ _ He) as Herange.
  pose proof (tag_as_unsigned_range _ _ _ Hqv) as Hqrange.
  cbv zeta. cbn [fst snd].
  destruct (qualified_identifier_halves e q Herange ltac:(lia))
    as (Hr & Hlow & Hhigh).
  split; [done |]. split; [done |].
  intros Hsmall. rewrite Hhigh, Z.div_small by lia. apply Z.lor_0_l.
Qed.

Lemma get_event_identifier_halves_witness :
  let r :=
    (libevtx_record_values_get_event_identifier qualified_store
       (Some qualified_record) 0).1.2 in
  r mod 2 ^ 16 = 0x1234 /\ r / 2 ^ 16 = 0x0001.
Proof.
  destruct (get_event_identifier_halves qualified_store
              qualified_record qualified_event
              (node "System"
                 [XmlTag "EventID" (Some (ValueInteger 0x1234))
                    [leaf "Qualifiers" (ValueInteger 0x0001)] [];
                  leaf "Level" (ValueInteger 0)])
              (XmlTag "EventID" (Some (ValueInteger 0x1234))
                 [leaf "Qualifiers" (ValueInteger 0x0001)] [])
              0x1234 (leaf "Qualifiers" (ValueInteger 0x0001)) 0x0001 0
              eq_refl eq_refl eq_refl eq_refl eq_refl eq_refl eq_refl)
    as (_ & Hlow & Hhigh).
  split; [exact Hlow |]. apply Hhigh. lia.
Defined.

(** X7: for a record with a decoded XML document that holds
    Event/System/Level with a value that can be coerced to 8 bits, the first
    call of [libevtx_record_values_get_event_level] returns 1, writes that
    value, which is below 256, and memoises the handle to the value. *)
Theorem get_event_level_first_call h rv root system level l out :
  record_document h rv = Some root ->
  level_value rv = None ->
  child_element "System" root = Some system ->
  child_element "Level" system = Some level ->
  tag_as_unsigned 8 level = Some l ->
  0 <= l < 256
  /\ exists p,
       libevtx_record_values_get_event_level h (Some rv) out
       = (1, Some (set_level_value rv (Some (ValuePtr p))), l, None)
       /\ resolve_tag h p = Some level.
Proof.
  intros Hdoc Hmemo Hsys Hlevel Hl.
  split; [exact (tag_as_unsigned_range _ _ _ Hl) |].
  destruct (get_root_of_document _ _ _ Hdoc) as (a & Ha & Hroot & Hres).
  destruct (get_element_found _ _ _ _ _ Hres Hsys) as (i & Hgs & Hrs).
  destruct (get_element_found _ _ _ _ _ Hrs Hlevel) as (j & Hge & Hre).
  eexists. split; [| exact Hre].
  unfold libevtx_record_values_get_event_level.
  rewrite Hroot, Ha, Hmemo. run.
  rewrite Hgs. run. rewrite Hge. run.
  rewrite (get_value_coercible _ _ _ _ _ Hre Hl). run.
  by rewrite (copy_to_8bit_coercible _ _ _ _ Hre Hl).
Qed.

Lemma get_event_level_first_call_witness :
  exists p,
    libevtx_record_values_get_event_level qualified_store
      (Some qualified_record) 99
    = (1, Some (set_level_value qualified_record (Some (ValuePtr p))), 0,
       None)
    /\ resolve_tag qualified_store p = Some (leaf "Level" (ValueInteger 0)).
Proof.
  exact (proj2 (get_event_level_first_call qualified_store
                  qualified_record qualified_event
                  (node "System"
                     [XmlTag "EventID" (Some (ValueInteger 0x1234))
                        [leaf "Qualifiers" (ValueInteger 0x0001)] [];
                      leaf "Level" (ValueInteger 0)])
                  (leaf "Level" (ValueInteger 0)) 0 99
                  eq_refl eq_refl eq_refl eq_refl eq_refl)).
Defined.

(** X8: [libevtx_record_values_get_event_level] can be called again: on the
    record and the output that a call leaves, whatever it returned, the next
    call returns the same value, writes the same output, sets the same
    error and leaves the record as it is. *)
Theorem get_event_level_again h rv out :
  let r := libevtx_record_values_get_event_level h (Some rv) out in
  libevtx_record_values_get_event_level h r.1.1.2 r.1.2 = r.
Proof.
  cbv zeta. unfold libevtx_record_values_get_event_level.
  case_bool_decide as Hdoc.
  { cbn. by rewrite bool_decide_eq_true_2. }
  destruct (level_value rv) as [vp|] eqn:Hmemo.
  { run.
    rewrite Hmemo.
    destruct (libfvalue_value_copy_to_8bit h (Some vp)) eqn:Hcopy;
      repeat first [run_step | rewrite Hmemo]; by rewrite Hcopy. }
  run.
  destruct (libfwevt_xml_document_get_root_xml_tag h (xml_document rv))
    as [result root] eqn:Hroot.
  destruct (negb (result =? 1)) eqn:Hr1.
  { run. rewrite ?Hmemo. run. by rewrite Hroot, Hr1. }
  destruct (libfwevt_xml_tag_get_element_by_utf8_name h root "System")
    as [result2 system] eqn:Hsystem.
  destruct (negb (result2 =? 1)) eqn:Hr2.
  { run. rewrite ?Hmemo. run. by rewrite Hroot, Hr1, Hsystem, Hr2. }
  destruct (libfwevt_xml_tag_get_element_by_utf8_name h system "Level")
    as [result3 level] eqn:Hlevel.
  destruct (negb (result3 =? 1)) eqn:Hr3.
  { run. rewrite ?Hmemo. run.
    by rewrite Hroot, Hr1, Hsystem, Hr2, Hlevel, Hr3. }
  destruct (libfwevt_xml_tag_get_value h level) as [result4 value]
    eqn:Hvalue.
  destruct (negb (result4 =? 1)) eqn:Hr4.
  { run. rewrite ?Hmemo. run.
    by rewrite Hroot, Hr1, Hsystem, Hr2, Hlevel, Hr3, Hvalue, Hr4. }
  run.
  destruct value as [vp|].
  - destruct (libfvalue_value_copy_to_8bit h (Some vp)) eqn:Hcopy; run;
      by rewrite Hcopy.
  - destruct (libfvalue_value_copy_to_8bit h None) eqn:Hcopy; run.
    + discriminate Hcopy.
    + rewrite Hroot, Hr1, Hsystem, Hr2, Hlevel, Hr3, Hvalue, Hr4. run.
      rewrite Hcopy. by destruct rv.
Qed.

(** ** More on the event data and the number of strings *)

Section EventDataMore.

Variables EVENT_DATA USER_DATA : Z.

Lemma get_element_by_name_result h tag name result found :
  libfwevt_xml_tag_get_element_by_utf8_name h tag name = (result, found) ->
  (result = 1 /\ is_Some found) \/ (result = 0 \/ result = -1).
Proof.
  unfold libfwevt_xml_tag_get_element_by_utf8_name.
  repeat case_match; intros [= <- <-]; eauto.
Qed.

Lemma get_element_by_index_result h tag index result found :
  libfwevt_xml_tag_get_element_by_index h tag index = (result, found) ->
  (result = 1 /\ is_Some found) \/ result = -1.
Proof.
  unfold libfwevt_xml_tag_get_element_by_index.
  repeat case_match; intros [= <- <-]; eauto.
Qed.

(** What [libevtx_record_values_get_event_data_xml_tag] does to its two
    outputs: both are written when it returns 1, none otherwise. *)
Lemma get_event_data_xml_tag_outputs h rv tag0 type0 result tag_cell
    type_cell err :
  libevtx_record_values_get_event_data_xml_tag EVENT_DATA USER_DATA h
    (Some rv) (Some tag0) (Some type0)
  = (result, tag_cell, type_cell, err) ->
  (result = 1
   /\ exists p t, tag_cell = Some (Some p) /\ type_cell = Some t)
  \/ ((result = 0 \/ result = -1)
      /\ tag_cell = Some tag0 /\ type_cell = Some type0).
Proof.
  unfold libevtx_record_values_get_event_data_xml_tag.
  destruct (libfwevt_xml_document_get_root_xml_tag h (xml_document rv))
    as [r0 root].
  destruct (negb (r0 =? 1)); [intros [= <- <- <- <-]; eauto |].
  destruct (libfwevt_xml_tag_get_element_by_utf8_name h root "EventData")
    as [r1 found] eqn:H1.
  apply get_element_by_name_result in H1.
  destruct (r1 =? -1) eqn:E1; [intros [= <- <- <- <-]; eauto |].
  destruct (negb (r1 =? 0)) eqn:E2.
  { intros [= <- <- <- <-]. left.
    destruct H1 as [[-> [p ->]] | [-> | ->]]; try discriminate. eauto. }
  destruct (libfwevt_xml_tag_get_element_by_utf8_name h root "UserData")
    as [r2 user_data] eqn:H2.
  apply get_element_by_name_result in H2.
  destruct (r2 =? -1) eqn:E3; [intros [= <- <- <- <-]; eauto |].
  destruct (negb (r2 =? 0)) eqn:E4.
  2: { intros [= <- <- <- <-]. right.
       destruct H2 as [[-> _] | [-> | ->]]; try discriminate. eauto. }
  destruct (libfwevt_xml_tag_get_number_of_elements h user_data)
    as [r3 n].
  destruct (negb (r3 =? 1)); [intros [= <- <- <- <-]; eauto |].
  destruct (negb (n =? 1)); [intros [= <- <- <- <-]; eauto |].
  destruct (libfwevt_xml_tag_get_element_by_index h user_data 0)
    as [r4 first] eqn:H4.
  apply get_element_by_index_result in H4.
  destruct (negb (r4 =? 1)) eqn:E5; [intros [= <- <- <- <-]; eauto |].
  intros [= <- <- <- <-]. left.
  destruct H2 as [[-> _] | [-> | ->]]; try discriminate.
  destruct H4 as [[-> [p ->]] | ->]; try discriminate. eauto.
Qed.

Lemma set_event_data_same rv :
  set_event_data rv (event_data_xml_tag rv) (event_data_type rv) = rv.
Proof. by destruct rv. Qed.

(** X9: [libevtx_record_values_get_number_of_strings] can be called again:
    on the record and the output that a call leaves, whatever it returned,
    the next call returns the same value, reports the same count, sets the
    same error and leaves the record as it is. *)
Theorem get_number_of_strings_again h rv n0 :
  let r :=
    libevtx_record_values_get_number_of_strings EVENT_DATA USER_DATA h
      (Some rv) (Some n0) in
  libevtx_record_values_get_number_of_strings EVENT_DATA USER_DATA h
    r.1.1.2 r.1.2
  = r.
Proof.
  cbv zeta. unfold libevtx_record_values_get_number_of_strings.
  case_bool_decide as Hdoc.
  { cbn. by rewrite bool_decide_eq_true_2. }
  run.
  destruct (event_data_xml_tag rv) as [p|] eqn:Hmemo.
  { run.
    destruct (libfwevt_xml_tag_get_number_of_elements h (Some p))
      as [r1 n] eqn:Hn.
    destruct (negb (r1 =? 1)) eqn:E1; [by run_eq |].
    destruct (event_data_type rv =? USER_DATA) eqn:E2; [by run_eq |].
    destruct (number_of_strings_loop h (Some p) (Z.to_nat n) 0 0)
      as [[r2 n2] e2] eqn:Hloop.
    by run_eq. }
  run.
  destruct (libevtx_record_values_get_event_data_xml_tag EVENT_DATA
              USER_DATA h (Some rv) (Some None)
              (Some (event_data_type rv)))
    as [[[result tag_cell] type_cell] err] eqn:Hwalk.
  destruct (get_event_data_xml_tag_outputs _ _ _ _ _ _ _ _ Hwalk)
    as [(-> & p & t & -> & ->) | (Hresult & -> & ->)].
  - cbn [default from_option id]. run.
    destruct (libfwevt_xml_tag_get_number_of_elements h (Some p))
      as [r1 n] eqn:Hn.
    destruct (negb (r1 =? 1)) eqn:E1; [by run_eq |].
    destruct (t =? USER_DATA) eqn:E2; [by run_eq |].
    destruct (number_of_strings_loop h (Some p) (Z.to_nat n) 0 0)
      as [[r2 n2] e2] eqn:Hloop.
    by run_eq.
  - cbn [default from_option id].
    assert (Hsame : set_event_data rv None (event_data_type rv) = rv)
      by (rewrite <- Hmemo; apply set_event_data_same).
    destruct Hresult as [-> | ->];
      repeat first [run_step | progress cbn [default from_option id]
                   | rewrite Hsame | rewrite Hmemo | rewrite Hwalk];
      done.
Qed.

(** X10: for a record with nothing memoised whose root has no EventData
    child and a UserData child with exactly one child element,
    [libevtx_record_values_get_number_of_strings] returns 1 and reports the
    number of child elements of that one child, whatever their names, and
    memoises the handle to it with the UserData type. *)
Theorem get_number_of_strings_user_data h rv root user_data container n0 :
  record_document h rv = Some root ->
  event_data_xml_tag rv = None ->
  child_element "EventData" root = None ->
  child_element "UserData" root = Some user_data ->
  tag_elements user_data = [container] ->
  exists p,
    libevtx_record_values_get_number_of_strings EVENT_DATA USER_DATA h
      (Some rv) (Some n0)
    = (1, Some (set_event_data rv (Some p) USER_DATA),
       Some (Z.of_nat (length (tag_elements container))), None)
    /\ resolve_tag h p = Some container.
Proof.
  intros Hdoc Hmemo Hed Hud Hone.
  destruct (get_root_of_document _ _ _ Hdoc) as (a & Ha & Hroot & Hres).
  destruct (get_element_found _ _ _ _ _ Hres Hud) as (i & Hgu & Hru).
  assert (Hrc : resolve_tag h
                  (child_ptr (child_ptr (TagPtr a []) (ElementStep i))
                     (ElementStep 0))
                = Some container).
  { rewrite (resolve_child_element _ _ _ _ Hru), Hone. done. }
  eexists. split; [| exact Hrc].
  unfold libevtx_record_values_get_number_of_strings,
    libevtx_record_values_get_event_data_xml_tag.
  rewrite Hroot, Ha, Hmemo. run.
  rewrite (get_element_missing _ _ _ _ Hres Hed). run.
  rewrite Hgu. run.
  unfold libfwevt_xml_tag_get_number_of_elements at 1.
  rewrite Hru, Hone. cbn [length]. change (Z.of_nat 1) with 1. run.
  unfold libfwevt_xml_tag_get_element_by_index at 1.
  rewrite Hru, Hone. cbn [length]. change (Z.of_nat 1) with 1.
  change (0 <? 0) with false. change (1 <=? 0) with false. run.
  cbn [default from_option id]. run.
  unfold libfwevt_xml_tag_get_number_of_elements.
  change (Z.to_nat 0) with 0%nat.
  rewrite Hrc. run.
  by rewrite Z.eqb_refl.
Qed.

(** X11: for a record with nothing memoised whose root has no EventData
    child and a UserData child whose number of child elements is not one,
    [libevtx_record_values_get_number_of_strings] returns -1 with the error
    of the event data tag, reports 0 and leaves the record as it was. *)
Theorem get_number_of_strings_user_data_count h rv root user_data n0 :
  record_document h rv = Some root ->
  event_data_xml_tag rv = None ->
  child_element "EventData" root = None ->
  child_element "UserData" root = Some user_data ->
  length (tag_elements user_data) <> 1%nat ->
  libevtx_record_values_get_number_of_strings EVENT_DATA USER_DATA h
    (Some rv) (Some n0)
  = (-1, Some rv, Some 0, Some event_data_tag_error).
Proof.
  intros Hdoc Hmemo Hed Hud Hcount.
  destruct (get_root_of_document _ _ _ Hdoc) as (a & Ha & Hroot & Hres).
  destruct (get_element_found _ _ _ _ _ Hres Hud) as (i & Hgu & Hru).
  unfold libevtx_record_values_get_number_of_strings,
    libevtx_record_values_get_event_data_xml_tag.
  rewrite Hroot, Ha, Hmemo. run.
  rewrite (get_element_missing _ _ _ _ Hres Hed). run.
  rewrite Hgu. run.
  unfold libfwevt_xml_tag_get_number_of_elements at 1.
  rewrite Hru. run.
  replace (Z.of_nat (length (tag_elements user_data)) =? 1) with false
    by lia.
  run. cbn [default from_option id]. run.
  assert (Hsame : set_event_data rv None (event_data_type rv) = rv)
    by (rewrite <- Hmemo; apply set_event_data_same).
  by rewrite Hsame.
Qed.

(** ** Properties of the strings *)

Variable utf8_string_of_value : libfvalue_value_t -> option string.

(** X12: for a record with nothing memoised whose root has neither an
    EventData nor a UserData child, where the number of strings is reported
    as 0 with success, [libevtx_record_values_get_utf8_string_size] and
    [libevtx_record_values_get_utf8_string] return -1 for every index, with
    the error of the event data tag, and leave the record and the output as
    they were. *)
Theorem get_utf8_string_without_event_data h rv root index out buffer
    size :
  record_document h rv = Some root ->
  event_data_xml_tag rv = None ->
  child_element "EventData" root = None ->
  child_element "UserData" root = None ->
  libevtx_record_values_get_utf8_string_size utf8_string_of_value
    EVENT_DATA USER_DATA h (Some rv) index out
  = (-1, Some rv, out, Some event_data_tag_error)
  /\ libevtx_record_values_get_utf8_string utf8_string_of_value
       EVENT_DATA USER_DATA h (Some rv) index buffer size
     = (-1, Some rv, buffer, Some event_data_tag_error).
Proof.
  intros Hdoc Hmemo Hed Hud.
  destruct (get_root_of_document _ _ _ Hdoc) as (a & Ha & Hroot & Hres).
  assert (Hsame : set_event_data rv None (event_data_type rv) = rv)
    by (rewrite <- Hmemo; apply set_event_data_same).
  assert (Hwalk : event_data_walk EVENT_DATA USER_DATA h rv = (true, rv)).
  { unfold event_data_walk, libevtx_record_values_get_event_data_xml_tag.
    rewrite Hroot, Hmemo. run.
    rewrite (get_element_missing _ _ _ _ Hres Hed). run.
    rewrite (get_element_missing _ _ _ _ Hres Hud). run.
    cbn [default from_option id]. by rewrite Hsame. }
  unfold libevtx_record_values_get_utf8_string_size,
    libevtx_record_values_get_utf8_string.
  rewrite Ha, Hwalk. by run.
Qed.

(** With the EventData container the walk goes on with a handle to it. *)
Lemma event_data_walk_container h rv container :
  event_data_container EVENT_DATA h rv container ->
  exists p rv',
    event_data_walk EVENT_DATA USER_DATA h rv = (false, rv')
    /\ xml_document rv' = xml_document rv
    /\ event_data_xml_tag rv' = Some p
    /\ resolve_tag h p = Some container.
Proof.
  intros (root & Hdoc & Hed & Hmemo).
  destruct (get_root_of_document _ _ _ Hdoc) as (a & Ha & Hroot & Hres).
  destruct (get_element_found _ _ _ _ _ Hres Hed) as (i & Hge & Hre).
  unfold event_data_walk.
  destruct Hmemo as [Hnone | (p & Hsome & Htype & Hp)].
  - unfold libevtx_record_values_get_event_data_xml_tag.
    rewrite Hroot, Hnone. run. rewrite Hge. run.
    cbn [default from_option id]. by eexists _, _.
  - rewrite Hsome. run. by eexists _, _.
Qed.

(** X13: for a record whose event data container is Event/EventData, the
    string functions address the child elements of the container by their
    index, whatever their names: for the child at [i] whose value has the
    string [s], [libevtx_record_values_get_utf8_string_size] returns 1 with
    the length of [s] plus one, and [libevtx_record_values_get_utf8_string]
    returns 1 with [s] when the buffer has that size at least and -1 with
    the buffer as it was when it is smaller. *)
Theorem get_utf8_string_by_index h rv container i e v s out buffer size :
  event_data_container EVENT_DATA h rv container ->
  tag_elements container !! i = Some e ->
  tag_value e = Some v ->
  utf8_string_of_value v = Some s ->
  let size_call :=
    libevtx_record_values_get_utf8_string_size utf8_string_of_value
      EVENT_DATA USER_DATA h (Some rv) (Z.of_nat i) out in
  let string_call :=
    libevtx_record_values_get_utf8_string utf8_string_of_value
      EVENT_DATA USER_DATA h (Some rv) (Z.of_nat i) buffer size in
  size_call.1.1.1 = 1
  /\ size_call.1.2 = Z.of_nat (String.length s) + 1
  /\ (Z.of_nat (String.length s) + 1 <= size ->
      string_call.1.1.1 = 1 /\ string_call.1.2 = s)
  /\ (size < Z.of_nat (String.length s) + 1 ->
      string_call.1.1.1 = -1 /\ string_call.1.2 = buffer).
Proof.
  intros Hcontainer Hi Hv Hs.
  destruct (event_data_walk_container _ _ _ Hcontainer)
    as (p & rv' & Hwalk & Hdoc' & Hmemo' & Hp).
  assert (Hdoc : xml_document rv <> None).
  { destruct Hcontainer as (root & Hroot & _).
    unfold record_document in Hroot.
    by destruct (xml_document rv). }
  pose proof (lookup_lt_Some _ _ _ Hi) as Hlt.
  assert (Hindex :
    libfwevt_xml_tag_get_element_by_index h (Some p) (Z.of_nat i)
    = (1, Some (child_ptr p (ElementStep i)))).
  { unfold libfwevt_xml_tag_get_element_by_index. rewrite Hp.
    replace (Z.of_nat i <? 0) with false by lia.
    replace (Z.of_nat (length (tag_elements container)) <=? Z.of_nat i)
      with false by lia.
    by rewrite Nat2Z.id. }
  assert (Hvalue :
    resolve_value h (Some (ValuePtr (child_ptr p (ElementStep i))))
    = Some v).
  { unfold resolve_value. cbn [value_owner].
    by rewrite (resolve_child_element _ _ _ _ Hp), Hi. }
  cbv zeta.
  unfold libevtx_record_values_get_utf8_string_size,
    libevtx_record_values_get_utf8_string.
  rewrite bool_decide_eq_false_2, Hwalk by done. run.
  rewrite Hmemo', Hindex. run.
  unfold libfwevt_xml_tag_get_utf8_value_size,
    libfwevt_xml_tag_get_utf8_value,
    libfvalue_value_get_utf8_string_size,
    libfvalue_value_copy_to_utf8_string.
  rewrite Hvalue, Hs.
  split; [done |]. split; [done |]. split; intros Hsize.
  - by replace (size <? Z.of_nat (String.length s) + 1) with false by lia.
  - by replace (size <? Z.of_nat (String.length s) + 1) with true by lia.
Qed.

(** X14: for a record whose event data container is Event/EventData, an
    index that is negative or not below the number of child elements of the
    container makes [libevtx_record_values_get_utf8_string_size] and
    [libevtx_record_values_get_utf8_string] return -1, with the output as it
    was. *)
Theorem get_utf8_string_out_of_range h rv container index out buffer size :
  event_data_container EVENT_DATA h rv container ->
  index < 0 \/ Z.of_nat (length (tag_elements container)) <= index ->
  let size_call :=
    libevtx_record_values_get_utf8_string_size utf8_string_of_value
      EVENT_DATA USER_DATA h (Some rv) index out in
  let string_call :=
    libevtx_record_values_get_utf8_string utf8_string_of_value
      EVENT_DATA USER_DATA h (Some rv) index buffer size in
  (size_call.1.1.1 = -1 /\ size_call.1.2 = out)
  /\ (string_call.1.1.1 = -1 /\ string_call.1.2 = buffer).
Proof.
  intros Hcontainer Hrange.
  destruct (event_data_walk_container _ _ _ Hcontainer)
    as (p & rv' & Hwalk & Hdoc' & Hmemo' & Hp).
  assert (Hdoc : xml_document rv <> None).
  { destruct Hcontainer as (root & Hroot & _).
    unfold record_document in Hroot.
    by destruct (xml_document rv). }
  assert (Hindex :
    libfwevt_xml_tag_get_element_by_index h (Some p) index = (-1, None)).
  { unfold libfwevt_xml_tag_get_element_by_index. rewrite Hp.
    replace (_ || _) with true; [done |].
    symmetry. apply orb_true_iff. lia. }
  cbv zeta.
  unfold libevtx_record_values_get_utf8_string_size,
    libevtx_record_values_get_utf8_string.
  rewrite bool_decide_eq_false_2, Hwalk by done. run.
  rewrite Hmemo', Hindex. by run.
Qed.

End EventDataMore.

Lemma get_number_of_strings_user_data_witness :
  exists p,
    libevtx_record_values_get_number_of_strings 1 2 user_data_store
      (Some qualified_record) (Some 99)
    = (1, Some (set_event_data qualified_record (Some p) 2), Some 2, None)
    /\ resolve_tag user_data_store p
       = Some (node "MyData"
                 [leaf "X" (ValueString "1"); leaf "Y" (ValueString "2")]).
Proof.
  exact (get_number_of_strings_user_data 1 2 user_data_store
           qualified_record user_data_event
           (node "UserData"
              [node "MyData"
                 [leaf "X" (ValueString "1"); leaf "Y" (ValueString "2")]])
           (node "MyData"
              [leaf "X" (ValueString "1"); leaf "Y" (ValueString "2")])
           99 eq_refl eq_refl eq_refl eq_refl eq_refl).
Defined.

Lemma get_number_of_strings_user_data_count_witness :
  libevtx_record_values_get_number_of_strings 1 2 twin_user_data_store
    (Some qualified_record) (Some 99)
  = (-1, Some qualified_record, Some 0, Some event_data_tag_error).
Proof.
  apply (get_number_of_strings_user_data_count 1 2 twin_user_data_store
           qualified_record twin_user_data_event
           (node "UserData" [node "A" []; node "B" []]) 99
           eq_refl eq_refl eq_refl eq_refl).
  discriminate.
Defined.

Lemma get_utf8_string_without_event_data_witness :
  libevtx_record_values_get_number_of_strings 1 2 qualified_store
    (Some qualified_record) (Some 99)
  = (1, Some qualified_record, Some 0, None)
  /\ libevtx_record_values_get_utf8_string_size string_value_only 1 2
       qualified_store (Some qualified_record) 0 99
     = (-1, Some qualified_record, 99, Some event_data_tag_error).
Proof.
  split; [reflexivity |].
  exact (proj1 (get_utf8_string_without_event_data 1 2 string_value_only
                  qualified_store qualified_record qualified_event 0 99
                  EmptyString 0 eq_refl eq_refl eq_refl eq_refl)).
Defined.

Lemma get_utf8_string_by_index_witness :
  (libevtx_record_values_get_number_of_strings 1 2 prefix_store
     (Some qualified_record) (Some 99)).1.2 = Some 2
  /\ (libevtx_record_values_get_utf8_string string_value_only 1 2
        (<[7%nat := XmlDocument
             (Some (node "Event"
                [node "EventData"
                   [leaf "Data" (ValueString "a");
                    leaf "Foo" (ValueString "bc")]]))]> ∅)
        (Some qualified_record) 1 EmptyString 3).1.2
     = "bc"%string.
Proof.
  split; [reflexivity |].
  refine (proj2 (proj1 (proj2 (proj2 (get_utf8_string_by_index 1 2
            string_value_only _ qualified_record
            (node "EventData"
               [leaf "Data" (ValueString "a");
                leaf "Foo" (ValueString "bc")])
            1%nat (leaf "Foo" (ValueString "bc")) (ValueString "bc") "bc"
            0 EmptyString 3 _ eq_refl eq_refl eq_refl))) _)).
  - eexists. split; [reflexivity |]. split; [reflexivity |]. by left.
  - vm_compute. discriminate.
Defined.

Lemma get_utf8_string_out_of_range_witness :
  (libevtx_record_values_get_utf8_string_size string_value_only 1 2
     prefix_store (Some qualified_record) 3 99).1.1.1 = -1.
Proof.
  refine (proj1 (proj1 (get_utf8_string_out_of_range 1 2 string_value_only
            prefix_store qualified_record
            (node "EventData"
               [leaf "Data" (ValueString "a"); leaf "Data" (ValueString "b");
                leaf "Foo" ValueNull])
            3 99 EmptyString 0 _ _))).
  - exists prefix_event.
    split; [reflexivity |]. split; [reflexivity |]. by left.
  - right. vm_compute. discriminate.
Defined.

(** ** Properties of the source name, the computer name and the data *)

Section RenderingProperties.

Variable utf8_string_of_value : libfvalue_value_t -> option string.
Variable data_of_value : libfvalue_value_t -> list byte.

Lemma get_value_with_value h p t v :
  resolve_tag h p = Some t ->
  tag_value t = Some v ->
  libfwevt_xml_tag_get_value h (Some p) = (1, Some (ValuePtr p))
  /\ resolve_value h (Some (ValuePtr p)) = Some v.
Proof.
  unfold libfwevt_xml_tag_get_value, resolve_value.
  intros Ht Hv. cbn [value_owner]. by rewrite Ht, Hv.
Qed.

(** The walk to the provider name ends at the attribute that names the
    source. *)
Lemma provider_name_walk_found h rv root system provider t v :
  record_document h rv = Some root ->
  provider_name_value rv = None ->
  child_element "System" root = Some system ->
  child_element "Provider" system = Some provider ->
  provider_name_attribute provider = Some t ->
  tag_value t = Some v ->
  exists p,
    provider_name_walk h rv
    = inr (set_provider_name_value rv (Some (ValuePtr p)))
    /\ resolve_value h (Some (ValuePtr p)) = Some v.
Proof.
  intros Hdoc Hmemo Hsys Hprov Hattr Hv.
  destruct (get_root_of_document _ _ _ Hdoc) as (a & Ha & Hroot & Hres).
  destruct (get_element_found _ _ _ _ _ Hres Hsys) as (i & Hgs & Hrs).
  destruct (get_element_found _ _ _ _ _ Hrs Hprov) as (j & Hgp & Hrp).
  unfold provider_name_walk.
  rewrite Hroot, Hmemo. run. rewrite Hgs. run. rewrite Hgp. run.
  unfold provider_name_attribute in Hattr.
  destruct (attribute "EventSourceName" provider) as [t'|] eqn:Hesn.
  - injection Hattr as ->.
    destruct (get_attribute_found _ _ _ _ _ Hrp Hesn) as (k & Hga & Hra).
    destruct (get_value_with_value _ _ _ _ Hra Hv) as [Hgv Hrv].
    rewrite Hga. run. rewrite Hgv. run. by eexists.
  - rewrite (get_attribute_missing _ _ _ _ Hrp Hesn). run.
    destruct (get_attribute_found _ _ _ _ _ Hrp Hattr) as (k & Hga & Hra).
    destruct (get_value_with_value _ _ _ _ Hra Hv) as [Hgv Hrv].
    rewrite Hga. run. rewrite Hgv. run. by eexists.
Qed.

(** X15: the source name is the value of the attribute EventSourceName of
    Event/System/Provider when there is one, and of the attribute Name
    otherwise: on a record with nothing memoised,
    [libevtx_record_values_get_utf8_source_name_size] returns 1 with the
    length of its string plus one, and
    [libevtx_record_values_get_utf8_source_name] returns 1 with the string
    when the buffer has that size. *)
Theorem get_utf8_source_name_found h rv root system provider t v s out
    buffer size :
  record_document h rv = Some root ->
  provider_name_value rv = None ->
  child_element "System" root = Some system ->
  child_element "Provider" system = Some provider ->
  provider_name_attribute provider = Some t ->
  tag_value t = Some v ->
  utf8_string_of_value v = Some s ->
  let size_call :=
    libevtx_record_values_get_utf8_source_name_size utf8_string_of_value h
      (Some rv) out in
  let string_call :=
    libevtx_record_values_get_utf8_source_name utf8_string_of_value h
      (Some rv) buffer size in
  size_call.1.1.1 = 1
  /\ size_call.1.2 = Z.of_nat (String.length s) + 1
  /\ (Z.of_nat (String.length s) + 1 <= size ->
      string_call.1.1.1 = 1 /\ string_call.1.2 = s).
Proof.
  intros Hdoc Hmemo Hsys Hprov Hattr Hv Hs.
  destruct (provider_name_walk_found _ _ _ _ _ _ _ Hdoc Hmemo Hsys Hprov
              Hattr Hv) as (p & Hwalk & Hvalue).
  assert (Hd : xml_document rv <> None).
  { unfold record_document in Hdoc. by destruct (xml_document rv). }
  cbv zeta.
  unfold libevtx_record_values_get_utf8_source_name_size,
    libevtx_record_values_get_utf8_source_name.
  rewrite bool_decide_eq_false_2, Hwalk by done.
  cbn [provider_name_value set_provider_name_value].
  unfold libfvalue_value_get_utf8_string_size,
    libfvalue_value_copy_to_utf8_string.
  rewrite Hvalue, Hs.
  split; [done |]. split; [done |]. intros Hsize.
  by replace (size <? Z.of_nat (String.length s) + 1) with false by lia.
Qed.

(** X16: when Event/System, Event/System/Provider, or both attributes
    EventSourceName and Name of Provider are absent, the source name
    functions return 0 on a record with nothing memoised, set no error and
    leave the record and the output as they were. *)
Theorem get_utf8_source_name_unavailable h rv root out buffer size :
  record_document h rv = Some root ->
  provider_name_value rv = None ->
  grandchild_absent "System" "Provider" root
  \/ (exists system provider,
        child_element "System" root = Some system
        /\ child_element "Provider" system = Some provider
        /\ provider_name_attribute provider = None) ->
  libevtx_record_values_get_utf8_source_name_size utf8_string_of_value h
    (Some rv) out
  = (0, Some rv, out, None)
  /\ libevtx_record_values_get_utf8_source_name utf8_string_of_value h
       (Some rv) buffer size
     = (0, Some rv, buffer, None).
Proof.
  intros Hdoc Hmemo Habsent.
  destruct (get_root_of_document _ _ _ Hdoc) as (a & Ha & Hroot & Hres).
  assert (Hwalk : provider_name_walk h rv = inl (0, None)).
  { unfold provider_name_walk. rewrite Hroot, Hmemo. run.
    destruct Habsent
      as [[Hsys | (system & Hsys & Hprov)]
         | (system & provider & Hsys & Hprov & Hattr)].
    - rewrite (get_element_missing _ _ _ _ Hres Hsys). by run.
    - destruct (get_element_found _ _ _ _ _ Hres Hsys) as (i & Hgs & Hrs).
      rewrite Hgs. run.
      rewrite (get_element_missing _ _ _ _ Hrs Hprov). by run.
    - destruct (get_element_found _ _ _ _ _ Hres Hsys) as (i & Hgs & Hrs).
      destruct (get_element_found _ _ _ _ _ Hrs Hprov)
        as (j & Hgp & Hrp).
      rewrite Hgs. run. rewrite Hgp. run.
      unfold provider_name_attribute in Hattr.
      destruct (attribute "EventSourceName" provider) eqn:Hesn;
        [discriminate |].
      rewrite (get_attribute_missing _ _ _ _ Hrp Hesn). run.
      rewrite (get_attribute_missing _ _ _ _ Hrp Hattr). by run. }
  unfold libevtx_record_values_get_utf8_source_name_size,
    libevtx_record_values_get_utf8_source_name.
  by rewrite Ha, Hwalk.
Qed.

(** A walk that goes on has the provider name memoised or leaves it
    [NULL]; with the value memoised the walk is skipped. *)
Lemma provider_name_walk_memoised h rv vp :
  provider_name_value rv = Some vp -> provider_name_walk h rv = inr rv.
Proof. intros Hmemo. unfold provider_name_walk. by rewrite Hmemo. Qed.

Lemma provider_name_walk_document h rv rv' :
  provider_name_walk h rv = inr rv' -> xml_document rv' = xml_document rv.
Proof.
  unfold provider_name_walk.
  repeat case_match; intros; simplify_eq; done.
Qed.

(** X17: the size that
    [libevtx_record_values_get_utf8_source_name_size] reports is the size
    that [libevtx_record_values_get_utf8_source_name] needs: after a call of
    the first that returned 1, the second, on the record the first left and
    with a buffer of the reported size, returns 1 with a string of that
    size less one and leaves the record as it is. *)
Theorem get_utf8_source_name_size_then_copy h rv out rv1 n err buffer :
  libevtx_record_values_get_utf8_source_name_size utf8_string_of_value h
    (Some rv) out
  = (1, Some rv1, n, err) ->
  exists s,
    libevtx_record_values_get_utf8_source_name utf8_string_of_value h
      (Some rv1) buffer n
    = (1, Some rv1, s, None)
    /\ Z.of_nat (String.length s) + 1 = n.
Proof.
  unfold libevtx_record_values_get_utf8_source_name_size,
    libevtx_record_values_get_utf8_source_name.
  case_bool_decide as Hdoc; [discriminate |].
  destruct (provider_name_walk h rv) as [[result e]|rv'] eqn:Hwalk.
  { intros [= -> _ _ _].
    unfold provider_name_walk in Hwalk.
    repeat case_match; simplify_eq. }
  pose proof (provider_name_walk_document _ _ _ Hwalk) as Hdoc'.
  unfold libfvalue_value_get_utf8_string_size,
    libfvalue_value_copy_to_utf8_string.
  destruct (resolve_value h (provider_name_value rv')) as [v|] eqn:Hv;
    [| discriminate].
  destruct (utf8_string_of_value v) as [s|] eqn:Hs; [| discriminate].
  intros [= <- <- _]. exists s.
  destruct (provider_name_value rv') as [vp|] eqn:Hmemo;
    [| discriminate Hv].
  rewrite bool_decide_eq_false_2 by (by rewrite Hdoc').
  rewrite (provider_name_walk_memoised _ _ _ Hmemo), Hmemo, Hv, Hs.
  by rewrite Z.ltb_irrefl.
Qed.

(** X18: the computer name is the value of Event/System/Computer: on a
    record with nothing memoised,
    [libevtx_record_values_get_utf8_computer_name_size] returns 1 with the
    length of its string plus one, and
    [libevtx_record_values_get_utf8_computer_name] returns 1 with the string
    when the buffer has that size, and -1 with the buffer as it was when it
    is smaller. *)
Theorem get_utf8_computer_name_found h rv root system computer v s out
    buffer size :
  record_document h rv = Some root ->
  computer_value rv = None ->
  child_element "System" root = Some system ->
  child_element "Computer" system = Some computer ->
  tag_value computer = Some v ->
  utf8_string_of_value v = Some s ->
  let size_call :=
    libevtx_record_values_get_utf8_computer_name_size utf8_string_of_value
      h (Some rv) out in
  let string_call :=
    libevtx_record_values_get_utf8_computer_name utf8_string_of_value h
      (Some rv) buffer size in
  size_call.1.1.1 = 1
  /\ size_call.1.2 = Z.of_nat (String.length s) + 1
  /\ (Z.of_nat (String.length s) + 1 <= size ->
      string_call.1.1.1 = 1 /\ string_call.1.2 = s)
  /\ (size < Z.of_nat (String.length s) + 1 ->
      string_call.1.1.1 = -1 /\ string_call.1.2 = buffer).
Proof.
  intros Hdoc Hmemo Hsys Hcomputer Hv Hs.
  destruct (get_root_of_document _ _ _ Hdoc) as (a & Ha & Hroot & Hres).
  destruct (get_element_found _ _ _ _ _ Hres Hsys) as (i & Hgs & Hrs).
  destruct (get_element_found _ _ _ _ _ Hrs Hcomputer) as (j & Hgc & Hrc).
  destruct (get_value_with_value _ _ _ _ Hrc Hv) as [Hgv Hrv].
  cbv zeta.
  unfold libevtx_record_values_get_utf8_computer_name_size,
    libevtx_record_values_get_utf8_computer_name, computer_walk.
  rewrite Hroot, Ha, Hmemo. run. rewrite Hgs. run. rewrite Hgc. run.
  rewrite Hgv. run.
  cbn [computer_value set_computer_value].
  unfold libfvalue_value_get_utf8_string_size,
    libfvalue_value_copy_to_utf8_string.
  rewrite Hrv, Hs.
  split; [done |]. split; [done |]. split; intros Hsize.
  - by replace (size <? Z.of_nat (String.length s) + 1) with false by lia.
  - by replace (size <? Z.of_nat (String.length s) + 1) with true by lia.
Qed.

(** X19: when Event/System or Event/System/Computer is absent, the computer
    name functions return 0 on a record with nothing memoised, set no error
    and leave the record and the output as they were. *)
Theorem get_utf8_computer_name_unavailable h rv root out buffer size :
  record_document h rv = Some root ->
  computer_value rv = None ->
  grandchild_absent "System" "Computer" root ->
  libevtx_record_values_get_utf8_computer_name_size utf8_string_of_value h
    (Some rv) out
  = (0, Some rv, out, None)
  /\ libevtx_record_values_get_utf8_computer_name utf8_string_of_value h
       (Some rv) buffer size
     = (0, Some rv, buffer, None).
Proof.
  intros Hdoc Hmemo Habsent.
  destruct (get_root_of_document _ _ _ Hdoc) as (a & Ha & Hroot & Hres).
  unfold libevtx_record_values_get_utf8_computer_name_size,
    libevtx_record_values_get_utf8_computer_name, computer_walk.
  rewrite Hroot, Ha, Hmemo. run.
  destruct Habsent as [Hsys | (system & Hsys & Hcomputer)].
  - rewrite (get_element_missing _ _ _ _ Hres Hsys). by run.
  - destruct (get_element_found _ _ _ _ _ Hres Hsys) as (i & Hgs & Hrs).
    rewrite Hgs. run.
    rewrite (get_element_missing _ _ _ _ Hrs Hcomputer). by run.
Qed.

(** X20: the data are the raw bytes of the value of
    Event/EventData/BinaryData: on a record with nothing memoised,
    [libevtx_record_values_get_data_size] returns 1 with their number, and
    [libevtx_record_values_get_data] returns 1 with the bytes when the
    buffer has that size at least, and -1 with the buffer as it was when it
    is smaller. *)
Theorem get_data_found h rv root event_data binary_data v out buffer size :
  record_document h rv = Some root ->
  binary_data_value rv = None ->
  child_element "EventData" root = Some event_data ->
  child_element "BinaryData" event_data = Some binary_data ->
  tag_value binary_data = Some v ->
  let size_call :=
    libevtx_record_values_get_data_size data_of_value h (Some rv) out in
  let data_call :=
    libevtx_record_values_get_data data_of_value h (Some rv) buffer size in
  size_call.1.1.1 = 1
  /\ size_call.1.2 = Z.of_nat (length (data_of_value v))
  /\ (Z.of_nat (length (data_of_value v)) <= size ->
      data_call.1.1.1 = 1 /\ data_call.1.2 = data_of_value v)
  /\ (size < Z.of_nat (length (data_of_value v)) ->
      data_call.1.1.1 = -1 /\ data_call.1.2 = buffer).
Proof.
  intros Hdoc Hmemo Hed Hbinary Hv.
  destruct (get_root_of_document _ _ _ Hdoc) as (a & Ha & Hroot & Hres).
  destruct (get_element_found _ _ _ _ _ Hres Hed) as (i & Hge & Hre).
  destruct (get_element_found _ _ _ _ _ Hre Hbinary) as (j & Hgb & Hrb).
  destruct (get_value_with_value _ _ _ _ Hrb Hv) as [Hgv Hrv].
  cbv zeta.
  unfold libevtx_record_values_get_data_size,
    libevtx_record_values_get_data, binary_data_walk.
  rewrite Hroot, Ha, Hmemo. run. rewrite Hge. run. rewrite Hgb. run.
  rewrite Hgv. run.
  cbn [binary_data_value set_binary_data_value].
  unfold libfvalue_value_get_data_size, libfvalue_value_copy_data.
  rewrite Hrv.
  split; [done |]. split; [done |]. split; intros Hsize.
  - by replace (size <? Z.of_nat (length (data_of_value v))) with false
      by lia.
  - by replace (size <? Z.of_nat (length (data_of_value v))) with true
      by lia.
Qed.

(** X21: when Event/EventData or Event/EventData/BinaryData is absent, the
    data functions return 0 on a record with nothing memoised, set no error
    and leave the record and the output as they were; UserData is not looked
    at. *)
Theorem get_data_unavailable h rv root out buffer size :
  record_document h rv = Some root ->
  binary_data_value rv = None ->
  grandchild_absent "EventData" "BinaryData" root ->
  libevtx_record_values_get_data_size data_of_value h (Some rv) out
  = (0, Some rv, out, None)
  /\ libevtx_record_values_get_data data_of_value h (Some rv) buffer size
     = (0, Some rv, buffer, None).
Proof.
  intros Hdoc Hmemo Habsent.
  destruct (get_root_of_document _ _ _ Hdoc) as (a & Ha & Hroot & Hres).
  unfold libevtx_record_values_get_data_size,
    libevtx_record_values_get_data, binary_data_walk.
  rewrite Hroot, Ha, Hmemo. run.
  destruct Habsent as [Hed | (event_data & Hed & Hbinary)].
  - rewrite (get_element_missing _ _ _ _ Hres Hed). by run.
  - destruct (get_element_found _ _ _ _ _ Hres Hed) as (i & Hge & Hre).
    rewrite Hge. run.
    rewrite (get_element_missing _ _ _ _ Hre Hbinary). by run.
Qed.

End RenderingProperties.

Lemma get_utf8_source_name_found_witness :
  (libevtx_record_values_get_utf8_source_name string_value_only
     provider_store (Some qualified_record) EmptyString 9).1.2
  = "Security"%string.
Proof.
  refine (proj2 (proj2 (proj2 (get_utf8_source_name_found string_value_only
            provider_store qualified_record provider_event
            (node "System"
               [XmlTag "Provider" None
                  [leaf "Name"
                     (ValueString "Microsoft-Windows-Security-Auditing");
                   leaf "EventSourceName" (ValueString "Security")] [];
                leaf "Computer" (ValueString "host")])
            (XmlTag "Provider" None
               [leaf "Name"
                  (ValueString "Microsoft-Windows-Security-Auditing");
                leaf "EventSourceName" (ValueString "Security")] [])
            (leaf "EventSourceName" (ValueString "Security"))
            (ValueString "Security") "Security" 0 EmptyString 9
            eq_refl eq_refl eq_refl eq_refl eq_refl eq_refl eq_refl)) _)).
  vm_compute. discriminate.
Defined.

Lemma get_utf8_source_name_unavailable_witness :
  libevtx_record_values_get_utf8_source_name_size string_value_only
    qualified_store (Some qualified_record) 99
  = (0, Some qualified_record, 99, None).
Proof.
  refine (proj1 (get_utf8_source_name_unavailable string_value_only
            qualified_store qualified_record qualified_event 99
            EmptyString 0 eq_refl eq_refl _)).
  left. right. eexists. split; reflexivity.
Defined.

Lemma get_utf8_source_name_size_then_copy_witness :
  exists s,
    libevtx_record_values_get_utf8_source_name string_value_only
      provider_store
      (Some (set_provider_name_value qualified_record
               (Some (ValuePtr
                  (TagPtr 7
                     [ElementStep 0; ElementStep 0; AttributeStep 1])))))
      EmptyString 9
    = (1,
       Some (set_provider_name_value qualified_record
               (Some (ValuePtr
                  (TagPtr 7
                     [ElementStep 0; ElementStep 0; AttributeStep 1])))),
       s, None)
    /\ Z.of_nat (String.length s) + 1 = 9.
Proof.
  exact (get_utf8_source_name_size_then_copy string_value_only
           provider_store qualified_record 0 _ 9 None EmptyString eq_refl).
Defined.

Lemma get_utf8_computer_name_found_witness :
  (libevtx_record_values_get_utf8_computer_name string_value_only
     provider_store (Some qualified_record) EmptyString 5).1.2
  = "host"%string.
Proof.
  refine (proj2 (proj1 (proj2 (proj2 (get_utf8_computer_name_found
            string_value_only provider_store qualified_record
            provider_event
            (node "System"
               [XmlTag "Provider" None
                  [leaf "Name"
                     (ValueString "Microsoft-Windows-Security-Auditing");
                   leaf "EventSourceName" (ValueString "Security")] [];
                leaf "Computer" (ValueString "host")])
            (leaf "Computer" (ValueString "host"))
            (ValueString "host") "host" 0 EmptyString 5
            eq_refl eq_refl eq_refl eq_refl eq_refl eq_refl))) _)).
  vm_compute. discriminate.
Defined.

Lemma get_utf8_computer_name_unavailable_witness :
  libevtx_record_values_get_utf8_computer_name_size string_value_only
    qualified_store (Some qualified_record) 99
  = (0, Some qualified_record, 99, None).
Proof.
  refine (proj1 (get_utf8_computer_name_unavailable string_value_only
            qualified_store qualified_record qualified_event 99
            EmptyString 0 eq_refl eq_refl _)).
  right. eexists. split; reflexivity.
Defined.

Lemma get_data_found_witness :
  (libevtx_record_values_get_data binary_value_only binary_store
     (Some qualified_record) [] 3).1.2
  = [x01; x02; x03]%byte.
Proof.
  refine (proj2 (proj1 (proj2 (proj2 (get_data_found binary_value_only
            binary_store qualified_record binary_event
            (node "EventData"
               [leaf "Data" (ValueString "a");
                leaf "BinaryData" (ValueBinary [x01; x02; x03]%byte)])
            (leaf "BinaryData" (ValueBinary [x01; x02; x03]%byte))
            (ValueBinary [x01; x02; x03]%byte) 0 [] 3
            eq_refl eq_refl eq_refl eq_refl eq_refl))) _)).
  vm_compute. discriminate.
Defined.

Lemma get_data_unavailable_witness :
  libevtx_record_values_get_data_size binary_value_only user_binary_store
    (Some qualified_record) 99
  = (0, Some qualified_record, 99, None).
Proof.
  refine (proj1 (get_data_unavailable binary_value_only user_binary_store
            qualified_record user_binary_event 99 [] 0
            eq_refl eq_refl _)).
  by left.
Defined.

(** ** Properties of releasing the record values *)

(** X22: a document that [libevtx_record_values_read_xml_document] has
    created is released by [libevtx_record_values_free]: after a call of the
    first that returned 1, freeing the record returns 1, sets the record to
    [NULL] and leaves the store of documents as it was before the document
    was read. *)
Theorem read_xml_document_then_free decode memory_available h rv io data
    size h1 rv1 err :
  libevtx_record_values_read_xml_document decode memory_available h
    (Some rv) io data size
  = (1, h1, Some rv1, err) ->
  libevtx_record_values_free h1 (Some (Some rv1)) = (1, h, Some None, None).
Proof.
  unfold libevtx_record_values_read_xml_document.
  case_bool_decide as Hdoc; cbn [negb]; [| discriminate].
  destruct io as [io|], data as [data|]; try discriminate.
  repeat (case_match; try discriminate).
  unfold libfwevt_xml_document_initialize in *. simplify_eq.
  intros [= <- <- <-].
  unfold libevtx_record_values_free, libfwevt_xml_document_free.
  cbn [xml_document set_xml_document].
  rewrite bool_decide_eq_false_2 by done. run.
  by rewrite insert_insert_eq, fresh_document_free.
Qed.

Lemma read_xml_document_then_free_witness :
  exists h1 rv1,
    libevtx_record_values_read_xml_document
      (λ _ _ _ _, Some bare_event) true qualified_store
      (Some (with_header zeroed_record_values (example_chunk 48 7 9 []) 8))
      (Some example_io_handle) (Some (example_chunk 48 7 9 [])) 64
    = (1, h1, Some rv1, None)
    /\ libevtx_record_values_free h1 (Some (Some rv1))
       = (1, qualified_store, Some None, None).
Proof.
  eexists _, _. split; [reflexivity |].
  apply (read_xml_document_then_free (λ _ _ _ _, Some bare_event) true
           qualified_store
           (with_header zeroed_record_values (example_chunk 48 7 9 []) 8)
           (Some example_io_handle) (Some (example_chunk 48 7 9 [])) 64
           _ _ None).
  reflexivity.
Defined.

(** X23: a clone is released by [libevtx_record_values_free] without a
    trace: after a call of [libevtx_record_values_clone] that returned 1 for
    a source that is not [NULL], freeing the destination returns 1 and
    leaves the store of documents as it was before the clone was made. *)
Theorem clone_then_free_destination memory_available h source h1
    destination err :
  libevtx_record_values_clone memory_available h (Some None) (Some source)
  = (1, h1, Some (Some destination), err) ->
  libevtx_record_values_free h1 (Some (Some destination))
  = (1, h, Some None, None).
Proof.
  unfold libevtx_record_values_clone.
  destruct memory_available; cbn [negb]; [| discriminate].
  destruct (xml_document source) as [a|] eqn:Ha.
  - unfold libfwevt_xml_document_clone.
    destruct (h !! a) as [d|]; [| discriminate].
    intros [= <- <- <-].
    unfold libevtx_record_values_free, libfwevt_xml_document_free.
    cbn [xml_document set_xml_document].
    rewrite bool_decide_eq_false_2 by done. run.
    by rewrite fresh_document_free.
  - intros [= <- <- <-].
    unfold libevtx_record_values_free.
    cbn [xml_document set_xml_document].
    by rewrite bool_decide_eq_true_2.
Qed.

Lemma clone_then_free_destination_witness :
  exists h1 destination,
    libevtx_record_values_clone true qualified_store (Some None)
      (Some qualified_record)
    = (1, h1, Some (Some destination), None)
    /\ libevtx_record_values_free h1 (Some (Some destination))
       = (1, qualified_store, Some None, None).
Proof.
  eexists _, _. split; [reflexivity |].
  apply (clone_then_free_destination true qualified_store qualified_record
           _ _ None).
  reflexivity.
Defined.

(** X24: a clone does not outlive its source unharmed: after a call of
    [libevtx_record_values_clone] for a source that has memoised the value
    of EventID in its document, and [libevtx_record_values_free] of the
    source, the destination still has its own document, but its memoised
    handle is the one of the source and the tag it pointed to is gone. *)
Theorem clone_then_free_source h source a d p :
  xml_document source = Some a ->
  h !! a = Some d ->
  event_identifier_value source = Some (ValuePtr p) ->
  ptr_document p = a ->
  exists h1 a' destination h2,
    libevtx_record_values_clone true h (Some None) (Some source)
    = (1, h1, Some (Some destination), None)
    /\ libevtx_record_values_free h1 (Some (Some source))
       = (1, h2, Some None, None)
    /\ xml_document destination = Some a'
    /\ h2 !! a' = Some d
    /\ event_identifier_value destination = Some (ValuePtr p)
    /\ resolve_tag h2 p = None.
Proof.
  intros Ha Hd Hmemo Hp.
  destruct (document_clone_fresh _ _ _ Hd) as (a' & Hclone & Hnew & Hne).
  exists (<[a' := d]> h), a',
    (set_xml_document (set_xml_document source None) (Some a')),
    (delete a (<[a' := d]> h)).
  unfold libevtx_record_values_clone, libevtx_record_values_free,
    libfwevt_xml_document_free.
  cbn [negb]. rewrite Ha, Hclone.
  rewrite bool_decide_eq_false_2 by done. run.
  split; [done |]. split; [done |]. split; [done |].
  split; [| split; [done |]].
  - rewrite lookup_delete_ne by done. apply lookup_insert_eq.
  - unfold resolve_tag. rewrite Hp. by rewrite lookup_delete_eq.
Qed.

Lemma clone_then_free_source_witness :
  exists h1 a' destination h2,
    libevtx_record_values_clone true qualified_store (Some None)
      (Some qualified_record_resolved)
    = (1, h1, Some (Some destination), None)
    /\ libevtx_record_values_free h1 (Some (Some qualified_record_resolved))
       = (1, h2, Some None, None)
    /\ xml_document destination = Some a'
    /\ h2 !! a' = Some (XmlDocument (Some qualified_event))
    /\ event_identifier_value destination
       = Some (ValuePtr (TagPtr 7 [ElementStep 0; ElementStep 0]))
    /\ resolve_tag h2 (TagPtr 7 [ElementStep 0; ElementStep 0]) = None.
Proof.
  exact (clone_then_free_source qualified_store qualified_record_resolved
           7%nat (XmlDocument (Some qualified_event))
           (TagPtr 7 [ElementStep 0; ElementStep 0])
           eq_refl eq_refl eq_refl eq_refl).
Defined.
